(** * SafeSend risk evaluation (X-Wallet)

    A shallow embedding of the two risk-evaluation workers of the
    repository:

    - [SafeSend]: the "Alchemy-only heuristics" worker (function
      [runRiskEval] and its helpers, answering [{score, decision, factors}]);
    - [Worker]: [Safesend-worker/Worker.js] (one [fetch] handler that
      accumulates [score] through [addFinding], answering
      [{score, findings}]).

    The module [Wallet] adds [fetchSafeSend] and [showRiskModal] of the
    wallet page, which asks [Worker.js] for a score and gates the Proceed
    button on it.

    Conventions of the embedding:
    - a JavaScript string is the string of the bytes of its UTF-8 encoding;
    - JavaScript exceptions and rejected promises are values of [outcome];
    - the upstream JSON-RPC provider is a table of replies, one per lookup;
    - [Math.random] and [Date.now] are explicit arguments;
    - built-ins whose result on a string is left to the host ([Date.parse],
      [Number] on a string, [toFixed], [JSON.parse]) and the one sum of two
      doubles that can round are the fields of the class [Host]; every
      theorem holds for every host;
    - the results of the provider have the types of its interface: a string
      for [eth_getCode] and [eth_getTransactionCount], and for a transfer
      lookup a list of objects whose fields are strings, numbers or
      missing. *)

From Stdlib Require Import ZArith QArith List String Ascii Bool Lia ListSet DecimalString.
Import ListNotations.
Local Open Scope string_scope.
Local Open Scope Z_scope.

(* ------------------------------------------------------------------------- *)
(** * JavaScript values and built-ins *)

Module JS.

(** Integral numbers: the results of [Date.parse] and of [parseInt] are an
    integer or [NaN].  ([-0] is identified with [0]: both are falsy and
    [=== 0].) *)
Inductive num : Type :=
| NaN
| Num (z : Z).

(** Real-valued numbers (ETH amounts). A finite double is the rational it
    denotes. *)
Inductive float : Type :=
| FNaN
| PosInf
| NegInf
| Fin (q : Q).

(** Rejections.  [Error m] is [new Error(m)]; [HostError] is an exception
    raised by the host itself ([fetch] failing, [r.json()] on a malformed
    body, a [TypeError]), whose message is implementation-defined. *)
Inductive error : Type :=
| Error (message : string)
| HostError.

(** A settled promise or a finished call.  [Throw] carries the reasons of
    the rejected operations: [Promise.all] rejects with the reason of the
    operation that settles first, which is one of the list. *)
Inductive outcome (A : Type) : Type :=
| Return (a : A)
| Throw (reasons : list error).
Arguments Return {A} a.
Arguments Throw {A} reasons.

(** [p.catch(() => v)]. *)
Definition catch {A : Type} (p : outcome A) (v : A) : outcome A :=
  match p with
  | Return a => Return a
  | Throw _ => Return v
  end.

Definition reasons_of {A : Type} (p : outcome A) : list error :=
  match p with
  | Return _ => []
  | Throw es => es
  end.

(** [x || d] on a string that may be [null]/[undefined]: the empty string
    is falsy too. *)
Definition or_else (x : option string) (d : string) : string :=
  match x with
  | Some s => if (s =? "")%string then d else s
  | None => d
  end.

(** Truthiness of a string-or-missing value. *)
Definition truthy (x : option string) : bool :=
  match x with
  | Some s => negb (s =? "")%string
  | None => false
  end.

Definition is_upper (c : ascii) : bool :=
  let n := nat_of_ascii c in (65 <=? n)%nat && (n <=? 90)%nat.

Definition lower_char (c : ascii) : ascii :=
  if is_upper c then ascii_of_nat (nat_of_ascii c + 32) else c.

(** [String.prototype.toLowerCase] on the ASCII letters; the bytes of the
    other characters are kept.  The built-in lowercases other letters too,
    and the result then holds a character that is not ASCII (the Kelvin sign
    apart, which becomes k): the two agree on every ASCII string, and on
    every string as to whether the result is a given hexadecimal address or
    the chain name "sepolia". *)
Fixpoint toLowerCase (s : string) : string :=
  match s with
  | EmptyString => EmptyString
  | String c r => String (lower_char c) (toLowerCase r)
  end.

(** White space and line terminators (ECMAScript 12.2 and 12.3), which
    [trim] and [parseInt] strip.  One byte: TAB, LF, VT, FF, CR and SP. *)
Definition is_ws (c : ascii) : bool :=
  match nat_of_ascii c with
  | 9%nat | 10%nat | 11%nat | 12%nat | 13%nat | 32%nat => true
  | _ => false
  end.

Definition is_byte (k : N) (c : ascii) : bool := (N_of_ascii c =? k)%N.

Definition byte_between (lo hi : N) (c : ascii) : bool :=
  (lo <=? N_of_ascii c)%N && (N_of_ascii c <=? hi)%N.

(** Two bytes: U+00A0 (C2 A0). *)
Definition is_ws2 (c d : ascii) : bool := is_byte 194 c && is_byte 160 d.

(** Three bytes: U+1680 (E1 9A 80), U+2000 to U+200A (E2 80 80 to 8A),
    U+2028 and U+2029 (E2 80 A8, A9), U+202F (E2 80 AF), U+205F (E2 81 9F),
    U+3000 (E3 80 80) and U+FEFF (EF BB BF). *)
Definition is_ws3 (c d e : ascii) : bool :=
  is_byte 225 c && is_byte 154 d && is_byte 128 e ||
  is_byte 226 c && is_byte 128 d &&
    (byte_between 128 138 e || is_byte 168 e || is_byte 169 e || is_byte 175 e) ||
  is_byte 226 c && is_byte 129 d && is_byte 159 e ||
  is_byte 227 c && is_byte 128 d && is_byte 128 e ||
  is_byte 239 c && is_byte 187 d && is_byte 191 e.

Fixpoint trimStart (s : string) : string :=
  match s with
  | EmptyString => EmptyString
  | String c r =>
      if is_ws c then trimStart r
      else
        match r with
        | EmptyString => s
        | String d r2 =>
            if is_ws2 c d then trimStart r2
            else
              match r2 with
              | EmptyString => s
              | String e r3 => if is_ws3 c d e then trimStart r3 else s
              end
        end
  end.

(** The string is white space only. *)
Fixpoint all_ws (s : string) : bool :=
  match s with
  | EmptyString => true
  | String c r =>
      if is_ws c then all_ws r
      else
        match r with
        | EmptyString => false
        | String d r2 =>
            if is_ws2 c d then all_ws r2
            else
              match r2 with
              | EmptyString => false
              | String e r3 => is_ws3 c d e && all_ws r3
              end
        end
  end.

(** The string is cut where what remains is white space only; no byte
    inside a character starts white space. *)
Fixpoint trimEnd (s : string) : string :=
  match s with
  | EmptyString => EmptyString
  | String c r => if all_ws s then EmptyString else String c (trimEnd r)
  end.

Definition trim (s : string) : string := trimEnd (trimStart s).

(** [s.split(",")]: the empty string splits into one empty part. *)
Fixpoint split_comma (s : string) : list string :=
  match s with
  | EmptyString => [EmptyString]
  | String c r =>
      let parts := split_comma r in
      if Ascii.eqb c ","%char then EmptyString :: parts
      else match parts with
           | p :: ps => String c p :: ps
           | [] => [String c EmptyString]
           end
  end.

Definition hex_digit (c : ascii) : option Z :=
  let n := nat_of_ascii c in
  if (48 <=? n)%nat && (n <=? 57)%nat then Some (Z.of_nat n - 48)
  else if (97 <=? n)%nat && (n <=? 102)%nat then Some (Z.of_nat n - 87)
  else if (65 <=? n)%nat && (n <=? 70)%nat then Some (Z.of_nat n - 55)
  else None.

Definition is_hex (c : ascii) : bool :=
  match hex_digit c with Some _ => true | None => false end.

Definition is_lower_hex (c : ascii) : bool := is_hex c && negb (is_upper c).

Fixpoint all_chars (p : ascii -> bool) (s : string) : bool :=
  match s with
  | EmptyString => true
  | String c r => p c && all_chars p r
  end.

(** The regular expression [/^0x[a-fA-F0-9]{40}$/]. *)
Definition is_address (s : string) : bool :=
  match s with
  | String "0" (String "x" h) => (String.length h =? 40)%nat && all_chars is_hex h
  | _ => false
  end.

(** The regular expression [/^0x[a-f0-9]{40}$/]. *)
Definition is_lower_address (s : string) : bool :=
  match s with
  | String "0" (String "x" h) => (String.length h =? 40)%nat && all_chars is_lower_hex h
  | _ => false
  end.

(** [s.slice(2)]. *)
Definition slice2 (s : string) : string :=
  match s with
  | String _ (String _ r) => r
  | _ => EmptyString
  end.

(** [s.includes(pat)]. *)
Fixpoint includes (pat s : string) : bool :=
  String.prefix pat s ||
  match s with
  | EmptyString => false
  | String _ r => includes pat r
  end.

(** The longest prefix of hexadecimal digits, as a number; [None] when the
    prefix is empty. *)
Fixpoint hex_prefix (s : string) (acc : option Z) : option Z :=
  match s with
  | EmptyString => acc
  | String c r =>
      match hex_digit c with
      | Some d => hex_prefix r (Some (16 * match acc with Some v => v | None => 0 end + d))
      | None => acc
      end
  end.

(** The double nearest to an integer, ties to even: the integer itself up
    to 2^53, and 53 significant bits beyond.  (An integer of 2^1024 or more
    stands for the infinity it rounds to: like it, it is neither 0 nor
    below 3.) *)
Definition round_double (n : Z) : Z :=
  let m := Z.abs n in
  if m <? 2 ^ 53 then n
  else
    let e := Z.log2 m - 52 in
    let q := Z.shiftr m e in
    let r := m - Z.shiftl q e in
    let half := Z.shiftl 1 (e - 1) in
    let q := if (half <? r) || ((half =? r) && Z.odd q) then q + 1 else q in
    Z.sgn n * Z.shiftl q e.

(** [parseInt(s, 16)] (ECMAScript 19.2.5): leading white space is skipped,
    a sign and a [0x]/[0X] prefix are accepted, then the longest run of
    hexadecimal digits is read; no digit gives [NaN], and the integer read
    is rounded to a double. *)
Definition parseInt16 (s : string) : num :=
  let s1 := trimStart s in
  let '(sign, s2) :=
    match s1 with
    | String "-" r => (-1, r)
    | String "+" r => (1, r)
    | _ => (1, s1)
    end in
  let s3 :=
    match s2 with
    | String "0" (String "x" r) => r
    | String "0" (String "X" r) => r
    | _ => s2
    end in
  match hex_prefix s3 None with
  | Some v => Num (round_double (sign * v))
  | None => NaN
  end.

(** [`${n}`] for an integer. *)
Definition string_of_Z (n : Z) : string := NilZero.string_of_int (Z.to_int n).

(** [x > 0], [x < y] on numbers: a comparison with [NaN] is false. *)
Definition float_pos (x : float) : bool :=
  match x with
  | PosInf => true
  | Fin q => negb (Qle_bool q 0)
  | _ => false
  end.

Definition float_lt (x y : float) : bool :=
  match x, y with
  | FNaN, _ | _, FNaN => false
  | PosInf, _ => false
  | _, NegInf => false
  | NegInf, _ => true
  | Fin _, PosInf => true
  | Fin a, Fin b => negb (Qle_bool b a)
  end.

(** [Number.isFinite]. *)
Definition isFinite (x : float) : option Q :=
  match x with Fin q => Some q | _ => None end.

(** The host: built-ins whose value on a string is fixed by the engine, not
    by this program, and the mean of two doubles, whose sum rounds. *)
Inductive json : Type :=
| JsonSyntaxError                              (* JSON.parse throws *)
| JsonNull                                     (* the text "null" *)
| JsonObject (fields : list (string * string)) (* an object of labels *)
| JsonOther.                                   (* number, string, boolean, array *)

Class Host : Type := {
  Date_parse : string -> num;      (* Date.parse: epoch milliseconds or NaN *)
  Number_str : string -> float;    (* Number(s) for a string s *)
  toFixed6 : float -> string;      (* x.toFixed(6) *)
  Number_toString : float -> string; (* `${x}` *)
  JSON_parse : string -> json;     (* JSON.parse *)
  mean : Q -> Q -> float           (* (a + b) / 2 on two finite doubles *)
}.

End JS.

(* ------------------------------------------------------------------------- *)
(** * The upstream provider *)

Module Alchemy.
Import JS.

(** The [value] of a raw transfer: a JSON number or a string. *)
Inductive amount : Type :=
| AmountNumber (x : float)
| AmountString (s : string).

(** A raw transfer as the provider returns it: an object whose fields have
    the types of the provider's interface; [None] is a field that is missing
    or [null].  [raw_blockTimestamp] is [t?.metadata?.blockTimestamp].  (An
    entry that is [null], or a field of another type, is outside the
    embedding.) *)
Record RawTransfer : Type := {
  raw_hash : option string;
  raw_from : option string;
  raw_to : option string;
  raw_value : option amount;
  raw_blockTimestamp : option string
}.

(** The JSON-RPC answer to one lookup: [j.result], or [j.error]. *)
Inductive answer (A : Type) : Type :=
| RpcResult (result : A)
| RpcFault (code : option Z) (message : option string).
Arguments RpcResult {A} result.
Arguments RpcFault {A} code message.

(** What the provider does with one lookup: no HTTP response at all, or a
    response with a status and a body ([None]: a body that is not JSON). *)
Inductive reply (A : Type) : Type :=
| Unreachable
| Http (status : Z) (body : option (answer A)).
Arguments Unreachable {A}.
Arguments Http {A} status body.

(** The replies to the lookups for the address under evaluation.  The
    results of [eth_getCode] and [eth_getTransactionCount] are strings, as
    the interface of the provider has them; the two transfer lookups answer
    [result.transfers] ([None] when absent). *)
Record Upstream : Type := {
  eth_getCode : reply string;
  eth_getTransactionCount : reply string;
  transfers_from : reply (option (list RawTransfer));
  transfers_to : reply (option (list RawTransfer))
}.

(** On the wire the JSON-RPC envelope echoes the [id] of the request. *)
Record envelope (A : Type) : Type := {
  j_id : Z;
  j_answer : answer A
}.
Arguments j_id {A} e.
Arguments j_answer {A} e.

Inductive response (A : Type) : Type :=
| Rejected
| Responded (status : Z) (json : option (envelope A)).
Arguments Rejected {A}.
Arguments Responded {A} status json.

(** [fetch(url, {method: 'POST', body})] against the provider. *)
Definition post {A : Type} (id : Z) (r : reply A) : response A :=
  match r with
  | Unreachable => Rejected
  | Http status body =>
      Responded status
        (option_map (fun a => {| j_id := id; j_answer := a |}) body)
  end.

(** [r.ok]. *)
Definition ok (status : Z) : bool := (200 <=? status) && (status <=? 299).

(** A lookup that the provider answers with status 200 and a result. *)
Definition answered {A : Type} (a : A) : reply A := Http 200 (Some (RpcResult a)).

(** The same provider with another reply to one of the transfer lookups. *)
Definition with_transfers_from (up : Upstream)
  (r : reply (option (list RawTransfer))) : Upstream :=
  {| eth_getCode := eth_getCode up;
     eth_getTransactionCount := eth_getTransactionCount up;
     transfers_from := r;
     transfers_to := transfers_to up |}.

Definition with_transfers_to (up : Upstream)
  (r : reply (option (list RawTransfer))) : Upstream :=
  {| eth_getCode := eth_getCode up;
     eth_getTransactionCount := eth_getTransactionCount up;
     transfers_from := transfers_from up;
     transfers_to := r |}.

End Alchemy.

(* ------------------------------------------------------------------------- *)
(** * The SafeSend worker ([runRiskEval]) *)

Module SafeSend.
Import JS Alchemy.

Section WithHost.
Context {host : Host}.

Inductive Severity : Type := low | medium | high.

Definition Severity_eqb (a b : Severity) : bool :=
  match a, b with
  | low, low | medium, medium | high, high => true
  | _, _ => false
  end.

Record Factor : Type := {
  severity : Severity;
  label : string;
  reason : string
}.

Definition factor (severity : Severity) (label reason : string) : Factor :=
  {| severity := severity; label := label; reason := reason |}.

Inductive Decision : Type := allow | block.

Record Assessment : Type := {
  score : Z;
  decision : Decision;
  factors : list Factor
}.

Record Transfer : Type := {
  hash : string;
  from : string;
  to : string;
  valueEth : option float;
  timestamp : Z
}.

Record Env : Type := {
  ALCHEMY_SEPOLIA_URL : option string;
  BADLIST : option string;
  DUST_WATCHLIST : option string
}.

(** ** RPC primitive *)

(** [rpc(url, method, params)]; [random] is [Math.floor(Math.random() * 1e9)]
    and [r] the provider's reply to this lookup. *)
Definition rpc {A : Type} (random : Z) (method : string) (r : reply A) : outcome A :=
  let id := random in
  match post id r with
  | Rejected => Throw [HostError]
  | Responded status json =>
      if negb (ok status) then Throw [Error ("rpc_http_" ++ string_of_Z status)]
      else
        match json with
        | None => Throw [HostError]
        | Some j =>
            match j_answer j with
            | RpcFault code _ =>
                let c := match code with
                         | Some c => if c =? 0 then "" else string_of_Z c
                         | None => ""
                         end in
                Throw [Error ("rpc_" ++ method ++ "_error_" ++ c)]
            | RpcResult result => Return result
            end
        end
  end.

(** [Promise.all([a, b, c, d])]. *)
Definition Promise_all4 {A B C D : Type}
  (a : outcome A) (b : outcome B) (c : outcome C) (d : outcome D)
  : outcome (A * B * C * D) :=
  match a, b, c, d with
  | Return x, Return y, Return z, Return w => Return (x, y, z, w)
  | _, _, _, _ =>
      Throw (reasons_of a ++ reasons_of b ++ reasons_of c ++ reasons_of d)%list
  end.

(** ** Utils *)

Definition Number (v : amount) : float :=
  match v with
  | AmountNumber x => x
  | AmountString s => Number_str s
  end.

Definition normalizeTransfer (t : RawTransfer) : Transfer :=
  let ts := if truthy (raw_blockTimestamp t)
            then Date_parse (or_else (raw_blockTimestamp t) "")
            else Num 0 in
  let valueEth := match raw_value t with
                  | Some v => Some (Number v)
                  | None => None
                  end in
  {| hash := or_else (raw_hash t) "";
     from := toLowerCase (or_else (raw_from t) "");
     to := toLowerCase (or_else (raw_to t) "");
     valueEth := valueEth;
     timestamp := match ts with Num z => z | NaN => 0 end |}.

Definition hexToInt (h : string) : Z :=
  match parseInt16 h with
  | Num z => z
  | NaN => 0
  end.

Definition countWithin (nowMs : Z) (list : list Transfer) (windowMs : Z) : Z :=
  let cutoff := nowMs - windowMs in
  Z.of_nat (List.length (filter (fun t => cutoff <=? timestamp t) list)).

(** A [Map] from strings to counters, in insertion order. *)
Fixpoint Map_get (k : string) (m : list (string * Z)) : option Z :=
  match m with
  | [] => None
  | (k', v) :: r => if (k =? k')%string then Some v else Map_get k r
  end.

Fixpoint Map_set (k : string) (v : Z) (m : list (string * Z)) : list (string * Z) :=
  match m with
  | [] => [(k, v)]
  | (k', v') :: r =>
      if (k =? k')%string then (k, v) :: r else (k', v') :: Map_set k v r
  end.

Record Repeats : Type := {
  maxRepeats : Z;
  amountStr : string
}.

Definition repeatedAmounts (list : list Transfer) : Repeats :=
  let counts :=
    fold_left
      (fun counts t =>
         match valueEth t with
         | None => counts
         | Some v =>
             let key := toFixed6 v in
             Map_set key (match Map_get key counts with Some n => n | None => 0 end + 1) counts
         end)
      list [] in
  fold_left
    (fun acc kv =>
       if maxRepeats acc <? snd kv
       then {| maxRepeats := snd kv; amountStr := fst kv |}
       else acc)
    counts {| maxRepeats := 0; amountStr := "" |}.

Definition freshInThenOut (inbound outbound : list Transfer) (windowMs : Z) : bool :=
  match inbound, outbound with
  | [], _ => false
  | _, [] => false
  | latestIn :: _, _ =>
      match find (fun o => timestamp latestIn <=? timestamp o) outbound with
      | None => false
      | Some firstOutAfter =>
          timestamp firstOutAfter - timestamp latestIn <=? windowMs
      end
  end.

(** A [Set] of strings, in insertion order. *)
Definition Set_has (s : set string) (x : string) : bool := set_mem string_dec x s.

Definition parseCsvList (str : option string) : set string :=
  if negb (truthy str) then empty_set string
  else
    fold_left
      (fun out part =>
         let a := toLowerCase (trim part) in
         if is_lower_address a then set_add string_dec a out else out)
      (split_comma (or_else str "")) (empty_set string).

(** ** Risk evaluation *)

(** The double written [0.0005]: 1152921504606847 / 2^61. *)
Definition tiny_cutoff : float := Fin (1152921504606847 # 2305843009213693952).

(** [factors.push(f)]. *)
Definition push (factors : list Factor) (f : Factor) : list Factor :=
  (factors ++ [f])%list.

(** The body of [runRiskEval] once the four lookups have settled, in two
    parts: the heuristics, which fill [factors], and the aggregation. *)
Definition heuristics (nowMs : Z) (address : string) (BADLIST DUST_WATCH : set string)
  (code nonce : string) (outTxs inTxs : option (list RawTransfer)) : list Factor :=
  let out := map normalizeTransfer (match outTxs with Some l => l | None => [] end) in
  let inn := map normalizeTransfer (match inTxs with Some l => l | None => [] end) in
  let factors : list Factor := [] in
  (* Heuristic: known-bad address list *)
  let factors :=
    if Set_has BADLIST (toLowerCase address)
    then push factors (factor high "On blocklist"
                       "Recipient is present in a locally configured blocklist.")
    else factors in
  (* Heuristic: contract address receiving funds *)
  let isContract := negb (code =? "")%string && negb (code =? "0x")%string in
  let factors :=
    if isContract
    then push factors (factor medium "Contract address" "Recipient is a contract (non-EOA).")
    else factors in
  (* Heuristic: brand-new or dormant address *)
  let txCount := hexToInt nonce in
  let factors :=
    if txCount =? 0
    then push factors (factor medium "New address"
                       "Recipient has no prior transactions (nonce 0).")
    else if txCount <? 3
    then push factors (factor low "Very low activity"
                       "Recipient has very limited on-chain activity.")
    else factors in
  (* Heuristic: bursty outbounds *)
  let burst24 := countWithin nowMs out (24 * 60 * 60 * 1000) in
  let factors :=
    if 10 <=? burst24
    then push factors (factor high "High-frequency outbounds"
                       ("~" ++ string_of_Z burst24 ++ " outgoing transfers in last 24h."))
    else if 5 <=? burst24
    then push factors (factor medium "Frequent outbounds"
                       ("~" ++ string_of_Z burst24 ++ " outgoing transfers in last 24h."))
    else factors in
  (* Heuristic: dust pattern *)
  let tiny :=
    filter (fun t => match valueEth t with
                     | None => false
                     | Some v => float_pos v && float_lt v tiny_cutoff
                     end) inn in
  let tiny_length := Z.of_nat (List.length tiny) in
  let factors :=
    if 6 <=? tiny_length
    then push factors (factor medium "Dusting pattern"
                       (string_of_Z tiny_length ++ " tiny inbound transfers observed."))
    else if 3 <=? tiny_length
    then push factors (factor low "Possible dusting"
                       (string_of_Z tiny_length ++ " tiny inbound transfers observed."))
    else factors in
  (* Heuristic: repeated equal outbound amounts *)
  let repeatOut := repeatedAmounts out in
  let factors :=
    if 8 <=? maxRepeats repeatOut
    then push factors (factor medium "Repeated equal amounts"
                       ("Outbound transfers show repeated amount "
                          ++ amountStr repeatOut ++ " ETH."))
    else factors in
  (* Heuristic: fresh funds then quick out (within 10 minutes) *)
  let quickOut := freshInThenOut inn out (10 * 60 * 1000) in
  let factors :=
    if quickOut
    then push factors (factor high "Fresh funds → fast outflow"
                       "Outbound occurred shortly after inbound (≤10m).")
    else factors in
  (* Heuristic: counterparties on dust watchlist *)
  let touchedWatch :=
    existsb (fun t => Set_has DUST_WATCH (toLowerCase (from t))) inn ||
    existsb (fun t => Set_has DUST_WATCH (toLowerCase (to t))) out in
  let factors :=
    if touchedWatch
    then push factors (factor low "Dust watchlist touch"
                       "History includes interaction with a watched address.")
    else factors in
  factors.

Definition assess (nowMs : Z) (address : string) (BADLIST DUST_WATCH : set string)
  (code nonce : string) (outTxs inTxs : option (list RawTransfer)) : Assessment :=
  let factors :=
    heuristics nowMs address BADLIST DUST_WATCH code nonce outTxs inTxs in
  (* Aggregate into score (0-100) *)
  let score := 10 in
  let score :=
    fold_left
      (fun score f =>
         let score := if Severity_eqb (severity f) high then score + 25 else score in
         let score := if Severity_eqb (severity f) medium then score + 12 else score in
         if Severity_eqb (severity f) low then score + 6 else score)
      factors score in
  let score := if Set_has BADLIST (toLowerCase address) then Z.max score 95 else score in
  (* Math.round is the identity on this integer *)
  let score := Z.max 0 (Z.min 100 score) in
  let decision := if 60 <=? score then block else allow in
  {| score := score; decision := decision; factors := factors |}.

(** [runRiskEval(address, env)].  [up] holds the provider's replies,
    [random k] is the value of the [k]-th call of
    [Math.floor(Math.random() * 1e9)] and [nowMs] the value of [Date.now()]. *)
Definition runRiskEval (up : Upstream) (random : nat -> Z) (nowMs : Z)
  (address : string) (env : Env) : outcome Assessment :=
  if negb (truthy (ALCHEMY_SEPOLIA_URL env))
  then Throw [Error "missing_ALCHEMY_SEPOLIA_URL"]
  else
    let BADLIST := parseCsvList (BADLIST env) in
    let DUST_WATCH := parseCsvList (DUST_WATCHLIST env) in
    match
      Promise_all4
        (rpc (random 0%nat) "eth_getCode" (eth_getCode up))
        (rpc (random 1%nat) "eth_getTransactionCount" (eth_getTransactionCount up))
        (catch (rpc (random 2%nat) "alchemy_getAssetTransfers" (transfers_from up)) (Some []))
        (catch (rpc (random 3%nat) "alchemy_getAssetTransfers" (transfers_to up)) (Some []))
    with
    | Throw reasons => Throw reasons
    | Return (code, nonce, outTxs, inTxs) =>
        Return (assess nowMs address BADLIST DUST_WATCH code nonce outTxs inTxs)
    end.

(** ** The HTTP handler *)

Record Request : Type := {
  method : string;
  pathname : string;
  param_address : option string;   (* url.searchParams.get('address') *)
  param_chain : option string      (* url.searchParams.get('chain') *)
}.

(** The responses of the worker (the CORS headers are the same on all of
    them and are left out). *)
Inductive Response : Type :=
| NoContent                                             (* 204 *)
| Health                                                (* 200, { ok: true } *)
| Json (res : Assessment)                               (* 200 *)
| JsonError (status : Z) (code : string) (detail : list error).

Definition fetch (up : Upstream) (random : nat -> Z) (nowMs : Z)
  (request : Request) (env : Env) : Response :=
  if (method request =? "OPTIONS")%string then NoContent
  else if (pathname request =? "/health")%string then Health
  else if (pathname request =? "/check")%string then
    let address := trim (or_else (param_address request) "") in
    let chain := toLowerCase (or_else (param_chain request) "sepolia") in
    if negb (is_address address) then JsonError 400 "invalid_address" []
    else if negb (chain =? "sepolia")%string then JsonError 400 "unsupported_chain" []
    else
      match runRiskEval up random nowMs address env with
      | Return res => Json res
      | Throw reasons => JsonError 500 "server_error" reasons
      end
  else JsonError 404 "not_found" [].

(** ** Vocabulary of the statements *)

(** The request reaches [runRiskEval] and the provider URL is configured. *)
Definition accepts (request : Request) (env : Env) : bool :=
  negb (method request =? "OPTIONS")%string &&
  (pathname request =? "/check")%string &&
  is_address (trim (or_else (param_address request) "")) &&
  (toLowerCase (or_else (param_chain request) "sepolia") =? "sepolia")%string &&
  truthy (ALCHEMY_SEPOLIA_URL env).

(** What one factor adds to the score. *)
Definition weight (f : Factor) : Z :=
  match severity f with
  | high => 25
  | medium => 12
  | low => 6
  end.

Definition total_weight (factors : list Factor) : Z :=
  fold_right (fun f acc => weight f + acc) 0 factors.

(** ** The heuristics one by one *)

(** What each heuristic of [runRiskEval] pushes, as a list of at most one
    factor; [out] and [inn] are the normalized transfers. *)
Definition label_in (labels : list string) (f : Factor) : bool :=
  existsb (String.eqb (label f)) labels.

Definition known_bad (BADLIST : set string) (address : string) : list Factor :=
  if Set_has BADLIST (toLowerCase address)
  then [factor high "On blocklist"
          "Recipient is present in a locally configured blocklist."]
  else [].

Definition contract_address (code : string) : list Factor :=
  if negb (code =? "")%string && negb (code =? "0x")%string
  then [factor medium "Contract address" "Recipient is a contract (non-EOA)."]
  else [].

Definition new_or_inactive (nonce : string) : list Factor :=
  if hexToInt nonce =? 0
  then [factor medium "New address" "Recipient has no prior transactions (nonce 0)."]
  else if hexToInt nonce <? 3
  then [factor low "Very low activity" "Recipient has very limited on-chain activity."]
  else [].

Definition bursty_outbounds (nowMs : Z) (out : list Transfer) : list Factor :=
  let burst24 := countWithin nowMs out (24 * 60 * 60 * 1000) in
  if 10 <=? burst24
  then [factor high "High-frequency outbounds"
          ("~" ++ string_of_Z burst24 ++ " outgoing transfers in last 24h.")]
  else if 5 <=? burst24
  then [factor medium "Frequent outbounds"
          ("~" ++ string_of_Z burst24 ++ " outgoing transfers in last 24h.")]
  else [].

Definition is_tiny (t : Transfer) : bool :=
  match valueEth t with
  | None => false
  | Some v => float_pos v && float_lt v tiny_cutoff
  end.

Definition dust_pattern (inn : list Transfer) : list Factor :=
  let tiny_length := Z.of_nat (List.length (filter is_tiny inn)) in
  if 6 <=? tiny_length
  then [factor medium "Dusting pattern"
          (string_of_Z tiny_length ++ " tiny inbound transfers observed.")]
  else if 3 <=? tiny_length
  then [factor low "Possible dusting"
          (string_of_Z tiny_length ++ " tiny inbound transfers observed.")]
  else [].

Definition repeated_equal_amounts (out : list Transfer) : list Factor :=
  if 8 <=? maxRepeats (repeatedAmounts out)
  then [factor medium "Repeated equal amounts"
          ("Outbound transfers show repeated amount "
             ++ amountStr (repeatedAmounts out) ++ " ETH.")]
  else [].

Definition fresh_funds_fast_out (inn out : list Transfer) : list Factor :=
  if freshInThenOut inn out (10 * 60 * 1000)
  then [factor high "Fresh funds → fast outflow"
          "Outbound occurred shortly after inbound (≤10m)."]
  else [].

Definition watchlist_touch (DUST_WATCH : set string) (inn out : list Transfer)
  : list Factor :=
  if existsb (fun t => Set_has DUST_WATCH (toLowerCase (from t))) inn ||
     existsb (fun t => Set_has DUST_WATCH (toLowerCase (to t))) out
  then [factor low "Dust watchlist touch"
          "History includes interaction with a watched address."]
  else [].

(** The transfers of a lookup result, normalized. *)
Definition normalized (txs : option (list RawTransfer)) : list Transfer :=
  map normalizeTransfer (match txs with Some l => l | None => [] end).

(** The keys that [repeatedAmounts] counts: the rounded amounts of the
    transfers that have one, in order. *)
Definition amount_keys (transfers : list Transfer) : list string :=
  flat_map (fun t => match valueEth t with
                     | Some v => [toFixed6 v]
                     | None => []
                     end) transfers.

(** How often [k] occurs in [keys]. *)
Definition occurrences (k : string) (keys : list string) : Z :=
  Z.of_nat (count_occ string_dec keys k).

(** [counts.get(key) || 0], and one iteration of the counting loop of
    [repeatedAmounts] for a transfer whose key is [key]. *)
Definition Map_count (counts : list (string * Z)) (key : string) : Z :=
  match Map_get key counts with
  | Some n => n
  | None => 0
  end.

Definition count_key (counts : list (string * Z)) (key : string) : list (string * Z) :=
  Map_set key (Map_count counts key + 1) counts.

(** One iteration of the loop of [repeatedAmounts] that picks the maximum. *)
Definition pick_max (acc : Repeats) (kv : string * Z) : Repeats :=
  if maxRepeats acc <? snd kv
  then {| maxRepeats := snd kv; amountStr := fst kv |}
  else acc.

End WithHost.
End SafeSend.

(* ------------------------------------------------------------------------- *)
(** * The worker of [Safesend-worker/Worker.js] *)

Module Worker.
Import JS Alchemy.

Section WithHost.
Context {host : Host}.

Inductive Level : Type := low | medium | high.

Record Finding : Type := {
  label : string;
  detail : string;
  level : Level
}.

(** The accumulator that [addFinding] mutates. *)
Record State : Type := {
  score : Z;
  findings : list Finding
}.

Record Env : Type := {
  ALCHEMY_SEPOLIA_RPC : option string;
  BADLIST_ADDRESSES : option string;
  BAD_ENS_NAMES : option string;
  BAD_ENS_ADDRS : option string;
  DUST_THRESHOLD_ETH : option string
}.

Record Request : Type := {
  pathname : string;
  param_address : option string;   (* url.searchParams.get("address") *)
  param_chain : option string;     (* url.searchParams.get("chain") *)
  param_ens : option string        (* url.searchParams.get("ens") *)
}.

Inductive Response : Type :=
| Json (score : Z) (findings : list Finding)   (* 200, { score, findings } *)
| JsonError (status : Z) (error : string).     (* { error }, status *)

Definition addFinding (label detail : string) (level : Level) (delta : Z)
  (st : State) : State :=
  {| score := score st + delta;
     findings := (findings st ++ [{| label := label; detail := detail; level := level |}])%list |}.

(** [rpc(method, params)]: the request id is the constant 1. *)
Definition rpc {A : Type} (r : reply A) : outcome A :=
  match post 1 r with
  | Rejected => Throw [HostError]
  | Responded status json =>
      if negb (ok status) then Throw [Error ("rpc_http_" ++ string_of_Z status)]
      else
        match json with
        | None => Throw [HostError]
        | Some j =>
            match j_answer j with
            | RpcFault _ message => Throw [Error (or_else message "rpc_error")]
            | RpcResult result => Return result
            end
        end
  end.

(** [(s || "").toLowerCase().split(",").map(s => s.trim()).filter(Boolean)]. *)
Definition csv (s : option string) : list string :=
  filter (fun p => negb (p =? "")%string)
    (map trim (split_comma (toLowerCase (or_else s "")))).

(** [list.includes(x)]. *)
Definition includes_str (l : list string) (x : string) : bool :=
  existsb (String.eqb x) l.

(** [o[k]] on the parsed [BAD_ENS_ADDRS]: a later binding of a key
    overrides an earlier one; reading a property of [null] is a
    [TypeError]. *)
Fixpoint last_binding (k : string) (fields : list (string * string)) : option string :=
  match fields with
  | [] => None
  | (k', v) :: r =>
      match last_binding k r with
      | Some w => Some w
      | None => if (k =? k')%string then Some v else None
      end
  end.

Definition Object_get (o : json) (k : string) : outcome (option string) :=
  match o with
  | JsonNull => Throw [HostError]
  | JsonObject fields => Return (last_binding k fields)
  | _ => Return None
  end.

(** ** Blocklists / negative reputation *)
Definition blocklists (BADLIST_ADDRESSES : list string) (BAD_ENS_ADDRS : json)
  (addr : string) (st : State) : outcome State :=
  let st :=
    if includes_str BADLIST_ADDRESSES (toLowerCase addr)
    then addFinding "Blocklisted" "Address appears on internal blocklist." high 90 st
    else st in
  match Object_get BAD_ENS_ADDRS (toLowerCase addr) with
  | Throw reasons => Throw reasons
  | Return link =>
      Return
        (if truthy link
         then addFinding "Negative ENS link"
                ("Associated with " ++ or_else link "") high 25 st
         else st)
  end.

(** ** Contract / bytecode: the [try] block around the [eth_getCode] lookup

    The result of the lookup is a string, on which [slice], [toLowerCase],
    [includes] and [length] do not throw: the [catch] is reached by a failed
    lookup only. *)
Definition contract (lookup : outcome string) (st : State) : State :=
  match lookup with
  | Return bytecode =>
      let isContract := negb (bytecode =? "")%string && negb (bytecode =? "0x")%string in
      if isContract then
        let st := addFinding "Contract" "Recipient is a contract address." medium 10 st in
        let st :=
          if includes "363d3d" (toLowerCase (slice2 bytecode))
          then addFinding "Proxy pattern" "EIP-1167 minimal proxy detected." medium 6 st
          else st in
        if (String.length bytecode <? 200)%nat
        then addFinding "Tiny bytecode" "Contract runtime is unusually short." medium 6 st
        else st
      else addFinding "EOA" "Recipient is an externally owned address." low 0 st
  | Throw _ =>
      addFinding "Unknown type" "Could not verify contract/EOA." low 0 st
  end.

(** ** Transfers / activity *)

Definition recentMs (t : RawTransfer) : num :=
  if truthy (raw_blockTimestamp t)
  then Date_parse (or_else (raw_blockTimestamp t) "")
  else Num 0.

Definition num_max (a b : num) : num :=
  match a, b with
  | Num x, Num y => Num (Z.max x y)
  | _, _ => NaN
  end.

Definition num_min (a b : num) : num :=
  match a, b with
  | Num x, Num y => Num (Z.min x y)
  | _, _ => NaN
  end.

(** [xs.length ? Math.max(...xs) : 0] and the same with [Math.min]. *)
Definition max_or_0 (xs : list num) : num :=
  match xs with
  | [] => Num 0
  | x :: r => fold_left num_max r x
  end.

Definition min_or_0 (xs : list num) : num :=
  match xs with
  | [] => Num 0
  | x :: r => fold_left num_min r x
  end.

(** [ts ? (now - ts) / 86400000 : null]; [None] is [null].  The quotient is
    the exact rational (the double division is correctly rounded and
    monotone, so comparisons with the integers 1, 7, 30 and 180 agree). *)
Definition daysSince (now : Z) (ts : num) : option Q :=
  match ts with
  | NaN => None
  | Num z => if z =? 0 then None else Some (inject_Z (now - z) / inject_Z 86400000)%Q
  end.

(** [ToNumber]: [null] converts to [+0] in a relational comparison. *)
Definition ToNumber (d : option Q) : Q :=
  match d with
  | Some q => q
  | None => 0%Q
  end.

Definition days_lt (d : option Q) (k : Q) : bool := negb (Qle_bool k (ToNumber d)).
Definition days_gt (d : option Q) (k : Q) : bool := negb (Qle_bool (ToNumber d) k).

(** [new Set(l).size]. *)
Definition Set_size (l : list string) : Z :=
  Z.of_nat (List.length (fold_left (fun s x => set_add string_dec x s) l (empty_set string))).

(** [parseEth]. *)
Definition parseEth (v : option amount) : float :=
  match v with
  | Some (AmountNumber x) => x
  | Some (AmountString s) => if (s =? "")%string then Fin 0 else Number_str s
  | None => Fin 0
  end.

(** [values.sort((a, b) => a - b)] on finite numbers. *)
Fixpoint insert_sorted (x : Q) (l : list Q) : list Q :=
  match l with
  | [] => [x]
  | y :: r => if Qle_bool y x then y :: insert_sorted x r else x :: l
  end.

Definition sort_numeric (l : list Q) : list Q :=
  fold_left (fun acc x => insert_sorted x acc) l [].

Fixpoint keep_finite (l : list float) : list Q :=
  match l with
  | [] => []
  | x :: r =>
      match isFinite x with
      | Some q => q :: keep_finite r
      | None => keep_finite r
      end
  end.

(** The median of a sorted array: the middle value, or the mean of the two
    middle values, which is computed on doubles. *)
Definition median_of (sorted : list Q) : float :=
  let mid := Nat.div2 (List.length sorted) in
  if Nat.odd (List.length sorted)
  then Fin (nth mid sorted 0%Q)
  else mean (nth (mid - 1) sorted 0%Q) (nth mid sorted 0%Q).

Definition nonempty (s : string) : bool := negb (s =? "")%string.

(** The block between the transfer lookups and the ENS check.  [Date_now k]
    is the value of the [k]-th call of [Date.now()], which is made only
    when the timestamp at hand is truthy. *)
Definition activity (Date_now : nat -> Z) (outs ins : list RawTransfer)
  (DUST_THRESHOLD_ETH : float) (st : State) : State :=
  let all := (outs ++ ins)%list in
  let latestTs := max_or_0 (map recentMs all) in
  let firstTs := min_or_0 (map recentMs all) in
  let daysSinceFirst := daysSince (Date_now 0%nat) firstTs in
  let calls := match daysSinceFirst with Some _ => 1%nat | None => 0%nat end in
  let daysSinceLatest := daysSince (Date_now calls) latestTs in
  if (List.length all =? 0)%nat
  then addFinding "No history" "No transactions found on Sepolia." medium 22 st
  else
    let st :=
      if days_lt daysSinceFirst 1
      then addFinding "New address" "First seen < 24h." high 28 st
      else if days_lt daysSinceFirst 7
      then addFinding "Newish address" "First seen < 7d." medium 18 st
      else if days_lt daysSinceFirst 30
      then addFinding "Recent address" "First seen < 30d." low 8 st
      else st in
    let st :=
      if (List.length all <? 5)%nat
      then addFinding "Low activity" "Fewer than 5 total transfers." medium 10 st
      else st in
    let st :=
      if (List.length outs =? 0)%nat
      then addFinding "Inbound only" "No outbound history." low 6 st
      else st in
    let uniqueRecipients :=
      Set_size (filter nonempty (map (fun t => toLowerCase (or_else (raw_to t) "")) outs)) in
    let st :=
      if 10 <=? uniqueRecipients
      then addFinding "Fan-out"
             (string_of_Z uniqueRecipients ++ " distinct recent recipients.") high 18 st
      else st in
    let senders := filter nonempty (map (fun t => toLowerCase (or_else (raw_from t) "")) ins) in
    let uniqueSenders := Set_size senders in
    let st :=
      if (5 <=? List.length ins)%nat && (5 <=? uniqueSenders) && (List.length outs =? 0)%nat
      then addFinding "Inbound burst"
             "Many unique inbound senders, no outbound history." medium 10 st
      else st in
    let incomingValues := keep_finite (map (fun t => parseEth (raw_value t)) ins) in
    let st :=
      if (3 <=? List.length incomingValues)%nat
      then
        let median := median_of (sort_numeric incomingValues) in
        if float_pos median && float_lt median DUST_THRESHOLD_ETH
        then addFinding "Dusting"
               ("Median inbound < " ++ Number_toString DUST_THRESHOLD_ETH ++ " ETH.")
               medium 12 st
        else st
      else st in
    if days_gt daysSinceLatest 180
    then addFinding "Dormant" "Last activity > 180 days ago. Slightly safer." low (-5) st
    else st.

(** ** ENS negatives (if passed as [?ens=]) *)
Definition ens_negatives (param_ens : option string) (BAD_ENS_NAMES : list string)
  (st : State) : State :=
  let ens := or_else param_ens "" in
  if nonempty ens && includes_str BAD_ENS_NAMES (toLowerCase ens)
  then addFinding "ENS flagged" (ens ++ " has negative reputation.") high 20 st
  else st.

(** [Math.max(0, Math.min(100, score))]. *)
Definition clamp (score : Z) : Z := Z.max 0 (Z.min 100 score).

(** [let BAD_ENS_ADDRS = {}; try { BAD_ENS_ADDRS = JSON.parse(s || "{}") } catch {}]. *)
Definition parse_ens_addrs (s : option string) : json :=
  match JSON_parse (or_else s "{}") with
  | JsonSyntaxError => JsonObject []
  | parsed => parsed
  end.

(** The handler.  Every exception inside it is caught by the outer [try]
    and answered with status 500. *)
Definition fetch (up : Upstream) (Date_now : nat -> Z) (request : Request)
  (env : Env) : Response :=
  if negb (pathname request =? "/check")%string then JsonError 404 "not_found"
  else
    let addr := trim (or_else (param_address request) "") in
    let chain := toLowerCase (or_else (param_chain request) "sepolia") in
    if negb (is_address addr) then JsonError 400 "bad_address"
    else if negb (chain =? "sepolia")%string then JsonError 400 "unsupported_chain"
    else if negb (truthy (ALCHEMY_SEPOLIA_RPC env))
    then JsonError 500 "missing_ALCHEMY_SEPOLIA_RPC"
    else
      let BADLIST_ADDRESSES := csv (BADLIST_ADDRESSES env) in
      let BAD_ENS_NAMES := csv (BAD_ENS_NAMES env) in
      let BAD_ENS_ADDRS := parse_ens_addrs (BAD_ENS_ADDRS env) in
      let DUST_THRESHOLD_ETH := Number_str (or_else (DUST_THRESHOLD_ETH env) "0.00002") in
      let st := {| score := 0; findings := [] |} in
      match blocklists BADLIST_ADDRESSES BAD_ENS_ADDRS addr st with
      | Throw _ => JsonError 500 "worker_error"
      | Return st =>
          let st := contract (rpc (eth_getCode up)) st in
          match catch (rpc (transfers_from up)) (Some []),
                catch (rpc (transfers_to up)) (Some []) with
          | Return outRes, Return inRes =>
              let outs := match outRes with Some l => l | None => [] end in
              let ins := match inRes with Some l => l | None => [] end in
              let st := activity Date_now outs ins DUST_THRESHOLD_ETH st in
              let st := ens_negatives (param_ens request) BAD_ENS_NAMES st in
              Json (clamp (score st)) (findings st)
          | _, _ => JsonError 500 "worker_error"
          end
      end.

(** ** Vocabulary of the statements *)

(** The request passes validation and the provider URL is configured. *)
Definition accepts (request : Request) (env : Env) : bool :=
  (pathname request =? "/check")%string &&
  is_address (trim (or_else (param_address request) "")) &&
  (toLowerCase (or_else (param_chain request) "sepolia") =? "sepolia")%string &&
  truthy (ALCHEMY_SEPOLIA_RPC env).

(** The transfers that the handler sees for one of the two lookups. *)
Definition transfers_seen (r : reply (option (list RawTransfer))) : list RawTransfer :=
  match catch (rpc r) (Some []) with
  | Return (Some l) => l
  | _ => []
  end.

Definition label_in (labels : list string) (f : Finding) : bool :=
  existsb (String.eqb (label f)) labels.

Definition age_tiers : list string :=
  ["New address"; "Newish address"; "Recent address"].

(** The labels of the findings of the block [activity]. *)
Definition activity_labels : list string :=
  ["No history"; "New address"; "Newish address"; "Recent address";
   "Low activity"; "Inbound only"; "Fan-out"; "Inbound burst"; "Dusting";
   "Dormant"].

Definition recency_labels : list string :=
  ["New address"; "Newish address"; "Recent address"; "Dormant"].

(** ** The findings as a report *)

(** The weight and the level that the handler gives to each label: the
    [delta] and [level] arguments of its calls of [addFinding]. *)
Definition weight_of_label (label : string) : Z :=
  if (label =? "Blocklisted")%string then 90
  else if (label =? "Negative ENS link")%string then 25
  else if (label =? "Contract")%string then 10
  else if (label =? "Proxy pattern")%string then 6
  else if (label =? "Tiny bytecode")%string then 6
  else if (label =? "No history")%string then 22
  else if (label =? "New address")%string then 28
  else if (label =? "Newish address")%string then 18
  else if (label =? "Recent address")%string then 8
  else if (label =? "Low activity")%string then 10
  else if (label =? "Inbound only")%string then 6
  else if (label =? "Fan-out")%string then 18
  else if (label =? "Inbound burst")%string then 10
  else if (label =? "Dusting")%string then 12
  else if (label =? "Dormant")%string then -5
  else if (label =? "ENS flagged")%string then 20
  else 0.

Definition level_of_label (label : string) : Level :=
  if existsb (String.eqb label)
       ["Blocklisted"; "Negative ENS link"; "New address"; "Fan-out"; "ENS flagged"]
  then high
  else if existsb (String.eqb label)
            ["EOA"; "Unknown type"; "Recent address"; "Inbound only"; "Dormant"]
  then low
  else medium.

Definition total_weight (findings : list Finding) : Z :=
  fold_right (fun f acc => weight_of_label (label f) + acc) 0 findings.

Definition Level_eqb (a b : Level) : bool :=
  match a, b with
  | low, low | medium, medium | high, high => true
  | _, _ => false
  end.

(** The accumulated score is the total weight of the findings reported so
    far, and every finding has the level of its label. *)
Definition explained (st : State) : Prop :=
  score st = total_weight (findings st) /\
  forallb (fun f => Level_eqb (level f) (level_of_label (label f))) (findings st) = true.

(** What the block [activity] adds to the findings, written as one list. *)
Definition activity_report (Date_now : nat -> Z) (outs ins : list RawTransfer)
  (DUST_THRESHOLD_ETH : float) : list Finding :=
  let all := (outs ++ ins)%list in
  let latestTs := max_or_0 (map recentMs all) in
  let firstTs := min_or_0 (map recentMs all) in
  let daysSinceFirst := daysSince (Date_now 0%nat) firstTs in
  let calls := match daysSinceFirst with Some _ => 1%nat | None => 0%nat end in
  let daysSinceLatest := daysSince (Date_now calls) latestTs in
  let uniqueRecipients :=
    Set_size (filter nonempty (map (fun t => toLowerCase (or_else (raw_to t) "")) outs)) in
  let uniqueSenders :=
    Set_size (filter nonempty (map (fun t => toLowerCase (or_else (raw_from t) "")) ins)) in
  let incomingValues := keep_finite (map (fun t => parseEth (raw_value t)) ins) in
  let median := median_of (sort_numeric incomingValues) in
  let report (label detail : string) (level : Level) :=
    [{| label := label; detail := detail; level := level |}] in
  if (List.length all =? 0)%nat
  then report "No history" "No transactions found on Sepolia." medium
  else
    ((if days_lt daysSinceFirst 1 then report "New address" "First seen < 24h." high
      else if days_lt daysSinceFirst 7 then report "Newish address" "First seen < 7d." medium
      else if days_lt daysSinceFirst 30 then report "Recent address" "First seen < 30d." low
      else []) ++
     (if (List.length all <? 5)%nat
      then report "Low activity" "Fewer than 5 total transfers." medium else []) ++
     (if (List.length outs =? 0)%nat
      then report "Inbound only" "No outbound history." low else []) ++
     (if 10 <=? uniqueRecipients
      then report "Fan-out"
             (string_of_Z uniqueRecipients ++ " distinct recent recipients.")%string high
      else []) ++
     (if (5 <=? List.length ins)%nat && (5 <=? uniqueSenders) && (List.length outs =? 0)%nat
      then report "Inbound burst"
             "Many unique inbound senders, no outbound history." medium
      else []) ++
     (if (3 <=? List.length incomingValues)%nat
      then if float_pos median && float_lt median DUST_THRESHOLD_ETH
           then report "Dusting"
                  ("Median inbound < " ++ Number_toString DUST_THRESHOLD_ETH ++ " ETH.")%string
                  medium
           else []
      else []) ++
     (if days_gt daysSinceLatest 180
      then report "Dormant" "Last activity > 180 days ago. Slightly safer." low
      else []))%list.

(** What the other blocks add to the findings. *)
Definition blocklists_report (BADLIST_ADDRESSES : list string) (link : option string)
  (addr : string) : list Finding :=
  ((if includes_str BADLIST_ADDRESSES (toLowerCase addr)
    then [{| label := "Blocklisted";
             detail := "Address appears on internal blocklist.";
             level := high |}]
    else []) ++
   (if truthy link
    then [{| label := "Negative ENS link";
             detail := ("Associated with " ++ or_else link "")%string;
             level := high |}]
    else []))%list.

Definition contract_report (lookup : outcome string) : list Finding :=
  match lookup with
  | Return bytecode =>
      if negb (bytecode =? "")%string && negb (bytecode =? "0x")%string
      then
        ([{| label := "Contract"; detail := "Recipient is a contract address.";
             level := medium |}] ++
         (if includes "363d3d" (toLowerCase (slice2 bytecode))
          then [{| label := "Proxy pattern"; detail := "EIP-1167 minimal proxy detected.";
                   level := medium |}]
          else []) ++
         (if (String.length bytecode <? 200)%nat
          then [{| label := "Tiny bytecode";
                   detail := "Contract runtime is unusually short.";
                   level := medium |}]
          else []))%list
      else [{| label := "EOA"; detail := "Recipient is an externally owned address.";
               level := low |}]
  | Throw _ =>
      [{| label := "Unknown type"; detail := "Could not verify contract/EOA.";
          level := low |}]
  end.

Definition ens_report (param_ens : option string) (BAD_ENS_NAMES : list string)
  : list Finding :=
  if nonempty (or_else param_ens "") &&
     includes_str BAD_ENS_NAMES (toLowerCase (or_else param_ens ""))
  then [{| label := "ENS flagged";
           detail := (or_else param_ens "" ++ " has negative reputation.")%string;
           level := high |}]
  else [].

(** Some finding of the list has this label. *)
Definition reports (label_ : string) (findings : list Finding) : Prop :=
  exists f, In f findings /\ label f = label_.

(** The configuration without the table [BAD_ENS_ADDRS]. *)
Definition without_ens_table (env : Env) : Env := {|
  ALCHEMY_SEPOLIA_RPC := ALCHEMY_SEPOLIA_RPC env;
  BADLIST_ADDRESSES := BADLIST_ADDRESSES env;
  BAD_ENS_NAMES := BAD_ENS_NAMES env;
  BAD_ENS_ADDRS := None;
  DUST_THRESHOLD_ETH := DUST_THRESHOLD_ETH env
|}.

End WithHost.
End Worker.

(* ------------------------------------------------------------------------- *)
(** * The wallet page: SafeSend check and risk modal

    [fetchSafeSend] and [showRiskModal] of the wallet page (second document
    of [part_000]), with [Worker.js] as the service behind [SAFE_SEND_URL].
    The page elements are assumed present; the animation of the meter does
    not touch the elements modelled here and is left out. *)

Module Wallet.
Import JS Alchemy.

Section WithHost.
Context {host : Host}.

(** What [r.json()] reads off a response of the service: the object
    [{ score, findings }] or the object [{ error }]. *)
Inductive Result : Type :=
| Scored (score : Z) (findings : list Worker.Finding)
| Failed (error : string).

(** [SAFE_SEND_URL] with the search parameters [address] and [chain] set. *)
Definition check_url (address : string) : Worker.Request := {|
  Worker.pathname := "/check";
  Worker.param_address := Some address;
  Worker.param_chain := Some "sepolia";
  Worker.param_ens := None
|}.

(** Status and parsed body of a response built by [json(obj, status)]. *)
Definition status_of (r : Worker.Response) : Z :=
  match r with
  | Worker.Json _ _ => 200
  | Worker.JsonError status _ => status
  end.

Definition body_of (r : Worker.Response) : Result :=
  match r with
  | Worker.Json score findings => Scored score findings
  | Worker.JsonError _ error => Failed error
  end.

(** The object returned by the [catch] branch of [fetchSafeSend]. *)
Definition unavailable : Result :=
  Scored 40 [{| Worker.label := "Service";
                Worker.detail := "SafeSend unavailable";
                Worker.level := Worker.medium |}].

(** [fetchSafeSend(address)].  [service] answers the request, or [None]
    when [fetch] rejects. *)
Definition fetchSafeSend (service : Worker.Request -> option Worker.Response)
  (address : string) : Result :=
  match service (check_url address) with
  | None => unavailable
  | Some r => if negb (ok (status_of r)) then unavailable else body_of r
  end.

(** The parts of the modal that [showRiskModal] sets. *)
Record Modal : Type := {
  factors : list (Worker.Level * string);   (* badge and text of each row *)
  warning : bool;                           (* #riskWarning is displayed *)
  proceed_disabled : bool;                  (* #riskProceed.disabled *)
  active : bool                             (* the modal is open *)
}.

(** [showRiskModal(result)]: [result.findings.map] throws on an object
    without [findings]. *)
Definition showRiskModal (result : Result) : outcome Modal :=
  match result with
  | Failed _ => Throw [HostError]
  | Scored score findings =>
      Return {| factors := map (fun f => (Worker.level f, Worker.detail f)) findings;
                warning := 60 <=? score;
                proceed_disabled := 60 <=? score;
                active := true |}
  end.

(** The [change] listener that [showRiskModal(result)] puts on #riskAgree. *)
Definition agree_change (result : Result) (checked : bool) (modal : Modal) : Modal :=
  match result with
  | Failed _ => modal
  | Scored score _ =>
      {| factors := factors modal;
         warning := warning modal;
         proceed_disabled := (60 <=? score) && negb checked;
         active := active modal |}
  end.

(** The service as the page sees it: [Worker.js] when it can be reached. *)
Definition worker_service (online : bool) (up : Upstream) (Date_now : nat -> Z)
  (env : Worker.Env) (request : Worker.Request) : option Worker.Response :=
  if online then Some (Worker.fetch up Date_now request env) else None.

End WithHost.
End Wallet.

(* ------------------------------------------------------------------------- *)
(** * Fixtures *)

Module Fixtures.
Import JS Alchemy.

(** A host given by tables: the values the built-ins take at the arguments
    that occur in the examples of this file.  The default at the end of each
    table is not reached by them. *)
Definition Date_parse_table (s : string) : num :=
  if (s =? "1970-01-01T00:00:00.000Z")%string then Num 0
  else if (s =? "2024-01-01T00:00:00.000Z")%string then Num 1704067200000
  else if (s =? "2024-12-31T23:00:00.000Z")%string then Num 1735686000000
  else if (s =? "2024-12-31T23:01:00.000Z")%string then Num 1735686060000
  else if (s =? "2025-01-01T00:00:00.000Z")%string then Num 1735689600000
  else if (s =? "yesterday")%string then NaN
  else NaN.

Definition Number_table (s : string) : float :=
  if (s =? "0.00002")%string then Fin (5902958103587057 # 295147905179352825856)
  else if (s =? "abc")%string then FNaN
  else FNaN.

Definition toFixed6_table (x : float) : string :=
  match x with
  | FNaN => "NaN"
  | PosInf => "Infinity"
  | NegInf => "-Infinity"
  | Fin q => if Qeq_bool q 1 then "1.000000" else "0.000020"
  end.

Definition toString_table (x : float) : string :=
  match x with
  | FNaN => "NaN"
  | PosInf => "Infinity"
  | NegInf => "-Infinity"
  | Fin q => if Qeq_bool q 1 then "1" else "0.00002"
  end.

Definition JSON_parse_table (s : string) : json :=
  if (s =? "{}")%string then JsonObject []
  else if (s =? "null")%string then JsonNull
  else if (s =? "{0x")%string then JsonSyntaxError
  else JsonSyntaxError.

(** Every amount of the fixtures is 1, and (1 + 1) / 2 is exact. *)
Definition mean_table (a b : Q) : float := Fin ((a + b) / 2).

Definition table_host : Host := {|
  Date_parse := Date_parse_table;
  Number_str := Number_table;
  toFixed6 := toFixed6_table;
  Number_toString := toString_table;
  JSON_parse := JSON_parse_table;
  mean := mean_table
|}.

(** 2025-01-01T00:00:00Z. *)
Definition new_year_2025 : Z := 1735689600000.

Definition recipient : string := "0x00000000000000000000000000000000000000Aa".

(** A transfer with a timestamp and the value 1 ETH. *)
Definition transfer_at (stamp : option string) : RawTransfer := {|
  raw_hash := Some "0x01";
  raw_from := Some "0x00000000000000000000000000000000000000b1";
  raw_to := Some "0x00000000000000000000000000000000000000b2";
  raw_value := Some (AmountNumber (Fin 1));
  raw_blockTimestamp := stamp
|}.

(** An externally owned account that never sent a transaction and has no
    transfers. *)
Definition fresh_account : Upstream := {|
  eth_getCode := answered "0x";
  eth_getTransactionCount := answered "0x0";
  transfers_from := answered (Some []);
  transfers_to := answered (Some [])
|}.

(** An old account: one outbound and four inbound transfers, all of
    2024-01-01, a year before [new_year_2025]. *)
Definition old_account : Upstream := {|
  eth_getCode := answered "0x";
  eth_getTransactionCount := answered "0x5";
  transfers_from := answered (Some [transfer_at (Some "2024-01-01T00:00:00.000Z")]);
  transfers_to :=
    answered (Some (repeat (transfer_at (Some "2024-01-01T00:00:00.000Z")) 4))
|}.

(** An account whose only transfer carries no timestamp. *)
Definition undated_account : Upstream := {|
  eth_getCode := answered "0x";
  eth_getTransactionCount := answered "0x1";
  transfers_from := answered (Some []);
  transfers_to := answered (Some [transfer_at None])
|}.

(** The provider is down for the bytecode lookup only. *)
Definition no_bytecode : Upstream := {|
  eth_getCode := Http 503 None;
  eth_getTransactionCount := answered "0x0";
  transfers_from := answered (Some []);
  transfers_to := answered (Some [])
|}.

(** Funds arrive at 23:00 and leave at 23:01; a second transfer leaves at
    00:00 the next day.  Both lists are most recent first. *)
Definition relay_in : list RawTransfer :=
  [transfer_at (Some "2024-12-31T23:00:00.000Z")].

Definition relay_out : list RawTransfer :=
  [transfer_at (Some "2025-01-01T00:00:00.000Z");
   transfer_at (Some "2024-12-31T23:01:00.000Z")].

Definition relay_account : Upstream := {|
  eth_getCode := answered "0x";
  eth_getTransactionCount := answered "0x2";
  transfers_from := answered (Some relay_out);
  transfers_to := answered (Some relay_in)
|}.

(** A transfer whose value is a string that is not a number. *)
Definition garbled_value : RawTransfer := {|
  raw_hash := Some "0x02";
  raw_from := Some "0x00000000000000000000000000000000000000B1";
  raw_to := None;
  raw_value := Some (AmountString "abc");
  raw_blockTimestamp := Some "yesterday"
|}.

(** The nonce lookup answers a string that is not hexadecimal. *)
Definition bad_nonce : Upstream := {|
  eth_getCode := answered "0x";
  eth_getTransactionCount := answered "0xzz";
  transfers_from := answered (Some []);
  transfers_to := answered (Some [])
|}.

Definition safesend_env (badlist : option string) : SafeSend.Env := {|
  SafeSend.ALCHEMY_SEPOLIA_URL := Some "https://eth-sepolia.example/v2/key";
  SafeSend.BADLIST := badlist;
  SafeSend.DUST_WATCHLIST := None
|}.

Definition safesend_check (address : string) : SafeSend.Request := {|
  SafeSend.method := "GET";
  SafeSend.pathname := "/check";
  SafeSend.param_address := Some address;
  SafeSend.param_chain := Some "sepolia"
|}.

Definition worker_env (badlist : option string) : Worker.Env := {|
  Worker.ALCHEMY_SEPOLIA_RPC := Some "https://eth-sepolia.example/v2/key";
  Worker.BADLIST_ADDRESSES := badlist;
  Worker.BAD_ENS_NAMES := None;
  Worker.BAD_ENS_ADDRS := None;
  Worker.DUST_THRESHOLD_ETH := None
|}.

Definition worker_check (address : string) : Worker.Request := {|
  Worker.pathname := "/check";
  Worker.param_address := Some address;
  Worker.param_chain := None;
  Worker.param_ens := None
|}.

Definition ids (k : nat) : Z := 7 + Z.of_nat k.
Definition other_ids (k : nat) : Z := 900 - Z.of_nat k.
Definition at_new_year (k : nat) : Z := new_year_2025.

(** ** Expected answers on the fixtures *)

(** A blocklist entry as an operator would type it: upper case, padded. *)
Definition blocklist_entry : string := " 0X00000000000000000000000000000000000000AA ,".

Definition new_address_factor : SafeSend.Factor :=
  SafeSend.factor SafeSend.medium "New address"
    "Recipient has no prior transactions (nonce 0).".

Definition fresh_assessment : SafeSend.Assessment := {|
  SafeSend.score := 22;
  SafeSend.decision := SafeSend.allow;
  SafeSend.factors := [new_address_factor]
|}.

Definition blocked_assessment : SafeSend.Assessment := {|
  SafeSend.score := 95;
  SafeSend.decision := SafeSend.block;
  SafeSend.factors :=
    [SafeSend.factor SafeSend.high "On blocklist"
       "Recipient is present in a locally configured blocklist.";
     new_address_factor]
|}.

Definition relay_assessment : SafeSend.Assessment := {|
  SafeSend.score := 16;
  SafeSend.decision := SafeSend.allow;
  SafeSend.factors :=
    [SafeSend.factor SafeSend.low "Very low activity"
       "Recipient has very limited on-chain activity."]
|}.

Definition finding (label detail : string) (level : Worker.Level) : Worker.Finding :=
  {| Worker.label := label; Worker.detail := detail; Worker.level := level |}.

Definition eoa_finding : Worker.Finding :=
  finding "EOA" "Recipient is an externally owned address." Worker.low.

Definition no_history_finding : Worker.Finding :=
  finding "No history" "No transactions found on Sepolia." Worker.medium.

Definition unknown_type_finding : Worker.Finding :=
  finding "Unknown type" "Could not verify contract/EOA." Worker.low.

Definition blocked_findings : list Worker.Finding :=
  [finding "Blocklisted" "Address appears on internal blocklist." Worker.high;
   eoa_finding;
   finding "Dormant" "Last activity > 180 days ago. Slightly safer." Worker.low].

Definition undated_findings : list Worker.Finding :=
  [eoa_finding;
   finding "New address" "First seen < 24h." Worker.high;
   finding "Low activity" "Fewer than 5 total transfers." Worker.medium;
   finding "Inbound only" "No outbound history." Worker.low].

(** ** Further accounts and their expected answers *)

(** Five outbound transfers in the hour before [new_year_2025], no inbound
    one. *)
Definition busy_account : Upstream := {|
  eth_getCode := answered "0x";
  eth_getTransactionCount := answered "0x5";
  transfers_from :=
    answered (Some (repeat (transfer_at (Some "2024-12-31T23:01:00.000Z")) 5));
  transfers_to := answered (Some [])
|}.

Definition frequent_outbounds_factor : SafeSend.Factor :=
  SafeSend.factor SafeSend.medium "Frequent outbounds" "~5 outgoing transfers in last 24h.".

Definition busy_assessment : SafeSend.Assessment := {|
  SafeSend.score := 22;
  SafeSend.decision := SafeSend.allow;
  SafeSend.factors := [frequent_outbounds_factor]
|}.

(** One inbound and one outbound transfer, both without a timestamp. *)
Definition undated_relay : Upstream := {|
  eth_getCode := answered "0x";
  eth_getTransactionCount := answered "0x2";
  transfers_from := answered (Some [transfer_at None]);
  transfers_to := answered (Some [transfer_at None])
|}.

Definition undated_relay_assessment : SafeSend.Assessment := {|
  SafeSend.score := 41;
  SafeSend.decision := SafeSend.allow;
  SafeSend.factors :=
    [SafeSend.factor SafeSend.low "Very low activity"
       "Recipient has very limited on-chain activity.";
     SafeSend.factor SafeSend.high "Fresh funds → fast outflow"
       "Outbound occurred shortly after inbound (≤10m)."]
|}.

(** An inbound transfer of 23:00 on 2024-12-31 from the given sender. *)
Definition transfer_from (sender : string) : RawTransfer := {|
  raw_hash := Some "0x03";
  raw_from := Some sender;
  raw_to := Some recipient;
  raw_value := Some (AmountNumber (Fin 1));
  raw_blockTimestamp := Some "2024-12-31T23:00:00.000Z"
|}.

(** Five inbound transfers from five senders in the hour before
    [new_year_2025], no outbound one. *)
Definition airdrop_account : Upstream := {|
  eth_getCode := answered "0x";
  eth_getTransactionCount := answered "0x0";
  transfers_from := answered (Some []);
  transfers_to :=
    answered (Some (map transfer_from
                      ["0x00000000000000000000000000000000000000C1";
                       "0x00000000000000000000000000000000000000C2";
                       "0x00000000000000000000000000000000000000C3";
                       "0x00000000000000000000000000000000000000C4";
                       "0x00000000000000000000000000000000000000C5"]))
|}.

Definition airdrop_findings : list Worker.Finding :=
  [eoa_finding;
   finding "New address" "First seen < 24h." Worker.high;
   finding "Inbound only" "No outbound history." Worker.low;
   finding "Inbound burst" "Many unique inbound senders, no outbound history."
     Worker.medium].

Definition unknown_findings : list Worker.Finding :=
  [unknown_type_finding; no_history_finding].

(** Two inbound transfers: one without a timestamp, one of 2024-01-01. *)
Definition mixed_account : Upstream := {|
  eth_getCode := answered "0x";
  eth_getTransactionCount := answered "0x0";
  transfers_from := answered (Some []);
  transfers_to :=
    answered (Some [transfer_at None; transfer_at (Some "2024-01-01T00:00:00.000Z")])
|}.

Definition mixed_findings : list Worker.Finding :=
  [eoa_finding;
   finding "New address" "First seen < 24h." Worker.high;
   finding "Low activity" "Fewer than 5 total transfers." Worker.medium;
   finding "Inbound only" "No outbound history." Worker.low;
   finding "Dormant" "Last activity > 180 days ago. Slightly safer." Worker.low].

(** ** Later clocks, and another account *)

(** The clock, [days] days after [new_year_2025]. *)
Definition days_later (days : Z) (k : nat) : Z := new_year_2025 + days * 86400000.

(** Score and findings of an answer. *)
Definition score_of (r : Worker.Response) : Z :=
  match r with
  | Worker.Json score _ => score
  | Worker.JsonError _ _ => 0
  end.

Definition findings_of (r : Worker.Response) : list Worker.Finding :=
  match r with
  | Worker.Json _ findings => findings
  | Worker.JsonError _ _ => []
  end.

(** The answer of [Worker.js] on [relay_account], whose earliest transfer is
    of 23:00 on 2024-12-31, [days] days after [new_year_2025]. *)
Definition relay_answer (days : Z) : Worker.Response :=
  Worker.fetch (host := table_host) relay_account (days_later days)
    (worker_check recipient) (worker_env None).

(** Eight outbound transfers whose value is not a number. *)
Definition garbled_account : Upstream := {|
  eth_getCode := answered "0x";
  eth_getTransactionCount := answered "0x8";
  transfers_from := answered (Some (repeat garbled_value 8));
  transfers_to := answered (Some [])
|}.

Definition garbled_assessment : SafeSend.Assessment := {|
  SafeSend.score := 22;
  SafeSend.decision := SafeSend.allow;
  SafeSend.factors :=
    [SafeSend.factor SafeSend.medium "Repeated equal amounts"
       "Outbound transfers show repeated amount NaN ETH."]
|}.

(** The configuration of [Worker.js] with a table [BAD_ENS_ADDRS]. *)
Definition worker_env_with_table (table : string) : Worker.Env := {|
  Worker.ALCHEMY_SEPOLIA_RPC := Some "https://eth-sepolia.example/v2/key";
  Worker.BADLIST_ADDRESSES := None;
  Worker.BAD_ENS_NAMES := None;
  Worker.BAD_ENS_ADDRS := Some table;
  Worker.DUST_THRESHOLD_ETH := None
|}.

(** An account with a short bytecode and no transfers. *)
Definition contract_account : Upstream := {|
  eth_getCode := answered "0x6080";
  eth_getTransactionCount := answered "0x1";
  transfers_from := answered (Some []);
  transfers_to := answered (Some [])
|}.

(** U+00A0, the no-break space, in UTF-8; and [recipient] and a blocklist
    entry padded with it. *)
Definition nbsp : string :=
  String (ascii_of_nat 194) (String (ascii_of_nat 160) EmptyString).

Definition padded_recipient : string := nbsp ++ recipient ++ nbsp.

Definition padded_entry : string :=
  nbsp ++ "0X00000000000000000000000000000000000000AA" ++ nbsp.

End Fixtures.

(* ------------------------------------------------------------------------- *)
(** * Proof steps shared by the facts below *)

(** Membership in a list of at most one element. *)
Ltac singleton H := cbn [In] in H; first [destruct H as [<- | []] | destruct H].

(** Case analysis on the conditions of the detectors of [runRiskEval]. *)
Ltac detector_cases :=
  unfold SafeSend.known_bad, SafeSend.contract_address, SafeSend.new_or_inactive,
    SafeSend.bursty_outbounds, SafeSend.dust_pattern, SafeSend.repeated_equal_amounts,
    SafeSend.fresh_funds_fast_out, SafeSend.watchlist_touch; cbv zeta;
  repeat match goal with |- context [if ?c then _ else _] => destruct c end.

(* ------------------------------------------------------------------------- *)
(** * Facts about [runRiskEval] *)

Section SafeSendFacts.
Import JS Alchemy SafeSend.
Context {host : Host}.

Lemma rpc_ignores_id (A : Type) (i i' : Z) (m : string) (r : reply A) :
  rpc i m r = rpc i' m r.
Proof.
  destruct r as [|status [a|]]; reflexivity.
Qed.

Lemma assess_score_range nowMs address B W code nonce outTxs inTxs :
  0 <= score (assess nowMs address B W code nonce outTxs inTxs) <= 100.
Proof.
  unfold assess; cbn [score]. lia.
Qed.

Lemma assess_decision nowMs address B W code nonce outTxs inTxs :
  decision (assess nowMs address B W code nonce outTxs inTxs) =
  if 60 <=? score (assess nowMs address B W code nonce outTxs inTxs) then block else allow.
Proof. reflexivity. Qed.

Lemma assess_floor nowMs address B W code nonce outTxs inTxs :
  Set_has B (toLowerCase address) = true ->
  95 <= score (assess nowMs address B W code nonce outTxs inTxs).
Proof.
  intros Hbad. unfold assess; cbn [score]. rewrite Hbad. lia.
Qed.

Lemma runRiskEval_returns up random nowMs address env a :
  runRiskEval up random nowMs address env = Return a ->
  exists code nonce outTxs inTxs,
    a = assess nowMs address (parseCsvList (BADLIST env))
          (parseCsvList (DUST_WATCHLIST env)) code nonce outTxs inTxs.
Proof.
  unfold runRiskEval.
  destruct (negb (truthy (ALCHEMY_SEPOLIA_URL env))); [discriminate|].
  destruct (Promise_all4 _ _ _ _) as [[[[code nonce] outTxs] inTxs]|]; [|discriminate].
  intros H; injection H as <-. eauto.
Qed.

Lemma safesend_fetch_returns up random nowMs request env res :
  fetch up random nowMs request env = Json res ->
  runRiskEval up random nowMs
    (trim (or_else (param_address request) "")) env = Return res.
Proof.
  unfold fetch.
  repeat match goal with
         | |- context [if ?c then _ else _] => destruct c; try discriminate
         end.
  destruct (runRiskEval _ _ _ _ _); [|discriminate].
  intros H; injection H as <-; reflexivity.
Qed.

Lemma In_push (x : Factor) l f : In x l -> In x (push l f).
Proof. intros H. unfold push. apply in_or_app. now left. Qed.

Lemma In_if_push (x : Factor) (c : bool) l f :
  In x l -> In x (if c then push l f else l).
Proof. intros H. destruct c; [apply In_push|]; exact H. Qed.

Lemma In_if2_push (x : Factor) (c1 c2 : bool) l f1 f2 :
  In x l -> In x (if c1 then push l f1 else if c2 then push l f2 else l).
Proof. intros H. destruct c1; [|destruct c2]; try apply In_push; exact H. Qed.

Lemma hexToInt_NaN h : parseInt16 h = NaN -> hexToInt h = 0.
Proof. unfold hexToInt. now intros ->. Qed.

Lemma heuristics_nonce_zero nowMs address B W code nonce outTxs inTxs :
  hexToInt nonce = 0 ->
  In (factor medium "New address" "Recipient has no prior transactions (nonce 0).")
     (heuristics nowMs address B W code nonce outTxs inTxs).
Proof.
  intros Hz. unfold heuristics. cbv zeta. rewrite Hz.
  change (0 =? 0) with true. cbv iota.
  repeat first [apply In_if2_push | apply In_if_push].
  unfold push at 1. apply in_or_app. right. left. reflexivity.
Qed.

Lemma runRiskEval_settled up random nowMs address env code nonce :
  truthy (ALCHEMY_SEPOLIA_URL env) = true ->
  rpc (random 0%nat) "eth_getCode" (eth_getCode up) = Return code ->
  rpc (random 1%nat) "eth_getTransactionCount" (eth_getTransactionCount up) = Return nonce ->
  exists outTxs inTxs,
    catch (rpc (random 2%nat) "alchemy_getAssetTransfers" (transfers_from up)) (Some [])
      = Return outTxs /\
    catch (rpc (random 3%nat) "alchemy_getAssetTransfers" (transfers_to up)) (Some [])
      = Return inTxs /\
    runRiskEval up random nowMs address env =
    Return (assess nowMs address (parseCsvList (BADLIST env))
              (parseCsvList (DUST_WATCHLIST env)) code nonce outTxs inTxs).
Proof.
  intros Hurl Hcode Hnonce. unfold runRiskEval. rewrite Hurl, Hcode, Hnonce.
  destruct (rpc (random 2%nat) _ (transfers_from up)) as [o|eo];
    destruct (rpc (random 3%nat) _ (transfers_to up)) as [i|ei]; cbn;
    eexists; eexists; repeat split; reflexivity.
Qed.

Lemma safesend_fetch_accepted up random nowMs request env :
  accepts request env = true ->
  fetch up random nowMs request env =
  match runRiskEval up random nowMs (trim (or_else (param_address request) "")) env with
  | Return res => Json res
  | Throw reasons => JsonError 500 "server_error" reasons
  end.
Proof.
  unfold accepts, fetch. intros H.
  repeat (apply andb_prop in H; destruct H as [H ?]).
  apply negb_true_iff in H. rewrite H.
  match goal with Hp : (pathname request =? "/check")%string = true |- _ =>
    apply String.eqb_eq in Hp; rewrite Hp end.
  cbn [String.eqb Ascii.eqb Bool.eqb].
  match goal with Ha : is_address _ = true |- _ => rewrite Ha end.
  match goal with Hc : (toLowerCase _ =? "sepolia")%string = true |- _ => rewrite Hc end.
  reflexivity.
Qed.

Lemma accepts_url request env :
  accepts request env = true -> truthy (ALCHEMY_SEPOLIA_URL env) = true.
Proof.
  unfold accepts. intros H. now apply andb_prop in H.
Qed.

Lemma required_lookup_fails up random nowMs address env es :
  rpc (random 0%nat) "eth_getCode" (eth_getCode up) = Throw es \/
  rpc (random 1%nat) "eth_getTransactionCount" (eth_getTransactionCount up) = Throw es ->
  truthy (ALCHEMY_SEPOLIA_URL env) = true ->
  exists reasons,
    runRiskEval up random nowMs address env = Throw reasons /\ incl es reasons.
Proof.
  intros Hfail Hurl. unfold runRiskEval. rewrite Hurl. cbn [negb].
  set (c := rpc (random 0%nat) _ _) in *.
  set (n := rpc (random 1%nat) _ _) in *.
  set (o := catch _ _). set (i := catch _ _).
  destruct Hfail as [H|H]; rewrite H.
  - eexists; split; [reflexivity|]. cbn [reasons_of]. apply incl_appl, incl_refl.
  - destruct c; (eexists; split; [reflexivity|]); cbn [reasons_of];
      apply incl_appr, incl_appl, incl_refl.
Qed.

Lemma transfers_from_failure up random nowMs address env es :
  rpc (random 2%nat) "alchemy_getAssetTransfers" (transfers_from up) = Throw es ->
  runRiskEval up random nowMs address env =
  runRiskEval (with_transfers_from up (answered (Some []))) random nowMs address env.
Proof.
  intros H. unfold runRiskEval. cbn [with_transfers_from eth_getCode
    eth_getTransactionCount transfers_from transfers_to]. rewrite H. reflexivity.
Qed.

Lemma transfers_to_failure up random nowMs address env es :
  rpc (random 3%nat) "alchemy_getAssetTransfers" (transfers_to up) = Throw es ->
  runRiskEval up random nowMs address env =
  runRiskEval (with_transfers_to up (answered (Some []))) random nowMs address env.
Proof.
  intros H. unfold runRiskEval. cbn [with_transfers_to eth_getCode
    eth_getTransactionCount transfers_from transfers_to]. rewrite H. reflexivity.
Qed.

Lemma fold_weights (l : list Factor) (s : Z) :
  fold_left
    (fun score f =>
       let score := if Severity_eqb (severity f) high then score + 25 else score in
       let score := if Severity_eqb (severity f) medium then score + 12 else score in
       if Severity_eqb (severity f) low then score + 6 else score) l s
  = s + total_weight l.
Proof.
  revert s. induction l as [|f l IH]; intros s.
  - cbn. lia.
  - change (total_weight (f :: l)) with (weight f + total_weight l).
    cbn [fold_left]. rewrite IH. unfold weight.
    destruct (severity f); cbn [Severity_eqb]; lia.
Qed.

Lemma assess_score_formula nowMs address B W code nonce outTxs inTxs :
  let res := assess nowMs address B W code nonce outTxs inTxs in
  let sum := 10 + total_weight (factors res) in
  score res =
  Z.max 0 (Z.min 100 (if Set_has B (toLowerCase address) then Z.max sum 95 else sum)).
Proof.
  cbv zeta. unfold assess. cbn [score factors]. rewrite fold_weights. reflexivity.
Qed.

Lemma fresh_account_assessment up random nowMs address env nonce :
  truthy (ALCHEMY_SEPOLIA_URL env) = true ->
  Set_has (parseCsvList (BADLIST env)) (toLowerCase address) = false ->
  eth_getCode up = answered "0x" ->
  eth_getTransactionCount up = answered nonce ->
  hexToInt nonce = 0 ->
  transfers_from up = answered (Some []) ->
  transfers_to up = answered (Some []) ->
  runRiskEval up random nowMs address env =
  Return {| score := 22; decision := allow;
            factors := [factor medium "New address"
                          "Recipient has no prior transactions (nonce 0)."] |}.
Proof.
  intros Hurl Hbl Hcode Hnonce Hz Hout Hin.
  unfold runRiskEval. rewrite Hurl, Hcode, Hnonce, Hout, Hin.
  cbn [negb rpc post answered option_map ok Z.leb Z.compare Pos.compare Pos.compare_cont
       andb j_answer catch Promise_all4].
  unfold assess, heuristics. rewrite Hbl, Hz. reflexivity.
Qed.

End SafeSendFacts.

(* ------------------------------------------------------------------------- *)
(** * Facts about the handler of [Worker.js] *)

Section WorkerFacts.
Import JS Alchemy Worker.
Context {host : Host}.

Lemma score_addFinding l d lv delta st :
  score (addFinding l d lv delta st) = score st + delta.
Proof. reflexivity. Qed.

Lemma score_if_add (c : bool) l d lv delta st lo :
  0 <= delta -> lo <= score st ->
  lo <= score (if c then addFinding l d lv delta st else st).
Proof. intros Hd Hlo. destruct c; [rewrite score_addFinding|]; lia. Qed.

Lemma blocklists_score BL E addr st st' :
  blocklists BL E addr st = Return st' ->
  score st + (if includes_str BL (toLowerCase addr) then 90 else 0) <= score st'.
Proof.
  unfold blocklists.
  destruct (Object_get E (toLowerCase addr)) as [link|]; [|discriminate].
  intros H; injection H as <-.
  apply score_if_add; [lia|].
  destruct (includes_str BL (toLowerCase addr)); [rewrite score_addFinding|]; lia.
Qed.

Lemma contract_score lookup st : score st <= score (contract lookup st).
Proof.
  unfold contract. destruct lookup as [bytecode|]; [|rewrite score_addFinding; lia].
  destruct (negb _ && negb _); [|rewrite score_addFinding; lia].
  cbv zeta. apply score_if_add; [lia|]. apply score_if_add; [lia|].
  rewrite score_addFinding; lia.
Qed.

Lemma ens_negatives_score p names st : score st <= score (ens_negatives p names st).
Proof. unfold ens_negatives. cbv zeta. apply score_if_add; lia. Qed.

Lemma activity_score Date_now outs ins dust st :
  score st - 5 <= score (activity Date_now outs ins dust st).
Proof.
  unfold activity. cbv zeta.
  destruct (List.length (outs ++ ins) =? 0)%nat; [rewrite score_addFinding; lia|].
  match goal with
  | |- _ <= score (if ?c then addFinding _ _ _ _ ?x else ?x) =>
      assert (score st <= score x) as Hx;
      [|destruct c; [rewrite score_addFinding|]; lia]
  end.
  match goal with
  | |- _ <= score (if ?c then _ else _) => destruct c
  end.
  all: repeat (apply score_if_add; [lia|]).
  all: repeat match goal with
         | |- _ <= score (if ?c then _ else _) => destruct c
         | |- _ <= score (addFinding _ _ _ _ _) => rewrite score_addFinding
         end; lia.
Qed.

Lemma worker_fetch_accepted up Date_now request env :
  accepts request env = true ->
  fetch up Date_now request env =
  let addr := trim (or_else (param_address request) "") in
  match blocklists (csv (BADLIST_ADDRESSES env)) (parse_ens_addrs (BAD_ENS_ADDRS env))
          addr {| score := 0; findings := [] |} with
  | Throw _ => JsonError 500 "worker_error"
  | Return st =>
      let st := contract (rpc (eth_getCode up)) st in
      let st := activity Date_now (transfers_seen (transfers_from up))
                  (transfers_seen (transfers_to up))
                  (Number_str (or_else (DUST_THRESHOLD_ETH env) "0.00002")) st in
      let st := ens_negatives (param_ens request) (csv (BAD_ENS_NAMES env)) st in
      Json (clamp (score st)) (findings st)
  end.
Proof.
  unfold accepts, fetch. intros H.
  repeat (apply andb_prop in H; destruct H as [H ?]).
  rewrite H.
  match goal with Ha : is_address _ = true |- _ => rewrite Ha end.
  match goal with Hc : (toLowerCase _ =? "sepolia")%string = true |- _ => rewrite Hc end.
  match goal with Hu : truthy _ = true |- _ => rewrite Hu end.
  cbn [negb]. cbv zeta.
  destruct (blocklists _ _ _ _) as [st|]; [|reflexivity].
  unfold transfers_seen.
  destruct (rpc (transfers_from up)) as [[o|]|]; destruct (rpc (transfers_to up)) as [[i|]|];
    reflexivity.
Qed.

Lemma worker_fetch_json up Date_now request env s fs :
  fetch up Date_now request env = Json s fs -> accepts request env = true.
Proof.
  unfold fetch, accepts.
  destruct (pathname request =? "/check")%string; [|discriminate].
  destruct (is_address _); [|discriminate].
  destruct (toLowerCase _ =? "sepolia")%string; [|discriminate].
  destruct (truthy _); [|discriminate]. reflexivity.
Qed.

Lemma clamp_range x : 0 <= clamp x <= 100.
Proof. unfold clamp. lia. Qed.

Lemma clamp_ge lo x : 0 <= lo <= 100 -> lo <= x -> lo <= clamp x.
Proof. unfold clamp. lia. Qed.

Lemma worker_score_range up Date_now request env s fs :
  fetch up Date_now request env = Json s fs -> 0 <= s <= 100.
Proof.
  intros H. pose proof (worker_fetch_json _ _ _ _ _ _ H) as Hacc.
  rewrite (worker_fetch_accepted _ _ _ _ Hacc) in H. cbv zeta in H.
  destruct (blocklists _ _ _ _) as [st|]; [|discriminate].
  injection H as <- _. apply clamp_range.
Qed.

Lemma worker_blocklisted_score up Date_now request env s fs :
  includes_str (csv (BADLIST_ADDRESSES env))
    (toLowerCase (trim (or_else (param_address request) ""))) = true ->
  fetch up Date_now request env = Json s fs -> 85 <= s <= 100.
Proof.
  intros Hbl H. pose proof (worker_fetch_json _ _ _ _ _ _ H) as Hacc.
  rewrite (worker_fetch_accepted _ _ _ _ Hacc) in H. cbv zeta in H.
  destruct (blocklists _ _ _ _) as [st|] eqn:Hb; [|discriminate].
  apply blocklists_score in Hb. rewrite Hbl in Hb. cbn [score] in Hb.
  injection H as <- _. split; [|apply clamp_range].
  apply clamp_ge; [lia|].
  match goal with |- _ <= score (ens_negatives ?p ?n ?x) =>
    pose proof (ens_negatives_score p n x) end.
  match goal with |- _ <= score (ens_negatives _ _ (activity ?d ?o ?i ?t ?x)) =>
    pose proof (activity_score d o i t x) end.
  pose proof (contract_score (rpc (eth_getCode up)) st).
  lia.
Qed.

(** Findings only grow, and a finding whose label is outside a list does not
    change what the list selects. *)
Lemma In_addFinding (x : Finding) l d lv delta st :
  In x (findings st) -> In x (findings (addFinding l d lv delta st)).
Proof. intros H. cbn. apply in_or_app. now left. Qed.

Lemma In_addFinding_last l d lv delta st :
  In {| label := l; detail := d; level := lv |} (findings (addFinding l d lv delta st)).
Proof. cbn. apply in_or_app. right. now left. Qed.

Lemma In_if_add (x : Finding) (c : bool) l d lv delta st :
  In x (findings st) -> In x (findings (if c then addFinding l d lv delta st else st)).
Proof. intros H. destruct c; [apply In_addFinding|]; exact H. Qed.

Lemma filter_addFinding labels l d lv delta st :
  filter (label_in labels) (findings (addFinding l d lv delta st)) =
  (filter (label_in labels) (findings st) ++
   (if existsb (String.eqb l) labels
    then [{| label := l; detail := d; level := lv |}] else []))%list.
Proof. cbn [findings addFinding]. rewrite filter_app. reflexivity. Qed.

Lemma filter_add_other labels l d lv delta st :
  existsb (String.eqb l) labels = false ->
  filter (label_in labels) (findings (addFinding l d lv delta st)) =
  filter (label_in labels) (findings st).
Proof. intros H. rewrite filter_addFinding, H. apply app_nil_r. Qed.

Lemma filter_if_add_other labels (c : bool) l d lv delta st :
  existsb (String.eqb l) labels = false ->
  filter (label_in labels) (findings (if c then addFinding l d lv delta st else st)) =
  filter (label_in labels) (findings st).
Proof. intros H. destruct c; [now apply filter_add_other|reflexivity]. Qed.

Lemma blocklists_filter labels BL E addr st st' :
  existsb (String.eqb "Blocklisted") labels = false ->
  existsb (String.eqb "Negative ENS link") labels = false ->
  blocklists BL E addr st = Return st' ->
  filter (label_in labels) (findings st') = filter (label_in labels) (findings st).
Proof.
  intros H1 H2. unfold blocklists.
  destruct (Object_get E (toLowerCase addr)) as [link|]; [|discriminate].
  intros H; injection H as <-.
  rewrite filter_if_add_other by exact H2. now apply filter_if_add_other.
Qed.

Lemma contract_filter labels lookup st :
  forallb (fun l => negb (existsb (String.eqb l) labels))
    ["Contract"; "Proxy pattern"; "Tiny bytecode"; "EOA"; "Unknown type"] = true ->
  filter (label_in labels) (findings (contract lookup st)) =
  filter (label_in labels) (findings st).
Proof.
  intros H. cbn [forallb] in H.
  repeat (apply andb_prop in H; destruct H as [?H H]).
  repeat match goal with Hn : negb _ = true |- _ => apply negb_true_iff in Hn end.
  unfold contract. destruct lookup as [bytecode|]; [|now apply filter_add_other].
  destruct (negb _ && negb _); [|now apply filter_add_other].
  cbv zeta. rewrite !filter_if_add_other by assumption. now apply filter_add_other.
Qed.

Lemma ens_negatives_filter labels p names st :
  existsb (String.eqb "ENS flagged") labels = false ->
  filter (label_in labels) (findings (ens_negatives p names st)) =
  filter (label_in labels) (findings st).
Proof. intros H. unfold ens_negatives. cbv zeta. now apply filter_if_add_other. Qed.

Lemma ens_negatives_In (x : Finding) p names st :
  In x (findings st) -> In x (findings (ens_negatives p names st)).
Proof. intros H. unfold ens_negatives. cbv zeta. now apply In_if_add. Qed.

Lemma activity_In (x : Finding) Date_now outs ins dust st :
  In x (findings st) -> In x (findings (activity Date_now outs ins dust st)).
Proof.
  intros H. unfold activity. cbv zeta.
  destruct (List.length (outs ++ ins) =? 0)%nat; [now apply In_addFinding|].
  apply In_if_add.
  match goal with |- In _ (findings (if ?c then _ else _)) => destruct c end.
  all: repeat apply In_if_add.
  all: repeat match goal with
         | |- In _ (findings (if ?c then _ else _)) => destruct c
         | |- In _ (findings (addFinding _ _ _ _ _)) => apply In_addFinding
         end; exact H.
Qed.

Lemma activity_age_tiers Date_now outs ins dust st :
  (List.length (filter (label_in age_tiers) (findings (activity Date_now outs ins dust st)))
   <= List.length (filter (label_in age_tiers) (findings st)) + 1)%nat.
Proof.
  unfold activity. cbv zeta.
  destruct (List.length (outs ++ ins) =? 0)%nat.
  { rewrite filter_add_other by reflexivity. lia. }
  rewrite filter_if_add_other by reflexivity.
  match goal with |- context [filter _ (findings (if ?c then _ else _))] => destruct c end.
  all: rewrite !filter_if_add_other by reflexivity.
  all: repeat match goal with
         | |- context [filter _ (findings (if ?c then _ else _))] => destruct c
         end;
       rewrite ?filter_addFinding; rewrite ?length_app; cbn; lia.
Qed.

Lemma activity_no_transfers Date_now dust st :
  activity Date_now [] [] dust st =
  addFinding "No history" "No transactions found on Sepolia." medium 22 st.
Proof. reflexivity. Qed.

(** A transfer whose normalized timestamp is 0 has no usable time for the
    handler either: the age of the account is [null]. *)
Lemma recentMs_of_timestamp_0 (t : RawTransfer) :
  SafeSend.timestamp (SafeSend.normalizeTransfer t) = 0 ->
  recentMs t = Num 0 \/ recentMs t = NaN.
Proof.
  unfold SafeSend.normalizeTransfer, recentMs. cbn [SafeSend.timestamp].
  destruct (if truthy (raw_blockTimestamp t) then _ else _) as [|z].
  - now right.
  - intros ->. now left.
Qed.

Lemma min_or_0_undated (xs : list num) :
  (forall x, In x xs -> x = Num 0 \/ x = NaN) ->
  min_or_0 xs = Num 0 \/ min_or_0 xs = NaN.
Proof.
  destruct xs as [|x r]; [now left|]. intros H. cbn [min_or_0].
  assert (Hx : x = Num 0 \/ x = NaN) by (apply H; now left).
  assert (Hr : forall y, In y r -> y = Num 0 \/ y = NaN) by (intros y Hy; apply H; now right).
  clear H. revert x Hx. induction r as [|y r IH]; intros x Hx; [exact Hx|].
  cbn [fold_left]. apply IH.
  - intros z Hz. apply Hr. now right.
  - destruct Hx as [-> | ->]; destruct (Hr y (or_introl eq_refl)) as [-> | ->];
      cbn; auto.
Qed.

Lemma daysSince_undated now (x : num) :
  x = Num 0 \/ x = NaN -> daysSince now x = None.
Proof. intros [-> | ->]; reflexivity. Qed.

Lemma activity_undated Date_now outs ins dust st :
  (outs ++ ins)%list <> [] ->
  (forall t, In t (outs ++ ins)%list ->
             SafeSend.timestamp (SafeSend.normalizeTransfer t) = 0) ->
  In {| label := "New address"; detail := "First seen < 24h."; level := high |}
     (findings (activity Date_now outs ins dust st)).
Proof.
  intros Hne Hundated.
  assert (Hdays : daysSince (Date_now 0%nat) (min_or_0 (map recentMs (outs ++ ins))) = None).
  { apply daysSince_undated, min_or_0_undated. intros x Hx.
    apply in_map_iff in Hx as (t & <- & Ht).
    now apply recentMs_of_timestamp_0, Hundated. }
  unfold activity. cbv zeta. rewrite Hdays.
  destruct (List.length (outs ++ ins) =? 0)%nat eqn:Hlen.
  { apply Nat.eqb_eq, length_zero_iff_nil in Hlen. contradiction. }
  change (days_lt None 1) with true. cbv iota.
  apply In_if_add.
  match goal with |- In _ (findings (if ?c then _ else _)) => destruct c end.
  all: repeat apply In_if_add.
  all: repeat match goal with
         | |- In _ (findings (if ?c then _ else _)) => destruct c
         end; apply In_addFinding_last.
Qed.

End WorkerFacts.

(* ------------------------------------------------------------------------- *)
(** * More facts about [runRiskEval] and its helpers *)

Section SafeSendMore.
Import JS Alchemy SafeSend.
Context {host : Host}.

Lemma push_if (c : bool) (l : list Factor) (f : Factor) :
  (if c then push l f else l) = (l ++ (if c then [f] else []))%list.
Proof. destruct c; [reflexivity|]. now rewrite app_nil_r. Qed.

Lemma push_if2 (c1 c2 : bool) (l : list Factor) (f1 f2 : Factor) :
  (if c1 then push l f1 else if c2 then push l f2 else l)
  = (l ++ (if c1 then [f1] else if c2 then [f2] else []))%list.
Proof. destruct c1; [reflexivity|]. apply push_if. Qed.

Lemma heuristics_detectors nowMs address B W code nonce outTxs inTxs :
  heuristics nowMs address B W code nonce outTxs inTxs =
  (known_bad B address ++ contract_address code ++ new_or_inactive nonce ++
   bursty_outbounds nowMs (normalized outTxs) ++ dust_pattern (normalized inTxs) ++
   repeated_equal_amounts (normalized outTxs) ++
   fresh_funds_fast_out (normalized inTxs) (normalized outTxs) ++
   watchlist_touch W (normalized inTxs) (normalized outTxs))%list.
Proof.
  unfold heuristics. cbv zeta.
  rewrite !push_if2, !push_if. cbn [app]. rewrite <- !app_assoc.
  reflexivity.
Qed.

Lemma runRiskEval_value up random nowMs address env res :
  runRiskEval up random nowMs address env = Return res ->
  exists code nonce outTxs inTxs,
    truthy (ALCHEMY_SEPOLIA_URL env) = true /\
    rpc (random 0%nat) "eth_getCode" (eth_getCode up) = Return code /\
    rpc (random 1%nat) "eth_getTransactionCount" (eth_getTransactionCount up)
      = Return nonce /\
    catch (rpc (random 2%nat) "alchemy_getAssetTransfers" (transfers_from up)) (Some [])
      = Return outTxs /\
    catch (rpc (random 3%nat) "alchemy_getAssetTransfers" (transfers_to up)) (Some [])
      = Return inTxs /\
    res = assess nowMs address (parseCsvList (BADLIST env))
            (parseCsvList (DUST_WATCHLIST env)) code nonce outTxs inTxs.
Proof.
  unfold runRiskEval.
  destruct (truthy (ALCHEMY_SEPOLIA_URL env)); [|discriminate]. cbn [negb].
  destruct (rpc (random 0%nat) _ _) as [code|]; [|discriminate].
  destruct (rpc (random 1%nat) _ _) as [nonce|];
    [|destruct (catch _ _), (catch _ _); discriminate].
  destruct (catch (rpc (random 2%nat) _ _) _) as [o|] eqn:Ho;
    [|destruct (catch _ _); discriminate].
  destruct (catch (rpc (random 3%nat) _ _) _) as [i|] eqn:Hi; [|discriminate].
  cbn. intros H; injection H as <-.
  exists code, nonce, o, i. repeat split; reflexivity.
Qed.

Lemma factors_assess nowMs address B W code nonce outTxs inTxs :
  factors (assess nowMs address B W code nonce outTxs inTxs) =
  heuristics nowMs address B W code nonce outTxs inTxs.
Proof. reflexivity. Qed.

Lemma total_weight_app (l1 l2 : list Factor) :
  total_weight (l1 ++ l2) = total_weight l1 + total_weight l2.
Proof.
  induction l1 as [|f l IH]; [reflexivity|].
  change (total_weight (f :: (l ++ l2)) = total_weight (f :: l) + total_weight l2).
  change (weight f + total_weight (l ++ l2) = weight f + total_weight l + total_weight l2).
  rewrite IH. lia.
Qed.

Lemma weight_bounds (f : Factor) : 6 <= weight f <= 25.
Proof. unfold weight. destruct (severity f); lia. Qed.

Lemma total_weight_bounds (l : list Factor) :
  6 * Z.of_nat (List.length l) <= total_weight l <= 25 * Z.of_nat (List.length l).
Proof.
  induction l as [|f l IH]; [cbn; lia|].
  change (total_weight (f :: l)) with (weight f + total_weight l).
  pose proof (weight_bounds f). cbn [List.length]. lia.
Qed.

Lemma heuristics_length nowMs address B W code nonce outTxs inTxs :
  (List.length (heuristics nowMs address B W code nonce outTxs inTxs) <= 8)%nat.
Proof.
  rewrite heuristics_detectors. rewrite !length_app.
  assert (H1 : (List.length (known_bad B address) <= 1)%nat)
    by (detector_cases; cbn; lia).
  assert (H2 : (List.length (contract_address code) <= 1)%nat)
    by (detector_cases; cbn; lia).
  assert (H3 : (List.length (new_or_inactive nonce) <= 1)%nat)
    by (detector_cases; cbn; lia).
  assert (H4 : (List.length (bursty_outbounds nowMs (normalized outTxs)) <= 1)%nat)
    by (detector_cases; cbn; lia).
  assert (H5 : (List.length (dust_pattern (normalized inTxs)) <= 1)%nat)
    by (detector_cases; cbn; lia).
  assert (H6 : (List.length (repeated_equal_amounts (normalized outTxs)) <= 1)%nat)
    by (detector_cases; cbn; lia).
  assert (H7 : (List.length (fresh_funds_fast_out (normalized inTxs) (normalized outTxs))
                <= 1)%nat)
    by (detector_cases; cbn; lia).
  assert (H8 : (List.length (watchlist_touch W (normalized inTxs) (normalized outTxs))
                <= 1)%nat)
    by (detector_cases; cbn; lia).
  lia.
Qed.


(** countWithin *)
Lemma countWithin_bounds nowMs (l : list Transfer) windowMs :
  0 <= countWithin nowMs l windowMs <= Z.of_nat (List.length l).
Proof.
  unfold countWithin. cbv zeta.
  pose proof (filter_length_le (fun t => nowMs - windowMs <=? timestamp t) l). lia.
Qed.

Lemma countWithin_undated nowMs (l : list Transfer) windowMs :
  windowMs < nowMs ->
  (forall t, In t l -> timestamp t = 0) ->
  countWithin nowMs l windowMs = 0.
Proof.
  intros Hw Hl. unfold countWithin. cbv zeta.
  induction l as [|t l IH]; [reflexivity|]. cbn [filter].
  rewrite (Hl t (or_introl eq_refl)).
  destruct (Z.leb_spec (nowMs - windowMs) 0); [lia|].
  apply IH. intros u Hu. apply Hl. now right.
Qed.

(** freshInThenOut *)

Lemma find_none_older (latestIn newest : Transfer) rest :
  Forall (fun o => timestamp o <= timestamp newest) rest ->
  timestamp newest < timestamp latestIn ->
  find (fun o => timestamp latestIn <=? timestamp o) (newest :: rest) = None.
Proof.
  intros Hall Hlt. rewrite Forall_forall in Hall.
  assert (Hfa : forall o, In o (newest :: rest) ->
                          (timestamp latestIn <=? timestamp o) = false).
  { intros o [<- | Ho]; apply Z.leb_gt; [lia|]. specialize (Hall o Ho). lia. }
  clear Hall. revert Hfa. generalize (newest :: rest). intros l.
  induction l as [|o l IH]; intros Hfa; [reflexivity|]. cbn [find].
  rewrite (Hfa o (or_introl eq_refl)). apply IH. intros u Hu. apply Hfa. now right.
Qed.


Lemma repeatedAmounts_folds (l : list Transfer) :
  repeatedAmounts l =
  fold_left pick_max (fold_left count_key (amount_keys l) [])
    {| maxRepeats := 0; amountStr := "" |}.
Proof.
  unfold repeatedAmounts. cbv zeta. f_equal.
  generalize (@nil (string * Z)). induction l as [|t l IH]; intros m; [reflexivity|].
  cbn [fold_left amount_keys flat_map]. fold (amount_keys l).
  destruct (valueEth t) as [v|]; cbn [app fold_left]; apply IH.
Qed.

Lemma Map_get_set k key v (m : list (string * Z)) :
  Map_get k (Map_set key v m) = if (k =? key)%string then Some v else Map_get k m.
Proof.
  induction m as [|[k' v'] m IH]; cbn [Map_set Map_get].
  - reflexivity.
  - destruct (key =? k')%string eqn:Hkk'.
    + apply String.eqb_eq in Hkk'. subst k'. cbn [Map_get].
      destruct (k =? key)%string; reflexivity.
    + cbn [Map_get]. destruct (k =? k')%string eqn:Hk.
      * apply String.eqb_eq in Hk. subst k'.
        rewrite String.eqb_sym in Hkk'. now rewrite Hkk'.
      * exact IH.
Qed.

Lemma Map_set_keys key v (m : list (string * Z)) :
  map fst (Map_set key v m) =
  if existsb (String.eqb key) (map fst m) then map fst m else (map fst m ++ [key])%list.
Proof.
  induction m as [|[k' v'] m IH]; cbn [Map_set map fst existsb app].
  - reflexivity.
  - destruct (key =? k')%string eqn:Hkk'; cbn [orb map fst].
    + apply String.eqb_eq in Hkk'. now subst.
    + rewrite IH. destruct (existsb _ _); reflexivity.
Qed.

Lemma Map_set_NoDup key v (m : list (string * Z)) :
  NoDup (map fst m) -> NoDup (map fst (Map_set key v m)).
Proof.
  intros H. rewrite Map_set_keys. destruct (existsb _ _) eqn:He; [exact H|].
  apply NoDup_app; [exact H | repeat constructor; intros [] | ].
  intros x Hx [Heq | []]. subst x.
  assert (existsb (String.eqb key) (map fst m) = true); [|congruence].
  apply existsb_exists. exists key. split; [exact Hx | apply String.eqb_refl].
Qed.

Lemma Map_get_In k v (m : list (string * Z)) :
  NoDup (map fst m) -> (In (k, v) m <-> Map_get k m = Some v).
Proof.
  induction m as [|[k' v'] m IH]; cbn [map fst Map_get In]; intros Hnd.
  - split; [intros [] | discriminate].
  - apply NoDup_cons_iff in Hnd as [Hnotin Hnd]. destruct (k =? k')%string eqn:Hk.
    + apply String.eqb_eq in Hk. subst k'. split.
      * intros [H | H]; [now injection H as -> |].
        exfalso. apply Hnotin. apply in_map_iff. now exists (k, v).
      * intros H. injection H as ->. now left.
    + apply String.eqb_neq in Hk. rewrite <- (IH Hnd). split.
      * intros [H | H]; [injection H as -> ->; contradiction | exact H].
      * intros H. now right.
Qed.

Lemma occurrences_cons k key keys :
  occurrences k (key :: keys) =
  occurrences k keys + (if (k =? key)%string then 1 else 0).
Proof.
  unfold occurrences. cbn [count_occ].
  destruct (string_dec key k) as [->|Hne].
  - rewrite String.eqb_refl. lia.
  - destruct (k =? key)%string eqn:Hk; [|lia].
    apply String.eqb_eq in Hk. congruence.
Qed.

Lemma Map_count_count_key k key (m : list (string * Z)) :
  Map_count (count_key m key) k = Map_count m k + (if (k =? key)%string then 1 else 0).
Proof.
  unfold count_key, Map_count at 1. rewrite Map_get_set.
  destruct (k =? key)%string eqn:Hk.
  - apply String.eqb_eq in Hk. now subst.
  - fold (Map_count m k). lia.
Qed.

Lemma counting_loop keys (m : list (string * Z)) :
  NoDup (map fst m) ->
  (forall k v, In (k, v) m -> 1 <= v) ->
  let m' := fold_left count_key keys m in
  NoDup (map fst m') /\
  (forall k v, In (k, v) m' -> 1 <= v) /\
  (forall k, Map_count m' k = Map_count m k + occurrences k keys).
Proof.
  cbv zeta. revert m. induction keys as [|key keys IH]; intros m Hnd Hpos.
  - cbn [fold_left]. repeat split; auto. intros k. unfold occurrences. cbn. lia.
  - cbn [fold_left].
    assert (Hnd' : NoDup (map fst (count_key m key))) by now apply Map_set_NoDup.
    assert (Hpos' : forall k v, In (k, v) (count_key m key) -> 1 <= v).
    { intros k v Hin. apply (Map_get_In _ _ _ Hnd') in Hin.
      unfold count_key in Hin. rewrite Map_get_set in Hin.
      destruct (k =? key)%string.
      - injection Hin as <-. unfold Map_count.
        destruct (Map_get key m) as [n|] eqn:Hg; [|lia].
        apply (Map_get_In _ _ _ Hnd) in Hg. specialize (Hpos _ _ Hg). lia.
      - apply (Map_get_In _ _ _ Hnd) in Hin. eauto. }
    destruct (IH _ Hnd' Hpos') as (H1 & H2 & H3). repeat split; auto.
    intros k. rewrite H3, Map_count_count_key, occurrences_cons. lia.
Qed.

Lemma picking_loop (m : list (string * Z)) (init : Repeats) :
  let r := fold_left pick_max m init in
  maxRepeats init <= maxRepeats r /\
  (forall k v, In (k, v) m -> v <= maxRepeats r) /\
  (r = init \/ In (amountStr r, maxRepeats r) m).
Proof.
  cbv zeta. revert init. induction m as [|[k v] m IH]; intros init.
  - cbn [fold_left]. repeat split; auto; try lia. intros ? ? [].
  - cbn [fold_left]. destruct (IH (pick_max init (k, v))) as (H1 & H2 & H3).
    assert (Hstep : maxRepeats init <= maxRepeats (pick_max init (k, v)) /\
                    v <= maxRepeats (pick_max init (k, v)) /\
                    (pick_max init (k, v) = init \/
                     pick_max init (k, v) = {| maxRepeats := v; amountStr := k |})).
    { unfold pick_max. cbn [fst snd].
      destruct (Z.ltb_spec (maxRepeats init) v); cbn [maxRepeats]; repeat split; auto; lia. }
    destruct Hstep as (S1 & S2 & S3). repeat split.
    + lia.
    + intros k' v' [Heq | Hin]; [injection Heq as <- <-; lia | eauto].
    + destruct H3 as [-> | H3]; [|right; now right].
      destruct S3 as [-> | ->]; [now left|]. right. left. reflexivity.
Qed.


Lemma lower_char_hex (c : ascii) :
  is_hex c = true -> is_lower_hex (lower_char c) = true.
Proof.
  destruct c as [b0 b1 b2 b3 b4 b5 b6 b7].
  destruct b0, b1, b2, b3, b4, b5, b6, b7; vm_compute; intros H;
    first [reflexivity | discriminate H].
Qed.

Lemma lower_char_fixed (c : ascii) :
  is_lower_hex c = true -> lower_char c = c.
Proof.
  unfold is_lower_hex, lower_char. intros H. apply andb_prop in H as [_ H].
  apply negb_true_iff in H. now rewrite H.
Qed.

Lemma toLowerCase_length (s : string) : String.length (toLowerCase s) = String.length s.
Proof. induction s as [|c s IH]; cbn; [reflexivity | now rewrite IH]. Qed.

Lemma toLowerCase_hex (h : string) :
  all_chars is_hex h = true -> all_chars is_lower_hex (toLowerCase h) = true.
Proof.
  induction h as [|c h IH]; cbn [all_chars toLowerCase]; [reflexivity|].
  intros H. apply andb_prop in H as [Hc Hh].
  now rewrite (lower_char_hex c Hc), (IH Hh).
Qed.

Lemma toLowerCase_fixed (h : string) :
  all_chars is_lower_hex h = true -> toLowerCase h = h.
Proof.
  induction h as [|c h IH]; cbn [all_chars toLowerCase]; [reflexivity|].
  intros H. apply andb_prop in H as [Hc Hh].
  now rewrite (lower_char_fixed c Hc), (IH Hh).
Qed.

Lemma is_address_inv (a : string) :
  is_address a = true ->
  exists h, a = String "0" (String "x" h) /\
            String.length h = 40%nat /\ all_chars is_hex h = true.
Proof.
  unfold is_address. destruct a as [|c0 a]; [discriminate|].
  destruct c0 as [[] [] [] [] [] [] [] []]; try discriminate.
  destruct a as [|c1 h]; [discriminate|].
  destruct c1 as [[] [] [] [] [] [] [] []]; try discriminate.
  intros H. apply andb_prop in H as [Hlen Hhex]. apply Nat.eqb_eq in Hlen.
  now exists h.
Qed.

Lemma is_lower_address_inv (a : string) :
  is_lower_address a = true ->
  exists h, a = String "0" (String "x" h) /\
            String.length h = 40%nat /\ all_chars is_lower_hex h = true.
Proof.
  unfold is_lower_address. destruct a as [|c0 a]; [discriminate|].
  destruct c0 as [[] [] [] [] [] [] [] []]; try discriminate.
  destruct a as [|c1 h]; [discriminate|].
  destruct c1 as [[] [] [] [] [] [] [] []]; try discriminate.
  intros H. apply andb_prop in H as [Hlen Hhex]. apply Nat.eqb_eq in Hlen.
  now exists h.
Qed.

Lemma is_address_lower (a : string) :
  is_address a = true -> is_lower_address (toLowerCase a) = true.
Proof.
  intros H. apply is_address_inv in H as (h & -> & Hlen & Hhex).
  change (toLowerCase (String "0" (String "x" h))) with (String "0" (String "x" (toLowerCase h))).
  cbn [is_lower_address]. rewrite toLowerCase_length, Hlen. cbn [Nat.eqb andb].
  now apply toLowerCase_hex.
Qed.

Lemma is_lower_address_fixed (a : string) :
  is_lower_address a = true -> toLowerCase a = a.
Proof.
  intros H. apply is_lower_address_inv in H as (h & -> & _ & Hhex).
  change (toLowerCase (String "0" (String "x" h))) with (String "0" (String "x" (toLowerCase h))).
  now rewrite (toLowerCase_fixed h Hhex).
Qed.

Lemma csv_loop (parts : list string) (init : set string) :
  NoDup init ->
  let out :=
    fold_left
      (fun out part =>
         let a := toLowerCase (trim part) in
         if is_lower_address a then set_add string_dec a out else out)
      parts init in
  NoDup out /\
  forall x, In x out <->
            In x init \/
            exists p, In p parts /\ toLowerCase (trim p) = x /\ is_lower_address x = true.
Proof.
  cbv zeta. revert init. induction parts as [|p parts IH]; intros init Hnd.
  - cbn [fold_left]. split; [exact Hnd|]. intros x. split; [now left|].
    intros [H | (p & [] & _)]. exact H.
  - cbn [fold_left].
    set (init' := if is_lower_address (toLowerCase (trim p))
                  then set_add string_dec (toLowerCase (trim p)) init else init).
    assert (Hnd' : NoDup init').
    { unfold init'. destruct (is_lower_address _); [now apply set_add_nodup | exact Hnd]. }
    destruct (IH init' Hnd') as [H1 H2]. split; [exact H1|].
    intros x. rewrite H2. unfold init'. split.
    + intros [Hin | (q & Hq & Hx & Hv)].
      * destruct (is_lower_address (toLowerCase (trim p))) eqn:Hp.
        -- apply set_add_iff in Hin as [-> | Hin]; [|now left].
           right. exists p. repeat split; [now left | exact Hp].
        -- now left.
      * right. exists q. repeat split; [now right | exact Hx | exact Hv].
    + intros [Hin | (q & [<- | Hq] & Hx & Hv)].
      * left. destruct (is_lower_address _); [apply set_add_iff; now right | exact Hin].
      * left. rewrite Hx, Hv. apply set_add_iff. now left.
      * right. now exists q.
Qed.

Lemma Set_has_In (s : set string) (x : string) : Set_has s x = true <-> In x s.
Proof.
  unfold Set_has. split; [apply set_mem_correct1 | apply set_mem_correct2].
Qed.

Lemma parseCsvList_In (str : option string) (x : string) :
  In x (parseCsvList str) <->
  truthy str = true /\
  exists p, In p (split_comma (or_else str "")) /\
            toLowerCase (trim p) = x /\ is_lower_address x = true.
Proof.
  unfold parseCsvList. destruct (truthy str); cbn [negb].
  - destruct (csv_loop (split_comma (or_else str "")) (empty_set string) (NoDup_nil _))
      as [_ H]. rewrite H. split.
    + intros [[] | Hp]. now split.
    + intros [_ Hp]. now right.
  - split; [intros [] | intros [H _]; discriminate].
Qed.

Lemma parseCsvList_NoDup (str : option string) : NoDup (parseCsvList str).
Proof.
  unfold parseCsvList. destruct (truthy str); cbn [negb]; [|constructor].
  apply csv_loop. constructor.
Qed.


Lemma repeatedAmounts_bound (l : list Transfer) :
  0 <= maxRepeats (repeatedAmounts l) <= Z.of_nat (List.length l).
Proof.
  rewrite repeatedAmounts_folds.
  destruct (counting_loop (amount_keys l) [] (NoDup_nil _)) as (Hnd & Hpos & Hcount).
  { intros k v []. }
  cbv zeta in *.
  destruct (picking_loop (fold_left count_key (amount_keys l) [])
              {| maxRepeats := 0; amountStr := "" |}) as (Hge & _ & Hr).
  cbv zeta in *. cbn [maxRepeats] in Hge. split; [exact Hge|].
  destruct Hr as [-> | Hin]; [cbn; lia|].
  apply (Map_get_In _ _ _ Hnd) in Hin.
  specialize (Hcount (amountStr (fold_left pick_max (fold_left count_key (amount_keys l) [])
                                   {| maxRepeats := 0; amountStr := "" |}))).
  unfold Map_count in Hcount at 1. rewrite Hin in Hcount. cbn [Map_count Map_get] in Hcount.
  rewrite Hcount. unfold occurrences.
  pose proof (count_occ_bound string_dec
                (amountStr (fold_left pick_max (fold_left count_key (amount_keys l) [])
                              {| maxRepeats := 0; amountStr := "" |}))
                (amount_keys l)) as Hb.
  assert (Hk : (List.length (amount_keys l) <= List.length l)%nat).
  { clear. induction l as [|t l IH]; [reflexivity|].
    cbn [amount_keys flat_map]. fold (amount_keys l). rewrite length_app.
    destruct (valueEth t); cbn [List.length]; lia. }
  lia.
Qed.

Lemma normalized_length (txs : option (list RawTransfer)) :
  List.length (normalized txs) = List.length (match txs with Some l => l | None => [] end).
Proof. unfold normalized. apply length_map. Qed.

End SafeSendMore.

(* ------------------------------------------------------------------------- *)
(** * Lowercasing commutes with splitting and trimming *)

Section BlocklistsAgree.
Import JS Alchemy.

Lemma lower_char_ws c : is_ws (lower_char c) = is_ws c.
Proof. destruct c as [[] [] [] [] [] [] [] []]; reflexivity. Qed.

Lemma lower_char_comma c : Ascii.eqb (lower_char c) ","%char = Ascii.eqb c ","%char.
Proof. destruct c as [[] [] [] [] [] [] [] []]; reflexivity. Qed.

(** Lowercasing changes bytes below 128 only, and into such bytes. *)
Lemma lower_char_cases c :
  lower_char c = c \/
  ((N_of_ascii c <? 128)%N = true /\ (N_of_ascii (lower_char c) <? 128)%N = true).
Proof.
  destruct c as [[] [] [] [] [] [] [] []];
    first [left; reflexivity | right; split; reflexivity].
Qed.

Lemma is_byte_lower (k : N) c :
  (128 <=? k)%N = true -> is_byte k (lower_char c) = is_byte k c.
Proof.
  intros Hk. destruct (lower_char_cases c) as [-> | [H1 H2]]; [reflexivity|].
  unfold is_byte. apply N.leb_le in Hk. apply N.ltb_lt in H1, H2.
  transitivity false; [|symmetry]; apply N.eqb_neq; lia.
Qed.

Lemma byte_between_lower (lo hi : N) c :
  (128 <=? lo)%N = true -> byte_between lo hi (lower_char c) = byte_between lo hi c.
Proof.
  intros Hk. destruct (lower_char_cases c) as [-> | [H1 H2]]; [reflexivity|].
  unfold byte_between. apply N.leb_le in Hk. apply N.ltb_lt in H1, H2.
  transitivity false; [|symmetry]; apply andb_false_iff; left; apply N.leb_gt; lia.
Qed.

Lemma lower_char_ws2 c d : is_ws2 (lower_char c) (lower_char d) = is_ws2 c d.
Proof. unfold is_ws2. now rewrite !is_byte_lower by reflexivity. Qed.

Lemma lower_char_ws3 c d e :
  is_ws3 (lower_char c) (lower_char d) (lower_char e) = is_ws3 c d e.
Proof.
  unfold is_ws3. now rewrite !is_byte_lower, byte_between_lower by reflexivity.
Qed.

Lemma toLowerCase_is_empty s : (toLowerCase s =? "")%string = (s =? "")%string.
Proof. destruct s; reflexivity. Qed.

Lemma toLowerCase_trimStart_upto (n : nat) s :
  (String.length s <= n)%nat -> trimStart (toLowerCase s) = toLowerCase (trimStart s).
Proof.
  revert s. induction n as [|n IH]; intros s Hn.
  { destruct s; [reflexivity | cbn in Hn; lia]. }
  destruct s as [|c r]; [reflexivity|]. cbn [String.length] in Hn.
  cbn [toLowerCase trimStart]. rewrite lower_char_ws.
  destruct (is_ws c); [apply IH; lia|].
  destruct r as [|d r2]; [reflexivity|]. cbn [String.length] in Hn.
  cbn [toLowerCase]. rewrite lower_char_ws2.
  destruct (is_ws2 c d); [apply IH; lia|].
  destruct r2 as [|e r3]; [reflexivity|]. cbn [String.length] in Hn.
  cbn [toLowerCase]. rewrite lower_char_ws3.
  destruct (is_ws3 c d e); [apply IH; lia | reflexivity].
Qed.

Lemma toLowerCase_trimStart s : trimStart (toLowerCase s) = toLowerCase (trimStart s).
Proof. apply (toLowerCase_trimStart_upto (String.length s)). lia. Qed.

Lemma toLowerCase_all_ws_upto (n : nat) s :
  (String.length s <= n)%nat -> all_ws (toLowerCase s) = all_ws s.
Proof.
  revert s. induction n as [|n IH]; intros s Hn.
  { destruct s; [reflexivity | cbn in Hn; lia]. }
  destruct s as [|c r]; [reflexivity|]. cbn [String.length] in Hn.
  cbn [toLowerCase all_ws]. rewrite lower_char_ws.
  destruct (is_ws c); [apply IH; lia|].
  destruct r as [|d r2]; [reflexivity|]. cbn [String.length] in Hn.
  cbn [toLowerCase]. rewrite lower_char_ws2.
  destruct (is_ws2 c d); [apply IH; lia|].
  destruct r2 as [|e r3]; [reflexivity|]. cbn [String.length] in Hn.
  cbn [toLowerCase]. rewrite lower_char_ws3. f_equal. apply IH. lia.
Qed.

Lemma toLowerCase_all_ws s : all_ws (toLowerCase s) = all_ws s.
Proof. apply (toLowerCase_all_ws_upto (String.length s)). lia. Qed.

Lemma toLowerCase_trimEnd s : trimEnd (toLowerCase s) = toLowerCase (trimEnd s).
Proof.
  induction s as [|c r IH]; [reflexivity|].
  change (toLowerCase (String c r)) with (String (lower_char c) (toLowerCase r)).
  change (trimEnd (String (lower_char c) (toLowerCase r)))
    with (if all_ws (String (lower_char c) (toLowerCase r)) then EmptyString
          else String (lower_char c) (trimEnd (toLowerCase r))).
  change (trimEnd (String c r))
    with (if all_ws (String c r) then EmptyString else String c (trimEnd r)).
  change (String (lower_char c) (toLowerCase r)) with (toLowerCase (String c r)).
  rewrite toLowerCase_all_ws, IH. destruct (all_ws (String c r)); reflexivity.
Qed.

Lemma toLowerCase_trim s : trim (toLowerCase s) = toLowerCase (trim s).
Proof. unfold trim. now rewrite toLowerCase_trimStart, toLowerCase_trimEnd. Qed.

Lemma toLowerCase_split s : split_comma (toLowerCase s) = map toLowerCase (split_comma s).
Proof.
  induction s as [|c r IH]; [reflexivity|]. cbn [toLowerCase split_comma]. cbv zeta.
  rewrite lower_char_comma, IH.
  destruct (Ascii.eqb c ","%char) eqn:Ec; [reflexivity|].
  destruct (split_comma r); reflexivity.
Qed.

Lemma includes_str_In l x : Worker.includes_str l x = true <-> In x l.
Proof.
  unfold Worker.includes_str. rewrite existsb_exists. split.
  - intros (y & Hy & Heq). apply String.eqb_eq in Heq. now subst.
  - intros Hx. exists x. split; [exact Hx | apply String.eqb_refl].
Qed.

Lemma csv_In (config : option string) x :
  In x (Worker.csv config) <->
  x <> "" /\ exists p, In p (split_comma (or_else config "")) /\ toLowerCase (trim p) = x.
Proof.
  unfold Worker.csv. rewrite filter_In, in_map_iff, toLowerCase_split. split.
  - intros ((q & Hq & Hin) & Hne). apply in_map_iff in Hin as (p & <- & Hp).
    rewrite toLowerCase_trim in Hq. split.
    + intros ->. discriminate Hne.
    + exists p. auto.
  - intros (Hne & p & Hp & Hx). split.
    + exists (toLowerCase p). split; [now rewrite toLowerCase_trim|].
      apply in_map_iff. exists p. auto.
    + destruct (x =? "")%string eqn:E; [|reflexivity].
      apply String.eqb_eq in E. contradiction.
Qed.

End BlocklistsAgree.

(* ------------------------------------------------------------------------- *)
(** * The report of [Worker.js], block by block *)

Section WorkerReport.
Import JS Alchemy Worker.
Context {host : Host}.

Lemma findings_if_add (c : bool) l d lv delta st :
  findings (if c then addFinding l d lv delta st else st) =
  (findings st ++ (if c then [{| label := l; detail := d; level := lv |}] else []))%list.
Proof. destruct c; [reflexivity|]. cbn. now rewrite app_nil_r. Qed.

Lemma activity_findings Date_now outs ins dust st :
  findings (activity Date_now outs ins dust st) =
  (findings st ++ activity_report Date_now outs ins dust)%list.
Proof.
  unfold activity, activity_report. cbv zeta.
  destruct (List.length (outs ++ ins) =? 0)%nat; [reflexivity|].
  rewrite findings_if_add.
  match goal with
  | |- context [findings (if ?c then if ?b then addFinding ?l ?d ?lv ?w ?x else ?x else ?x)] =>
      replace (findings (if c then if b then addFinding l d lv w x else x else x))
        with (findings x ++ (if c then if b then [{| label := l; detail := d; level := lv |}]
                                       else [] else []))%list
        by (destruct c; [apply eq_sym, findings_if_add | now rewrite app_nil_r])
  end.
  rewrite !findings_if_add.
  match goal with
  | |- context [findings (if ?c1 then addFinding ?l1 ?d1 ?v1 ?w1 st
                          else if ?c2 then addFinding ?l2 ?d2 ?v2 ?w2 st
                          else if ?c3 then addFinding ?l3 ?d3 ?v3 ?w3 st else st)] =>
      destruct c1; [|destruct c2; [|destruct c3]]
  end.
  all: cbn [findings addFinding app]; rewrite <- ?app_assoc; cbn [app];
    rewrite ?app_nil_r; reflexivity.
Qed.


Lemma total_weight_snoc (fs : list Finding) (f : Finding) :
  total_weight (fs ++ [f]) = total_weight fs + weight_of_label (label f).
Proof.
  induction fs as [|g fs IH].
  - cbn. lia.
  - change (total_weight ((g :: fs) ++ [f]))
      with (weight_of_label (label g) + total_weight (fs ++ [f])).
    change (total_weight (g :: fs)) with (weight_of_label (label g) + total_weight fs).
    rewrite IH. lia.
Qed.

Lemma explained_add l d lv delta st :
  weight_of_label l = delta -> level_of_label l = lv ->
  explained st -> explained (addFinding l d lv delta st).
Proof.
  intros Hw Hl [Hs Hf]. split.
  - cbn [score findings addFinding]. rewrite total_weight_snoc. cbn [label]. lia.
  - cbn [findings addFinding]. rewrite forallb_app, Hf. cbn [forallb label level andb].
    rewrite Hl. now destruct lv.
Qed.

Lemma explained_if_add (c : bool) l d lv delta st :
  weight_of_label l = delta -> level_of_label l = lv ->
  explained st -> explained (if c then addFinding l d lv delta st else st).
Proof. intros Hw Hl H. destruct c; [now apply explained_add | exact H]. Qed.

Lemma explained_blocklists BL E addr st st' :
  blocklists BL E addr st = Return st' -> explained st -> explained st'.
Proof.
  unfold blocklists. destruct (Object_get E (toLowerCase addr)) as [link|]; [|discriminate].
  intros H Hst; injection H as <-.
  apply explained_if_add; [reflexivity..|]. now apply explained_if_add.
Qed.

Lemma explained_contract lookup st : explained st -> explained (contract lookup st).
Proof.
  intros H. unfold contract. destruct lookup as [bytecode|];
    [|now apply explained_add].
  destruct (negb _ && negb _); [|now apply explained_add]. cbv zeta.
  apply explained_if_add; [reflexivity..|]. apply explained_if_add; [reflexivity..|].
  now apply explained_add.
Qed.

Lemma explained_ens_negatives p names st :
  explained st -> explained (ens_negatives p names st).
Proof. intros H. unfold ens_negatives. cbv zeta. now apply explained_if_add. Qed.

Lemma explained_activity Date_now outs ins dust st :
  explained st -> explained (activity Date_now outs ins dust st).
Proof.
  intros H. unfold activity. cbv zeta.
  destruct (List.length (outs ++ ins) =? 0)%nat; [now apply explained_add|].
  apply explained_if_add; [reflexivity..|].
  match goal with |- explained (if ?c then _ else _) => destruct c end.
  all: repeat (apply explained_if_add; [reflexivity..|]).
  all: repeat match goal with
         | |- explained (if ?c then _ else _) => destruct c
         | |- explained (addFinding _ _ _ _ _) => apply explained_add; [reflexivity..|]
         end; exact H.
Qed.



Lemma findings_contract lookup st :
  findings (contract lookup st) = (findings st ++ contract_report lookup)%list.
Proof.
  unfold contract, contract_report. destruct lookup as [bytecode|]; [|reflexivity].
  destruct (negb _ && negb _); [|reflexivity]. cbv zeta.
  rewrite !findings_if_add. cbn [findings addFinding]. now rewrite <- !app_assoc.
Qed.

Lemma findings_ens_negatives p names st :
  findings (ens_negatives p names st) = (findings st ++ ens_report p names)%list.
Proof. unfold ens_negatives, ens_report. cbv zeta. apply findings_if_add. Qed.

Lemma findings_blocklists BL E addr st st' :
  blocklists BL E addr st = Return st' ->
  exists link, Object_get E (toLowerCase addr) = Return link /\
               findings st' = (findings st ++ blocklists_report BL link addr)%list.
Proof.
  unfold blocklists, blocklists_report.
  destruct (Object_get E (toLowerCase addr)) as [link|]; [|discriminate].
  intros H; injection H as <-. exists link. split; [reflexivity|].
  rewrite !findings_if_add. now rewrite <- app_assoc.
Qed.

Lemma worker_report up Date_now request env s fs :
  fetch up Date_now request env = Json s fs ->
  exists link st,
    Object_get (parse_ens_addrs (BAD_ENS_ADDRS env))
      (toLowerCase (trim (or_else (param_address request) ""))) = Return link /\
    s = clamp (score st) /\ fs = findings st /\ explained st /\
    fs = (blocklists_report (csv (BADLIST_ADDRESSES env)) link
            (trim (or_else (param_address request) "")) ++
          contract_report (rpc (eth_getCode up)) ++
          activity_report Date_now (transfers_seen (transfers_from up))
            (transfers_seen (transfers_to up))
            (Number_str (or_else (DUST_THRESHOLD_ETH env) "0.00002")) ++
          ens_report (param_ens request) (csv (BAD_ENS_NAMES env)))%list.
Proof.
  intros H. pose proof (worker_fetch_json _ _ _ _ _ _ H) as Hacc.
  rewrite (worker_fetch_accepted _ _ _ _ Hacc) in H. cbv zeta in H.
  destruct (blocklists _ _ _ _) as [st|] eqn:Hb; [|discriminate].
  injection H as <- <-.
  pose proof (explained_blocklists _ _ _ _ _ Hb) as Hex.
  destruct (findings_blocklists _ _ _ _ _ Hb) as (link & Hlink & Hfs).
  exists link. eexists. split; [exact Hlink|]. split; [reflexivity|].
  split; [reflexivity|]. split.
  - apply explained_ens_negatives, explained_activity, explained_contract, Hex.
    split; reflexivity.
  - rewrite findings_ens_negatives, activity_findings, findings_contract, Hfs.
    cbn [findings app]. now rewrite <- !app_assoc.
Qed.

Lemma blocklists_report_labels BL link addr f :
  In f (blocklists_report BL link addr) ->
  label f = "Blocklisted" \/ label f = "Negative ENS link".
Proof.
  unfold blocklists_report. rewrite in_app_iff.
  intros [H | H]; [destruct (includes_str _ _) | destruct (truthy link)];
    singleton H; auto.
Qed.

Lemma ens_report_labels p names f :
  In f (ens_report p names) -> label f = "ENS flagged".
Proof.
  unfold ens_report. intros H. destruct (_ && _); singleton H. reflexivity.
Qed.

Lemma contract_report_cases lookup f :
  In f (contract_report lookup) ->
  (label f = "Unknown type" /\ exists es, lookup = Throw es) \/
  (label f = "EOA" /\ exists b, lookup = Return b /\ (b = "" \/ b = "0x")) \/
  ((label f = "Contract" \/ label f = "Proxy pattern" \/ label f = "Tiny bytecode") /\
   exists b, lookup = Return b /\ b <> "" /\ b <> "0x").
Proof.
  unfold contract_report. destruct lookup as [b|es].
  - destruct (b =? "")%string eqn:H1; cbn [negb andb].
    { apply String.eqb_eq in H1. intros [<- | []]. right. left. split; [reflexivity|].
      exists b. auto. }
    destruct (b =? "0x")%string eqn:H2; cbn [negb].
    { apply String.eqb_eq in H2. intros [<- | []]. right. left. split; [reflexivity|].
      exists b. auto. }
    apply String.eqb_neq in H1, H2. intros Hin. right. right.
    split; [|exists b; auto].
    cbn [app In] in Hin. destruct Hin as [<- | Hin]; [auto|].
    apply in_app_iff in Hin.
    destruct Hin as [Hin | Hin];
      [destruct (includes _ _) | destruct (String.length b <? 200)%nat];
      singleton Hin; auto.
  - intros [<- | []]. left. split; [reflexivity | now exists es].
Qed.

Lemma length_set_add (a : string) (s : set string) :
  (List.length (set_add string_dec a s) <= S (List.length s))%nat.
Proof.
  induction s as [|b s IH]; cbn [set_add List.length]; [lia|].
  destruct (string_dec a b); cbn [List.length]; lia.
Qed.

Lemma Set_size_le (l : list string) : 0 <= Set_size l <= Z.of_nat (List.length l).
Proof.
  unfold Set_size.
  assert (H : forall s, (List.length (fold_left (fun s x => set_add string_dec x s) l s)
                         <= List.length s + List.length l)%nat).
  { induction l as [|x l IH]; intros s; cbn [fold_left List.length]; [lia|].
    specialize (IH (set_add string_dec x s)). pose proof (length_set_add x s). lia. }
  specialize (H (empty_set string)). cbn [List.length empty_set] in H. lia.
Qed.

Lemma keep_finite_length (l : list float) :
  (List.length (keep_finite l) <= List.length l)%nat.
Proof.
  induction l as [|x l IH]; cbn [keep_finite List.length]; [lia|].
  destruct (isFinite x); cbn [List.length]; lia.
Qed.

Lemma activity_report_cases Date_now outs ins dust f :
  In f (activity_report Date_now outs ins dust) ->
  (label f = "No history" /\ (outs ++ ins)%list = []) \/
  (In (label f) age_tiers /\ (outs ++ ins)%list <> []) \/
  (label f = "Low activity" /\ (0 < List.length (outs ++ ins) < 5)%nat) \/
  (label f = "Inbound only" /\ outs = [] /\ ins <> []) \/
  (label f = "Fan-out" /\ (10 <= List.length outs)%nat) \/
  (label f = "Inbound burst" /\ (5 <= List.length ins)%nat /\ outs = []) \/
  (label f = "Dusting" /\ (3 <= List.length ins)%nat) \/
  (label f = "Dormant" /\ (outs ++ ins)%list <> []).
Proof.
  unfold activity_report. cbv zeta.
  destruct (List.length (outs ++ ins) =? 0)%nat eqn:Hall.
  { apply Nat.eqb_eq, length_zero_iff_nil in Hall. intros [<- | []]. now left. }
  apply Nat.eqb_neq in Hall.
  assert (Hne : (outs ++ ins)%list <> []) by (intros E; now rewrite E in Hall).
  rewrite !in_app_iff.
  intros [H | [H | [H | [H | [H | [H | H]]]]]].
  - right. left. split; [|exact Hne].
    destruct (days_lt _ 1); [|destruct (days_lt _ 7); [|destruct (days_lt _ 30)]];
      singleton H; cbn; auto.
  - destruct (List.length (outs ++ ins) <? 5)%nat eqn:Hc; singleton H. apply Nat.ltb_lt in Hc. right. right. left.
    split; [reflexivity | lia].
  - destruct (List.length outs =? 0)%nat eqn:Hc; singleton H.
    apply Nat.eqb_eq, length_zero_iff_nil in Hc. subst outs. do 3 right. left.
    repeat split. exact Hne.
  - match type of H with In _ (if ?c then _ else _) => destruct c eqn:Hc end;
      singleton H. apply Z.leb_le in Hc.
    do 4 right. left. split; [reflexivity|].
    match type of Hc with 10 <= Set_size ?l => pose proof (Set_size_le l) as Hs end.
    pose proof (filter_length_le nonempty
      (map (fun t => toLowerCase (or_else (raw_to t) "")) outs)) as Hf.
    rewrite length_map in Hf. lia.
  - match type of H with In _ (if ?c then _ else _) => destruct c eqn:Hc end;
      singleton H.
    apply andb_prop in Hc as [Hc Hout]. apply andb_prop in Hc as [Hins _].
    apply Nat.leb_le in Hins. apply Nat.eqb_eq, length_zero_iff_nil in Hout.
    do 5 right. left. auto.
  - destruct (3 <=? List.length _)%nat eqn:Hc; [|destruct H].
    match type of H with In _ (if ?c then _ else _) => destruct c end;
      singleton H. apply Nat.leb_le in Hc.
    do 6 right. left. split; [reflexivity|].
    pose proof (keep_finite_length (map (fun t => parseEth (raw_value t)) ins)) as Hk.
    rewrite length_map in Hk. lia.
  - destruct (days_gt _ 180); singleton H.
    do 7 right. auto.
Qed.

Lemma activity_report_inbound_only Date_now ins dust :
  ins <> [] ->
  In {| label := "Inbound only"; detail := "No outbound history."; level := low |}
     (activity_report Date_now [] ins dust).
Proof.
  intros Hne. unfold activity_report. cbv zeta. cbn [app].
  destruct (List.length ins =? 0)%nat eqn:Hall.
  { apply Nat.eqb_eq, length_zero_iff_nil in Hall. contradiction. }
  rewrite !in_app_iff. right. right. left. cbn. now left.
Qed.

Lemma filter_none (labels : list string) (l : list Finding) :
  (forall f, In f l -> label_in labels f = false) -> filter (label_in labels) l = [].
Proof.
  induction l as [|f l IH]; intros H; [reflexivity|]. cbn [filter].
  rewrite (H f (or_introl eq_refl)). apply IH. intros g Hg. apply H. now right.
Qed.

Lemma activity_report_labels Date_now outs ins dust f :
  In f (activity_report Date_now outs ins dust) -> In (label f) activity_labels.
Proof.
  intros H. apply activity_report_cases in H.
  unfold activity_labels, age_tiers in *. cbn [In] in *.
  destruct H as [[-> _] | [[H _] | [[-> _] | [[-> _] | [[-> _] | [[-> _] | [[-> _] | [-> _]]]]]]]];
    auto 15.
  destruct H as [<- | [<- | [<- | []]]]; auto 15.
Qed.

Lemma activity_label_facts Date_now outs ins dust f :
  In f (activity_report Date_now outs ins dust) ->
  (label f = "Inbound burst" -> (5 <= List.length ins)%nat /\ outs = []) /\
  (label f = "Fan-out" -> (10 <= List.length outs)%nat) /\
  (label f = "Dusting" -> (3 <= List.length ins)%nat) /\
  (label f = "Low activity" -> (List.length (outs ++ ins) < 5)%nat) /\
  (label f = "Inbound only" -> outs = []).
Proof.
  intros Hin. apply activity_report_cases in Hin. cbn [age_tiers In] in Hin.
  split; [|split; [|split; [|split]]]; intros Hl; rewrite Hl in Hin; intuition congruence.
Qed.

Lemma reports_activity up Date_now request env link l :
  In l activity_labels ->
  reports l
    (blocklists_report (csv (BADLIST_ADDRESSES env)) link
       (trim (or_else (param_address request) "")) ++
     contract_report (rpc (eth_getCode up)) ++
     activity_report Date_now (transfers_seen (transfers_from up))
       (transfers_seen (transfers_to up))
       (Number_str (or_else (DUST_THRESHOLD_ETH env) "0.00002")) ++
     ens_report (param_ens request) (csv (BAD_ENS_NAMES env)))%list ->
  exists f,
    In f (activity_report Date_now (transfers_seen (transfers_from up))
            (transfers_seen (transfers_to up))
            (Number_str (or_else (DUST_THRESHOLD_ETH env) "0.00002"))) /\
    label f = l.
Proof.
  intros Hl (f & Hf & Hlab). exists f. split; [|exact Hlab].
  rewrite !in_app_iff in Hf. destruct Hf as [Hf | [Hf | [Hf | Hf]]]; try exact Hf;
    exfalso; subst l; cbn [activity_labels In] in Hl.
  - apply blocklists_report_labels in Hf. destruct Hf as [Hf | Hf]; rewrite Hf in Hl;
      intuition congruence.
  - apply contract_report_cases in Hf
      as [[Hf _] | [[Hf _] | [[Hf | [Hf | Hf]] _]]]; rewrite Hf in Hl;
      intuition congruence.
  - apply ens_report_labels in Hf. rewrite Hf in Hl. intuition congruence.
Qed.

End WorkerReport.

(* ------------------------------------------------------------------------- *)
(** * First and latest timestamp in [Worker.js] *)

Section WorkerRecency.
Import JS Alchemy Worker.
Context {host : Host}.

(** The running minimum and maximum of the same timestamps: both [NaN], or
    two numbers in order. *)
Lemma fold_min_max (r : list num) (x y : num) :
  match x, y with
  | Num a, Num b => a <= b
  | NaN, NaN => True
  | _, _ => False
  end ->
  match fold_left num_min r x, fold_left num_max r y with
  | Num a, Num b => a <= b
  | NaN, NaN => True
  | _, _ => False
  end.
Proof.
  revert x y. induction r as [|t r IH]; intros x y Hxy; [exact Hxy|].
  cbn [fold_left]. apply IH.
  destruct x as [|a], y as [|b], t as [|c]; cbn [num_min num_max]; try exact I;
    try contradiction. lia.
Qed.

Lemma first_before_latest (xs : list num) :
  match min_or_0 xs, max_or_0 xs with
  | Num a, Num b => a <= b
  | NaN, NaN => True
  | _, _ => False
  end.
Proof.
  destruct xs as [|x r]; [cbn; lia|]. unfold min_or_0, max_or_0.
  apply fold_min_max. destruct x; [exact I | lia].
Qed.

Lemma days_le_number (a k : Z) :
  Qle_bool (inject_Z a / inject_Z 86400000) (inject_Z k) = (a <=? k * 86400000).
Proof.
  apply eq_true_iff_eq. rewrite Qle_bool_iff, Z.leb_le.
  unfold Qle, Qdiv, Qmult, Qinv, inject_Z. cbn. lia.
Qed.

Lemma number_le_days (a k : Z) :
  Qle_bool (inject_Z k) (inject_Z a / inject_Z 86400000) = (k * 86400000 <=? a).
Proof.
  apply eq_true_iff_eq. rewrite Qle_bool_iff, Z.leb_le.
  unfold Qle, Qdiv, Qmult, Qinv, inject_Z. cbn. lia.
Qed.

(** The conditions under which the findings on recency are reported. *)
Lemma activity_report_recency Date_now outs ins dust f :
  In f (activity_report Date_now outs ins dust) ->
  let all := (outs ++ ins)%list in
  let first := daysSince (Date_now 0%nat) (min_or_0 (map recentMs all)) in
  let latest :=
    daysSince (Date_now (match first with Some _ => 1%nat | None => 0%nat end))
      (max_or_0 (map recentMs all)) in
  (label f = "Dormant" -> days_gt latest 180 = true) /\
  (label f = "New address" -> days_lt first 1 = true) /\
  (label f = "Newish address" -> days_lt first 1 = false /\ days_lt first 7 = true) /\
  (label f = "Recent address" -> days_lt first 7 = false /\ days_lt first 30 = true).
Proof.
  unfold activity_report. cbv zeta.
  destruct (List.length (outs ++ ins) =? 0)%nat.
  { intros Hf. singleton Hf. cbn [label]. repeat split; discriminate. }
  rewrite !in_app_iff.
  intros [H | [H | [H | [H | [H | [H | H]]]]]].
  - destruct (days_lt _ 1) eqn:H1; [|destruct (days_lt _ 7) eqn:H7;
                                      [|destruct (days_lt _ 30) eqn:H30]];
      singleton H; cbn [label]; repeat split; try discriminate; auto.
  - match type of H with In _ (if ?c then _ else _) => destruct c end;
      singleton H; cbn [label]; repeat split; discriminate.
  - match type of H with In _ (if ?c then _ else _) => destruct c end;
      singleton H; cbn [label]; repeat split; discriminate.
  - match type of H with In _ (if ?c then _ else _) => destruct c end;
      singleton H; cbn [label]; repeat split; discriminate.
  - match type of H with In _ (if ?c then _ else _) => destruct c end;
      singleton H; cbn [label]; repeat split; discriminate.
  - repeat match type of H with In _ (if ?c then _ else _) => destruct c end;
      singleton H; cbn [label]; repeat split; discriminate.
  - match type of H with In _ (if ?c then _ else _) => destruct c eqn:Hd end;
      singleton H; cbn [label]; repeat split; try discriminate; auto.
Qed.

(** Dormant and an age tier: the arithmetic. *)
Lemma dormant_not_recent (now0 now1 : Z) (first latest : num) :
  match first, latest with
  | Num a, Num b => a <= b
  | NaN, NaN => True
  | _, _ => False
  end ->
  now1 - now0 <= 150 * 86400000 ->
  days_gt (daysSince (match daysSince now0 first with Some _ => now1 | None => now0 end)
             latest) 180 = true ->
  first = Num 0 \/ days_lt (daysSince now0 first) 30 = false.
Proof.
  intros Hord Hclock Hdormant.
  destruct first as [|zf], latest as [|zl]; try contradiction.
  - discriminate Hdormant.
  - unfold daysSince in *. destruct (Z.eqb_spec zf 0) as [-> | Hzf]; [now left|].
    right. destruct (Z.eqb_spec zl 0) as [-> | Hzl]; [discriminate Hdormant|].
    unfold days_gt, days_lt, ToNumber in *.
    change 180%Q with (inject_Z 180) in Hdormant. change 30%Q with (inject_Z 30).
    rewrite days_le_number in Hdormant. rewrite number_le_days.
    apply negb_true_iff, Z.leb_gt in Hdormant.
    apply negb_false_iff, Z.leb_le. lia.
Qed.

End WorkerRecency.

(* ------------------------------------------------------------------------- *)
(** * The age of the account in [Worker.js] *)

Section WorkerAge.
Import JS Alchemy Worker.
Context {host : Host}.

(** The least of a list of timestamps that are all numbers is [Math.min]
    of the list. *)
Lemma fold_min_least (r : list num) (x : num) (z : Z) :
  In (Num z) (x :: r) ->
  (forall y, In y (x :: r) -> exists v, y = Num v /\ z <= v) ->
  fold_left num_min r x = Num z.
Proof.
  revert x. induction r as [|y r IH]; intros x Hin Hall.
  - destruct Hin as [-> | []]. reflexivity.
  - cbn [fold_left].
    destruct (Hall x (or_introl eq_refl)) as (a & -> & Ha).
    destruct (Hall y (or_intror (or_introl eq_refl))) as (b & -> & Hb).
    cbn [num_min]. apply IH.
    + destruct Hin as [Hx | [Hy | Hr]].
      * injection Hx as ->. left. f_equal. lia.
      * injection Hy as ->. left. f_equal. lia.
      * now right.
    + intros u [<- | Hu].
      * exists (Z.min a b). split; [reflexivity | lia].
      * apply Hall. right. now right.
Qed.

Lemma min_or_0_earliest (all : list RawTransfer) (z : Z) :
  (exists t, In t all /\ recentMs t = Num z) ->
  (forall t, In t all -> exists x, recentMs t = Num x /\ z <= x) ->
  min_or_0 (map recentMs all) = Num z.
Proof.
  intros (t & Ht & Hz) Hall.
  destruct all as [|t0 r]; [destruct Ht|].
  cbn [map min_or_0]. apply fold_min_least.
  - rewrite <- Hz. change (In (recentMs t) (map recentMs (t0 :: r))). now apply in_map.
  - intros y Hy. change (In y (map recentMs (t0 :: r))) in Hy.
    apply in_map_iff in Hy as (u & <- & Hu). now apply Hall.
Qed.

(** The comparison of an age in days with a whole number of days, on the
    milliseconds. *)
Lemma days_lt_dated (now z k : Z) :
  z <> 0 ->
  days_lt (daysSince now (Num z)) (inject_Z k) = (now - z <? k * 86400000).
Proof.
  intros Hz. unfold daysSince, days_lt, ToNumber.
  apply Z.eqb_neq in Hz. rewrite Hz.
  rewrite number_le_days. symmetry. apply Z.ltb_antisym.
Qed.

Lemma filter_tier_other (c : bool) (f : Finding) :
  label_in age_tiers f = false ->
  filter (label_in age_tiers) (if c then [f] else []) = [].
Proof. intros Hf. destruct c; [|reflexivity]. cbn [filter]. now rewrite Hf. Qed.

(** Which finding on the age the activity block reports for a dated
    history. *)
Lemma activity_report_tier Date_now outs ins dust (z : Z) :
  (outs ++ ins)%list <> [] ->
  min_or_0 (map recentMs (outs ++ ins)) = Num z ->
  z <> 0 ->
  filter (label_in age_tiers) (activity_report Date_now outs ins dust) =
  if Date_now 0%nat - z <? 86400000
  then [{| label := "New address"; detail := "First seen < 24h."; level := high |}]
  else if Date_now 0%nat - z <? 7 * 86400000
  then [{| label := "Newish address"; detail := "First seen < 7d."; level := medium |}]
  else if Date_now 0%nat - z <? 30 * 86400000
  then [{| label := "Recent address"; detail := "First seen < 30d."; level := low |}]
  else [].
Proof.
  intros Hne Hmin Hz. unfold activity_report. cbv zeta. rewrite Hmin.
  destruct (List.length (outs ++ ins) =? 0)%nat eqn:Hlen.
  { apply Nat.eqb_eq, length_zero_iff_nil in Hlen. contradiction. }
  rewrite !filter_app.
  rewrite !filter_tier_other by reflexivity.
  match goal with
  | |- context [filter _ (if ?c then if ?b then [?f] else [] else [])] =>
      replace (filter (label_in age_tiers) (if c then if b then [f] else [] else []))
        with (@nil Finding) by (destruct c, b; reflexivity)
  end.
  rewrite !app_nil_r.
  change 1%Q with (inject_Z 1). change 7%Q with (inject_Z 7). change 30%Q with (inject_Z 30).
  rewrite !days_lt_dated by exact Hz.
  change (1 * 86400000) with 86400000.
  destruct (Date_now 0%nat - z <? 86400000); [reflexivity|].
  destruct (Date_now 0%nat - z <? 7 * 86400000); [reflexivity|].
  destruct (Date_now 0%nat - z <? 30 * 86400000); reflexivity.
Qed.

End WorkerAge.

(* ------------------------------------------------------------------------- *)
(** * Values that are not numbers in [runRiskEval] *)

Section UnparseableValues.
Import JS Alchemy SafeSend.
Context {host : Host}.

(** Counting the same key again and again. *)
Lemma count_key_again (k : string) (n : nat) (m : Z) :
  fold_left count_key (repeat k n) [(k, m)] = [(k, m + Z.of_nat n)].
Proof.
  revert m. induction n as [|n IH]; intros m.
  - cbn. now rewrite Z.add_0_r.
  - cbn [repeat fold_left]. unfold count_key at 2, Map_count. cbn [Map_get Map_set].
    rewrite String.eqb_refl. rewrite IH. do 2 f_equal. lia.
Qed.

Lemma repeatedAmounts_one_key (l : list Transfer) (k : string) :
  l <> [] ->
  amount_keys l = repeat k (List.length l) ->
  repeatedAmounts l = {| maxRepeats := Z.of_nat (List.length l); amountStr := k |}.
Proof.
  intros Hne Hkeys. rewrite repeatedAmounts_folds, Hkeys.
  destruct (List.length l) as [|n] eqn:Hn.
  { apply length_zero_iff_nil in Hn. contradiction. }
  cbn [repeat fold_left]. unfold count_key at 2, Map_count. cbn [Map_get Map_set].
  rewrite count_key_again. cbn [fold_left]. unfold pick_max. cbn [maxRepeats snd fst].
  destruct (Z.ltb_spec 0 (0 + 1 + Z.of_nat n)); [|lia]. f_equal. lia.
Qed.

(** What [normalizeTransfer] makes of values that are not numbers. *)
Lemma unparseable_values_normalized (txs : list RawTransfer) :
  (forall t, In t txs ->
             exists s, raw_value t = Some (AmountString s) /\ Number_str s = FNaN) ->
  (forall t, In t (map normalizeTransfer txs) -> valueEth t = Some FNaN) /\
  amount_keys (map normalizeTransfer txs) = repeat (toFixed6 FNaN) (List.length txs).
Proof.
  intros Hall. split.
  - intros t Ht. apply in_map_iff in Ht as (r & <- & Hr).
    destruct (Hall r Hr) as (s & Hs & Hnan).
    unfold normalizeTransfer. cbn [valueEth]. rewrite Hs. cbn [Number]. now rewrite Hnan.
  - induction txs as [|r txs IH]; [reflexivity|].
    cbn [map amount_keys flat_map List.length repeat]. fold (amount_keys (map normalizeTransfer txs)).
    destruct (Hall r (or_introl eq_refl)) as (s & Hs & Hnan).
    unfold normalizeTransfer at 1. cbn [valueEth]. rewrite Hs. cbn [Number]. rewrite Hnan.
    cbn [app]. f_equal. apply IH. intros t Ht. apply Hall. now right.
Qed.

End UnparseableValues.

(* ------------------------------------------------------------------------- *)
(** * Facts about the wallet page *)

Section WalletFacts.
Import JS Alchemy.
Context {host : Host}.

Lemma worker_error_status up Date_now request env status error :
  Worker.fetch up Date_now request env = Worker.JsonError status error ->
  ok status = false.
Proof.
  unfold Worker.fetch. cbv zeta.
  repeat match goal with
         | |- context [if ?c then _ else _] => destruct c
         | |- context [match ?x with _ => _ end] => destruct x
         end; intros H; try discriminate H; injection H as <- _; reflexivity.
Qed.

Lemma or_else_empty (s : string) : or_else (Some s) "" = s.
Proof.
  unfold or_else. destruct (s =? "")%string eqn:E; [|reflexivity].
  apply String.eqb_eq in E. now subst.
Qed.

End WalletFacts.

(* ------------------------------------------------------------------------- *)
(** * The claims *)

Section Claims.
Import JS Alchemy.
Context {host : Host}.

(** C1 (amended): in the [runRiskEval] worker an address on the blocklist
    (after lowercasing) always gets a score between 95 and 100 and the
    decision [block], whatever the other factors are: the blocklist is a
    floor.  In [Worker.js] the blocklist is a weight of 90 added to the score;
    the only negative weight is the 5 of Dormant, so the score of a
    blocklisted address is between 85 and 100. *)
Theorem blocklist_floor :
  (forall up random nowMs address env res,
      SafeSend.Set_has (SafeSend.parseCsvList (SafeSend.BADLIST env))
        (toLowerCase address) = true ->
      SafeSend.runRiskEval up random nowMs address env = Return res ->
      95 <= SafeSend.score res <= 100 /\ SafeSend.decision res = SafeSend.block) /\
  (forall up Date_now request env s fs,
      Worker.includes_str (Worker.csv (Worker.BADLIST_ADDRESSES env))
        (toLowerCase (trim (or_else (Worker.param_address request) ""))) = true ->
      Worker.fetch up Date_now request env = Worker.Json s fs ->
      85 <= s <= 100).
Proof.
  split.
  - intros up random nowMs address env res Hbad Hres.
    apply runRiskEval_returns in Hres as (code & nonce & outTxs & inTxs & ->).
    pose proof (assess_floor nowMs address _ (SafeSend.parseCsvList (SafeSend.DUST_WATCHLIST env))
                  code nonce outTxs inTxs Hbad) as Hfloor.
    pose proof (assess_score_range nowMs address (SafeSend.parseCsvList (SafeSend.BADLIST env))
                  (SafeSend.parseCsvList (SafeSend.DUST_WATCHLIST env))
                  code nonce outTxs inTxs) as Hrange.
    split; [lia|]. rewrite assess_decision.
    destruct (Z.leb_spec 60 (SafeSend.score
      (SafeSend.assess nowMs address (SafeSend.parseCsvList (SafeSend.BADLIST env))
         (SafeSend.parseCsvList (SafeSend.DUST_WATCHLIST env)) code nonce outTxs inTxs)));
      [reflexivity|lia].
  - intros up Date_now request env s fs. apply worker_blocklisted_score.
Qed.

(** C2: whenever an evaluation answers a score, in either worker, the score
    is an integer between 0 and 100. *)
Theorem score_in_range :
  (forall up random nowMs request env res,
      SafeSend.fetch up random nowMs request env = SafeSend.Json res ->
      0 <= SafeSend.score res <= 100) /\
  (forall up Date_now request env s fs,
      Worker.fetch up Date_now request env = Worker.Json s fs ->
      0 <= s <= 100).
Proof.
  split.
  - intros up random nowMs request env res H.
    apply safesend_fetch_returns, runRiskEval_returns in H
      as (code & nonce & outTxs & inTxs & ->).
    apply assess_score_range.
  - intros up Date_now request env s fs. apply worker_score_range.
Qed.

(** C3 (amended): in the [runRiskEval] worker a failure of the bytecode or of
    the nonce lookup aborts the evaluation, which is answered with status 500
    [server_error]; when both succeed the evaluation completes; a transfer
    lookup that fails is replaced by an empty list.  In [Worker.js] there is
    no nonce lookup and a failure of the bytecode lookup is caught: the
    evaluation completes and reports the finding "Unknown type"; a transfer
    lookup that fails is replaced by an empty list there too. *)
Theorem lookup_failure_policy :
  (forall up random nowMs request env es,
      SafeSend.accepts request env = true ->
      SafeSend.rpc (random 0%nat) "eth_getCode" (eth_getCode up) = Throw es \/
      SafeSend.rpc (random 1%nat) "eth_getTransactionCount"
        (eth_getTransactionCount up) = Throw es ->
      exists reasons,
        SafeSend.fetch up random nowMs request env =
        SafeSend.JsonError 500 "server_error" reasons /\ incl es reasons) /\
  (forall up random nowMs request env code nonce,
      SafeSend.accepts request env = true ->
      SafeSend.rpc (random 0%nat) "eth_getCode" (eth_getCode up) = Return code ->
      SafeSend.rpc (random 1%nat) "eth_getTransactionCount"
        (eth_getTransactionCount up) = Return nonce ->
      exists res, SafeSend.fetch up random nowMs request env = SafeSend.Json res) /\
  (forall up random nowMs request env es,
      SafeSend.rpc (random 2%nat) "alchemy_getAssetTransfers" (transfers_from up) = Throw es ->
      SafeSend.fetch up random nowMs request env =
      SafeSend.fetch (with_transfers_from up (answered (Some []))) random nowMs request env) /\
  (forall up random nowMs request env es,
      SafeSend.rpc (random 3%nat) "alchemy_getAssetTransfers" (transfers_to up) = Throw es ->
      SafeSend.fetch up random nowMs request env =
      SafeSend.fetch (with_transfers_to up (answered (Some []))) random nowMs request env) /\
  (forall up Date_now request env,
      Worker.accepts request env = true ->
      Worker.parse_ens_addrs (Worker.BAD_ENS_ADDRS env) <> JsonNull ->
      exists s fs,
        Worker.fetch up Date_now request env = Worker.Json s fs /\
        forall es,
          Worker.rpc (eth_getCode up) = Throw es ->
          In {| Worker.label := "Unknown type";
                Worker.detail := "Could not verify contract/EOA.";
                Worker.level := Worker.low |} fs) /\
  (forall up Date_now request env es,
      Worker.rpc (transfers_from up) = Throw es ->
      Worker.fetch up Date_now request env =
      Worker.fetch (with_transfers_from up (answered (Some []))) Date_now request env) /\
  (forall up Date_now request env es,
      Worker.rpc (transfers_to up) = Throw es ->
      Worker.fetch up Date_now request env =
      Worker.fetch (with_transfers_to up (answered (Some []))) Date_now request env).
Proof.
  repeat split.
  - intros up random nowMs request env es Hacc Hfail.
    rewrite (safesend_fetch_accepted _ _ _ _ _ Hacc).
    destruct (required_lookup_fails up random nowMs
                (trim (or_else (SafeSend.param_address request) "")) env es Hfail
                (accepts_url _ _ Hacc)) as (reasons & -> & Hincl).
    now exists reasons.
  - intros up random nowMs request env code nonce Hacc Hcode Hnonce.
    rewrite (safesend_fetch_accepted _ _ _ _ _ Hacc).
    destruct (runRiskEval_settled up random nowMs
                (trim (or_else (SafeSend.param_address request) "")) env code nonce
                (accepts_url _ _ Hacc) Hcode Hnonce) as (o & i & _ & _ & ->).
    eexists; reflexivity.
  - intros up random nowMs request env es H. unfold SafeSend.fetch.
    now rewrite (transfers_from_failure up random nowMs _ env es H).
  - intros up random nowMs request env es H. unfold SafeSend.fetch.
    now rewrite (transfers_to_failure up random nowMs _ env es H).
  - intros up Date_now request env Hacc Hnull.
    rewrite (worker_fetch_accepted _ _ _ _ Hacc). cbv zeta.
    unfold Worker.blocklists, Worker.Object_get.
    destruct (Worker.parse_ens_addrs (Worker.BAD_ENS_ADDRS env)); try congruence.
    all: eexists; eexists; (split; [reflexivity|]); intros es Hes; rewrite Hes;
      apply ens_negatives_In, activity_In; cbn [Worker.contract];
      apply In_addFinding_last.
  - intros up Date_now request env es H. unfold Worker.fetch.
    cbn [with_transfers_from eth_getCode transfers_from transfers_to]. now rewrite H.
  - intros up Date_now request env es H. unfold Worker.fetch.
    cbn [with_transfers_to eth_getCode transfers_from transfers_to]. now rewrite H.
Qed.

(** C4 (amended): the [runRiskEval] worker starts from the base score 10 and
    adds 25, 12 or 6 for each high, medium or low factor (then the blocklist
    floor and the clamp).  It has no "No history" factor: for bytecode "0x",
    a nonce that reads as 0, no transfers and an address that is not
    blocklisted it reports the one medium factor "New address", the score
    10 + 12 = 22 and the decision [allow].  [Worker.js] starts from 0: the
    same account gets the findings "EOA" (weight 0) and "No history"
    (weight 22), hence the score 22. *)
Theorem fresh_account_score :
  (forall nowMs address B W code nonce outTxs inTxs,
      let res := SafeSend.assess nowMs address B W code nonce outTxs inTxs in
      let sum := 10 + SafeSend.total_weight (SafeSend.factors res) in
      SafeSend.score res =
      Z.max 0 (Z.min 100
                 (if SafeSend.Set_has B (toLowerCase address) then Z.max sum 95 else sum))) /\
  (forall up random nowMs address env nonce,
      truthy (SafeSend.ALCHEMY_SEPOLIA_URL env) = true ->
      SafeSend.Set_has (SafeSend.parseCsvList (SafeSend.BADLIST env))
        (toLowerCase address) = false ->
      eth_getCode up = answered "0x" ->
      eth_getTransactionCount up = answered nonce ->
      SafeSend.hexToInt nonce = 0 ->
      transfers_from up = answered (Some []) ->
      transfers_to up = answered (Some []) ->
      SafeSend.runRiskEval up random nowMs address env =
      Return {| SafeSend.score := 22;
                SafeSend.decision := SafeSend.allow;
                SafeSend.factors :=
                  [SafeSend.factor SafeSend.medium "New address"
                     "Recipient has no prior transactions (nonce 0)."] |}) /\
  (forall up Date_now request env,
      Worker.accepts request env = true ->
      Worker.includes_str (Worker.csv (Worker.BADLIST_ADDRESSES env))
        (toLowerCase (trim (or_else (Worker.param_address request) ""))) = false ->
      Worker.Object_get (Worker.parse_ens_addrs (Worker.BAD_ENS_ADDRS env))
        (toLowerCase (trim (or_else (Worker.param_address request) ""))) = Return None ->
      Worker.param_ens request = None ->
      eth_getCode up = answered "0x" ->
      transfers_from up = answered (Some []) ->
      transfers_to up = answered (Some []) ->
      Worker.fetch up Date_now request env =
      Worker.Json 22
        [ {| Worker.label := "EOA";
             Worker.detail := "Recipient is an externally owned address.";
             Worker.level := Worker.low |};
          {| Worker.label := "No history";
             Worker.detail := "No transactions found on Sepolia.";
             Worker.level := Worker.medium |} ]).
Proof.
  repeat split.
  - intros. apply assess_score_formula.
  - intros. eapply fresh_account_assessment; eassumption.
  - intros up Date_now request env Hacc Hbl Hens Hparam Hcode Hout Hin.
    rewrite (worker_fetch_accepted _ _ _ _ Hacc). cbv zeta.
    unfold Worker.blocklists. rewrite Hbl, Hens, Hcode, Hout, Hin, Hparam.
    reflexivity.
Qed.

(** C5: in one evaluation of [Worker.js] at most one of the findings "New
    address", "Newish address" and "Recent address" is reported; when the
    handler sees no transfer at all, "No history" is the only finding of the
    activity block (no age tier, no "Low activity", no "Dormant"); and when
    every transfer it sees carries a timestamp, the earliest being [first]
    (not 0), the finding on the age is the most specific tier that matches
    the time elapsed since [first]: "New address" below one day, "Newish
    address" from one day and below 7, "Recent address" from 7 days and
    below 30, and none from 30 days on. *)
Theorem age_tiers_exclusive up Date_now request env s fs :
  Worker.fetch up Date_now request env = Worker.Json s fs ->
  (List.length (filter (Worker.label_in Worker.age_tiers) fs) <= 1)%nat /\
  (Worker.transfers_seen (transfers_from up) = [] ->
   Worker.transfers_seen (transfers_to up) = [] ->
   filter (Worker.label_in Worker.activity_labels) fs =
   [ {| Worker.label := "No history";
        Worker.detail := "No transactions found on Sepolia.";
        Worker.level := Worker.medium |} ]) /\
  (forall first : Z,
      let all := (Worker.transfers_seen (transfers_from up) ++
                  Worker.transfers_seen (transfers_to up))%list in
      (exists t, In t all /\ Worker.recentMs t = Num first) ->
      (forall t, In t all -> exists ms, Worker.recentMs t = Num ms /\ first <= ms) ->
      first <> 0 ->
      let elapsed := Date_now 0%nat - first in
      filter (Worker.label_in Worker.age_tiers) fs =
      if elapsed <? 86400000
      then [ {| Worker.label := "New address";
                Worker.detail := "First seen < 24h.";
                Worker.level := Worker.high |} ]
      else if elapsed <? 7 * 86400000
      then [ {| Worker.label := "Newish address";
                Worker.detail := "First seen < 7d.";
                Worker.level := Worker.medium |} ]
      else if elapsed <? 30 * 86400000
      then [ {| Worker.label := "Recent address";
                Worker.detail := "First seen < 30d.";
                Worker.level := Worker.low |} ]
      else []).
Proof.
  intros H. pose proof (worker_fetch_json _ _ _ _ _ _ H) as Hacc.
  rewrite (worker_fetch_accepted _ _ _ _ Hacc) in H. cbv zeta in H.
  destruct (Worker.blocklists _ _ _ _) as [st|] eqn:Hb; [|discriminate].
  injection H as _ <-. split; [|split].
  - rewrite ens_negatives_filter by reflexivity.
    etransitivity; [apply activity_age_tiers|].
    rewrite contract_filter by reflexivity.
    rewrite (blocklists_filter Worker.age_tiers _ _ _ _ _ eq_refl eq_refl Hb). cbn. lia.
  - intros -> ->. rewrite activity_no_transfers.
    rewrite ens_negatives_filter by reflexivity.
    rewrite filter_addFinding.
    rewrite contract_filter by reflexivity.
    rewrite (blocklists_filter Worker.activity_labels _ _ _ _ _ eq_refl eq_refl Hb).
    reflexivity.
  - intros first all Hfirst Hall Hne elapsed.
    rewrite ens_negatives_filter by reflexivity.
    rewrite activity_findings, filter_app.
    rewrite contract_filter by reflexivity.
    rewrite (blocklists_filter Worker.age_tiers _ _ _ _ _ eq_refl eq_refl Hb).
    cbn [Worker.findings filter app].
    apply activity_report_tier; [|now apply min_or_0_earliest|exact Hne].
    destruct Hfirst as (t & Ht & _). fold all. intros Hnil. rewrite Hnil in Ht. destruct Ht.
Qed.

(** C7 (what the code does at the failing inputs): a raw value that is a
    string and not a number is normalized to [NaN], not to [null].  Such a
    record is not left out of [repeatedAmounts], which skips [null] only:
    the unparseable values all count under the key of [NaN], so [n] outbound
    transfers with unparseable values repeat [n] times, and from 8 of them
    on [runRiskEval] reports the factor "Repeated equal amounts". *)
Theorem unparseable_values_count_as_equal
  up random nowMs address env res (txs : list RawTransfer) :
  SafeSend.runRiskEval up random nowMs address env = Return res ->
  catch (SafeSend.rpc (random 2%nat) "alchemy_getAssetTransfers" (transfers_from up))
    (Some []) = Return (Some txs) ->
  txs <> [] ->
  (forall t, In t txs ->
             exists s, raw_value t = Some (AmountString s) /\ Number_str s = FNaN) ->
  let out := map SafeSend.normalizeTransfer txs in
  (forall t, In t out -> SafeSend.valueEth t = Some FNaN) /\
  SafeSend.repeatedAmounts out =
    {| SafeSend.maxRepeats := Z.of_nat (List.length txs);
       SafeSend.amountStr := toFixed6 FNaN |} /\
  ((8 <= List.length txs)%nat ->
   In (SafeSend.factor SafeSend.medium "Repeated equal amounts"
         ("Outbound transfers show repeated amount " ++ toFixed6 FNaN ++ " ETH."))
      (SafeSend.factors res)).
Proof.
  intros Hres Hout Hne Hall. cbv zeta.
  destruct (unparseable_values_normalized txs Hall) as (Hvalues & Hkeys).
  assert (Hrep : SafeSend.repeatedAmounts (map SafeSend.normalizeTransfer txs) =
                 {| SafeSend.maxRepeats := Z.of_nat (List.length txs);
                    SafeSend.amountStr := toFixed6 FNaN |}).
  { rewrite <- (length_map SafeSend.normalizeTransfer txs).
    apply repeatedAmounts_one_key.
    - destruct txs; [contradiction | discriminate].
    - now rewrite length_map. }
  split; [exact Hvalues|]. split; [exact Hrep|]. intros Hlen.
  apply runRiskEval_value in Hres
    as (code & nonce & outTxs & inTxs & _ & _ & _ & Ho & _ & ->).
  rewrite Hout in Ho. injection Ho as <-.
  rewrite factors_assess, heuristics_detectors, !in_app_iff.
  do 5 right. left. unfold SafeSend.repeated_equal_amounts, SafeSend.normalized.
  rewrite Hrep. cbn [SafeSend.maxRepeats SafeSend.amountStr].
  destruct (Z.leb_spec 8 (Z.of_nat (List.length txs))); [now left | lia].
Qed.

(** C9: with the same provider replies, configuration, clock and request, two
    evaluations answer the same response, whatever request ids [Math.random]
    draws: the id reaches the provider and comes back in the envelope, and is
    never read.  ([Worker.js] sends the constant id 1.) *)
Theorem evaluation_ignores_request_ids up (random random' : nat -> Z) nowMs request env :
  SafeSend.fetch up random nowMs request env = SafeSend.fetch up random' nowMs request env.
Proof.
  unfold SafeSend.fetch, SafeSend.runRiskEval.
  rewrite (rpc_ignores_id _ (random 0%nat) (random' 0%nat)).
  rewrite (rpc_ignores_id _ (random 1%nat) (random' 1%nat)).
  rewrite (rpc_ignores_id _ (random 2%nat) (random' 2%nat)).
  rewrite (rpc_ignores_id _ (random 3%nat) (random' 3%nat)).
  reflexivity.
Qed.

(** C10: [hexToInt] is total and answers 0 for every string on which
    [parseInt(h, 16)] is [NaN]; so when both required lookups succeed and the
    nonce does not parse, the evaluation completes and reports the medium
    factor "New address" (nonce 0). *)
Theorem malformed_nonce_counts_as_zero up random nowMs address env code nonce :
  truthy (SafeSend.ALCHEMY_SEPOLIA_URL env) = true ->
  SafeSend.rpc (random 0%nat) "eth_getCode" (eth_getCode up) = Return code ->
  SafeSend.rpc (random 1%nat) "eth_getTransactionCount" (eth_getTransactionCount up)
    = Return nonce ->
  parseInt16 nonce = NaN ->
  SafeSend.hexToInt nonce = 0 /\
  exists res,
    SafeSend.runRiskEval up random nowMs address env = Return res /\
    In (SafeSend.factor SafeSend.medium "New address"
          "Recipient has no prior transactions (nonce 0).")
       (SafeSend.factors res).
Proof.
  intros Hurl Hcode Hnonce Hnan.
  pose proof (hexToInt_NaN _ Hnan) as Hz. split; [exact Hz|].
  destruct (runRiskEval_settled up random nowMs address env code nonce Hurl Hcode Hnonce)
    as (outTxs & inTxs & _ & _ & ->).
  eexists; split; [reflexivity|].
  unfold SafeSend.assess; cbn [SafeSend.factors]. now apply heuristics_nonce_zero.
Qed.

(** C6 (what the code does at the failing inputs): when the handler of
    [Worker.js] sees at least one transfer and every transfer it sees has the
    normalized timestamp 0 (no timestamp, or one that does not parse), the
    age of the account is [null], the test [null < 1] succeeds, and the
    recency-based finding "New address" (first seen < 24h) is reported. *)
Theorem undated_history_reported_new up Date_now request env s fs :
  Worker.fetch up Date_now request env = Worker.Json s fs ->
  (Worker.transfers_seen (transfers_from up) ++
   Worker.transfers_seen (transfers_to up))%list <> [] ->
  (forall t,
      In t (Worker.transfers_seen (transfers_from up) ++
            Worker.transfers_seen (transfers_to up))%list ->
      SafeSend.timestamp (SafeSend.normalizeTransfer t) = 0) ->
  In {| Worker.label := "New address";
        Worker.detail := "First seen < 24h.";
        Worker.level := Worker.high |} fs.
Proof.
  intros H Hne Hundated. pose proof (worker_fetch_json _ _ _ _ _ _ H) as Hacc.
  rewrite (worker_fetch_accepted _ _ _ _ Hacc) in H. cbv zeta in H.
  destruct (Worker.blocklists _ _ _ _) as [st|]; [|discriminate].
  injection H as _ <-.
  now apply ens_negatives_In, activity_undated.
Qed.

(** C8 (what the code does at the failing inputs): let the outbound list be
    most recent first, with a transfer [early] inside the window after the
    most recent inbound transfer and a more recent transfer [newest] outside
    of it.  [find] stops at [newest], and [freshInThenOut] answers [false]
    although an outbound transfer did follow the inbound one within the
    window. *)
Theorem later_outflow_hides_fast_outflow
  (latestIn newest early : SafeSend.Transfer) (inbound rest : list SafeSend.Transfer)
  (windowMs : Z) :
  SafeSend.timestamp latestIn <= SafeSend.timestamp early ->
  SafeSend.timestamp early - SafeSend.timestamp latestIn <= windowMs ->
  SafeSend.timestamp early <= SafeSend.timestamp newest ->
  windowMs < SafeSend.timestamp newest - SafeSend.timestamp latestIn ->
  SafeSend.freshInThenOut (latestIn :: inbound) (newest :: early :: rest) windowMs = false.
Proof.
  intros Hafter Hwithin Hdesc Hlate. unfold SafeSend.freshInThenOut. cbn [find].
  destruct (Z.leb_spec (SafeSend.timestamp latestIn) (SafeSend.timestamp newest)); [|lia].
  apply Z.leb_gt. exact Hlate.
Qed.

End Claims.

(* ------------------------------------------------------------------------- *)
(** * The claims on the fixtures *)

Section OnFixtures.
Import JS Alchemy Fixtures.

(** Counterexample to C1 as stated: in [Worker.js] a blocklisted account
    whose five transfers are a year old scores 90 - 5 = 85, below 95. *)
Lemma worker_blocklisted_below_floor :
  Worker.includes_str (Worker.csv (Some blocklist_entry)) (toLowerCase recipient) = true /\
  Worker.fetch (host := table_host) old_account at_new_year (worker_check recipient)
    (worker_env (Some blocklist_entry))
  = Worker.Json 85 blocked_findings.
Proof. split; vm_compute; reflexivity. Qed.

Lemma blocklist_floor_witness :
  (95 <= SafeSend.score blocked_assessment <= 100 /\
   SafeSend.decision blocked_assessment = SafeSend.block) /\
  85 <= 85 <= 100.
Proof.
  split.
  - apply (proj1 (@blocklist_floor table_host) fresh_account ids new_year_2025 recipient
             (safesend_env (Some blocklist_entry)));
      vm_compute; reflexivity.
  - apply (proj2 (@blocklist_floor table_host) old_account at_new_year
             (worker_check recipient) (worker_env (Some blocklist_entry))
             85 blocked_findings);
      vm_compute; reflexivity.
Defined.

Lemma score_in_range_witness :
  0 <= SafeSend.score fresh_assessment <= 100 /\ 0 <= 85 <= 100.
Proof.
  split.
  - apply (proj1 (@score_in_range table_host) fresh_account ids new_year_2025
             (safesend_check recipient) (safesend_env None));
      vm_compute; reflexivity.
  - apply (proj2 (@score_in_range table_host) old_account at_new_year
             (worker_check recipient) (worker_env (Some blocklist_entry))
             85 blocked_findings);
      vm_compute; reflexivity.
Defined.

(** Counterexample to C3 as stated: in [Worker.js] the bytecode lookup fails
    (status 503) and the evaluation still answers a score and findings. *)
Lemma worker_survives_bytecode_failure :
  Worker.rpc (eth_getCode no_bytecode) = Throw [Error "rpc_http_503"] /\
  Worker.fetch (host := table_host) no_bytecode at_new_year (worker_check recipient)
    (worker_env None)
  = Worker.Json 22 [unknown_type_finding; no_history_finding].
Proof. split; vm_compute; reflexivity. Qed.

Lemma lookup_failure_policy_witness :
  (exists reasons,
      SafeSend.fetch (host := table_host) no_bytecode ids new_year_2025
        (safesend_check recipient) (safesend_env None)
      = SafeSend.JsonError 500 "server_error" reasons /\
      incl [Error "rpc_http_503"] reasons) /\
  (exists s fs,
      Worker.fetch (host := table_host) no_bytecode at_new_year (worker_check recipient)
        (worker_env None) = Worker.Json s fs /\
      forall es,
        Worker.rpc (eth_getCode no_bytecode) = Throw es ->
        In {| Worker.label := "Unknown type";
              Worker.detail := "Could not verify contract/EOA.";
              Worker.level := Worker.low |} fs).
Proof.
  split.
  - apply (proj1 (@lookup_failure_policy table_host) no_bytecode ids new_year_2025
             (safesend_check recipient) (safesend_env None) [Error "rpc_http_503"]).
    + vm_compute; reflexivity.
    + left. vm_compute; reflexivity.
  - apply (proj1 (proj2 (proj2 (proj2 (proj2 (@lookup_failure_policy table_host)))))
             no_bytecode at_new_year (worker_check recipient) (worker_env None)).
    + vm_compute; reflexivity.
    + vm_compute. discriminate.
Defined.

(** Counterexample to C4 as stated: the account with bytecode "0x", nonce 0
    and no transfers scores 22 in both workers, not 32. *)
Lemma fresh_account_scores_22 :
  SafeSend.fetch (host := table_host) fresh_account ids new_year_2025
    (safesend_check recipient) (safesend_env None)
  = SafeSend.Json fresh_assessment /\
  Worker.fetch (host := table_host) fresh_account at_new_year (worker_check recipient)
    (worker_env None)
  = Worker.Json 22 [eoa_finding; no_history_finding].
Proof. split; vm_compute; reflexivity. Qed.

Lemma fresh_account_score_witness :
  SafeSend.runRiskEval (host := table_host) fresh_account ids new_year_2025 recipient
    (safesend_env None)
  = Return fresh_assessment /\
  Worker.fetch (host := table_host) fresh_account at_new_year (worker_check recipient)
    (worker_env None)
  = Worker.Json 22 [eoa_finding; no_history_finding].
Proof.
  split.
  - apply (proj1 (proj2 (@fresh_account_score table_host)) fresh_account ids new_year_2025
             recipient (safesend_env None) "0x0");
      vm_compute; reflexivity.
  - apply (proj2 (proj2 (@fresh_account_score table_host)) fresh_account at_new_year
             (worker_check recipient) (worker_env None));
      vm_compute; reflexivity.
Defined.

Lemma age_tiers_exclusive_witness :
  (List.length (filter (Worker.label_in Worker.age_tiers) undated_findings) <= 1)%nat /\
  filter (Worker.label_in Worker.activity_labels) [eoa_finding; no_history_finding] =
  [ {| Worker.label := "No history";
       Worker.detail := "No transactions found on Sepolia.";
       Worker.level := Worker.medium |} ] /\
  filter (Worker.label_in Worker.age_tiers) (findings_of (relay_answer 0)) =
  [finding "New address" "First seen < 24h." Worker.high] /\
  filter (Worker.label_in Worker.age_tiers) (findings_of (relay_answer 3)) =
  [finding "Newish address" "First seen < 7d." Worker.medium] /\
  filter (Worker.label_in Worker.age_tiers) (findings_of (relay_answer 10)) =
  [finding "Recent address" "First seen < 30d." Worker.low] /\
  filter (Worker.label_in Worker.age_tiers) (findings_of (relay_answer 60)) = [].
Proof.
  assert (Hfirst : exists t,
             In t (Worker.transfers_seen (transfers_from relay_account) ++
                   Worker.transfers_seen (transfers_to relay_account))%list /\
             Worker.recentMs (host := table_host) t = Num 1735686000000).
  { exists (transfer_at (Some "2024-12-31T23:00:00.000Z")).
    split; [vm_compute; auto | vm_compute; reflexivity]. }
  assert (Hall : forall t,
             In t (Worker.transfers_seen (transfers_from relay_account) ++
                   Worker.transfers_seen (transfers_to relay_account))%list ->
             exists ms, Worker.recentMs (host := table_host) t = Num ms /\
                        1735686000000 <= ms).
  { intros t Ht. vm_compute in Ht. destruct Ht as [<- | [<- | [<- | []]]].
    - exists 1735689600000. split; [vm_compute; reflexivity | lia].
    - exists 1735686060000. split; [vm_compute; reflexivity | lia].
    - exists 1735686000000. split; [vm_compute; reflexivity | lia]. }
  assert (Hne : 1735686000000 <> 0) by lia.
  assert (Hat : forall days,
             Worker.fetch (host := table_host) relay_account (days_later days)
               (worker_check recipient) (worker_env None) =
             Worker.Json (score_of (relay_answer days)) (findings_of (relay_answer days)) ->
             filter (Worker.label_in Worker.age_tiers) (findings_of (relay_answer days)) =
             if days_later days 0%nat - 1735686000000 <? 86400000
             then [finding "New address" "First seen < 24h." Worker.high]
             else if days_later days 0%nat - 1735686000000 <? 7 * 86400000
             then [finding "Newish address" "First seen < 7d." Worker.medium]
             else if days_later days 0%nat - 1735686000000 <? 30 * 86400000
             then [finding "Recent address" "First seen < 30d." Worker.low]
             else []).
  { intros days Hd.
    exact (proj2 (proj2 (@age_tiers_exclusive table_host relay_account (days_later days)
                           (worker_check recipient) (worker_env None) _ _ Hd))
             1735686000000 Hfirst Hall Hne). }
  split; [|split; [|split; [|split; [|split]]]].
  - apply (@age_tiers_exclusive table_host undated_account at_new_year
             (worker_check recipient) (worker_env None) 44 undated_findings).
    vm_compute; reflexivity.
  - apply (@age_tiers_exclusive table_host fresh_account at_new_year
             (worker_check recipient) (worker_env None) 22
             [eoa_finding; no_history_finding]);
      vm_compute; reflexivity.
  - apply (Hat 0). vm_compute; reflexivity.
  - apply (Hat 3). vm_compute; reflexivity.
  - apply (Hat 10). vm_compute; reflexivity.
  - apply (Hat 60). vm_compute; reflexivity.
Defined.

(** The account whose only transfer carries no timestamp: the normalized
    timestamp is 0, the age of the account is [null], [null < 1] holds, and
    [Worker.js] reports "New address" with weight 28. *)
Example undated_account_answer :
  SafeSend.timestamp (SafeSend.normalizeTransfer (host := table_host) (transfer_at None)) = 0 /\
  Worker.recentMs (host := table_host) (transfer_at None) = Num 0 /\
  Worker.daysSince new_year_2025 (Num 0) = None /\
  Worker.days_lt None 1 = true /\
  Worker.fetch (host := table_host) undated_account at_new_year (worker_check recipient)
    (worker_env None)
  = Worker.Json 44 undated_findings /\
  filter (Worker.label_in Worker.recency_labels) undated_findings =
  [finding "New address" "First seen < 24h." Worker.high].
Proof. repeat split; vm_compute; reflexivity. Qed.

(** Eight outbound transfers with the value "abc": each is normalized to
    [NaN], they count as eight equal amounts, and the factor "Repeated equal
    amounts" is reported. *)
Lemma unparseable_values_count_as_equal_witness :
  (forall t,
      In t (map (SafeSend.normalizeTransfer (host := table_host)) (repeat garbled_value 8)) ->
      SafeSend.valueEth t = Some FNaN) /\
  SafeSend.repeatedAmounts (host := table_host)
    (map (SafeSend.normalizeTransfer (host := table_host)) (repeat garbled_value 8)) =
    {| SafeSend.maxRepeats := 8; SafeSend.amountStr := "NaN" |} /\
  ((8 <= List.length (repeat garbled_value 8))%nat ->
   In (SafeSend.factor SafeSend.medium "Repeated equal amounts"
         "Outbound transfers show repeated amount NaN ETH.")
      (SafeSend.factors garbled_assessment)).
Proof.
  apply (@unparseable_values_count_as_equal table_host garbled_account ids new_year_2025
           recipient (safesend_env None) garbled_assessment (repeat garbled_value 8)).
  - vm_compute; reflexivity.
  - vm_compute; reflexivity.
  - vm_compute; discriminate.
  - intros t Ht. apply repeat_spec in Ht. subst t. exists "abc".
    split; vm_compute; reflexivity.
Defined.

(** Funds arrive at 23:00 and leave at 23:01, within the ten minutes; a
    later transfer leaves at 00:00.  [freshInThenOut] answers [false] and no
    "Fresh funds" factor is reported. *)
Example relay_account_answer :
  let inn := map (SafeSend.normalizeTransfer (host := table_host)) relay_in in
  let out := map (SafeSend.normalizeTransfer (host := table_host)) relay_out in
  map SafeSend.timestamp inn = [1735686000000] /\
  map SafeSend.timestamp out = [1735689600000; 1735686060000] /\
  existsb (fun o => (1735686000000 <=? SafeSend.timestamp o) &&
                    (SafeSend.timestamp o - 1735686000000 <=? 10 * 60 * 1000)) out = true /\
  SafeSend.freshInThenOut inn out (10 * 60 * 1000) = false /\
  SafeSend.fetch (host := table_host) relay_account ids new_year_2025
    (safesend_check recipient) (safesend_env None)
  = SafeSend.Json relay_assessment.
Proof. cbv zeta. repeat split; vm_compute; reflexivity. Qed.

Lemma malformed_nonce_counts_as_zero_witness :
  SafeSend.hexToInt "0xzz" = 0 /\
  exists res,
    SafeSend.runRiskEval (host := table_host) bad_nonce ids new_year_2025 recipient
      (safesend_env None) = Return res /\
    In new_address_factor (SafeSend.factors res).
Proof.
  apply (@malformed_nonce_counts_as_zero table_host bad_nonce ids new_year_2025 recipient
           (safesend_env None) "0x" "0xzz");
    vm_compute; reflexivity.
Defined.

Lemma undated_history_reported_new_witness :
  In (finding "New address" "First seen < 24h." Worker.high) undated_findings.
Proof.
  apply (@undated_history_reported_new table_host undated_account at_new_year
           (worker_check recipient) (worker_env None) 44 undated_findings).
  - vm_compute; reflexivity.
  - vm_compute; discriminate.
  - intros t Ht. vm_compute in Ht. destruct Ht as [<- | []]. vm_compute; reflexivity.
Defined.

Lemma later_outflow_hides_fast_outflow_witness :
  SafeSend.freshInThenOut
    [SafeSend.normalizeTransfer (host := table_host)
       (transfer_at (Some "2024-12-31T23:00:00.000Z"))]
    [SafeSend.normalizeTransfer (host := table_host)
       (transfer_at (Some "2025-01-01T00:00:00.000Z"));
     SafeSend.normalizeTransfer (host := table_host)
       (transfer_at (Some "2024-12-31T23:01:00.000Z"))]
    (10 * 60 * 1000) = false.
Proof.
  apply later_outflow_hides_fast_outflow;
    first [vm_compute; reflexivity | vm_compute; discriminate].
Defined.

End OnFixtures.

(* ------------------------------------------------------------------------- *)
(** * Further properties of [runRiskEval] *)

Section MoreOfRunRiskEval.
Import JS Alchemy.
Context {host : Host}.

(** X1: the shape of every assessment that [runRiskEval] returns.  The score
    is between 10 (the base) and 100; the decision is [block] exactly when
    the score is at least 60; there are at most 8 factors, one per
    heuristic; and a score below 95 is exactly the base plus the weights of
    the factors (25, 12 or 6 each). *)
Theorem assessment_shape up random nowMs request env res :
  SafeSend.fetch up random nowMs request env = SafeSend.Json res ->
  10 <= SafeSend.score res <= 100 /\
  (SafeSend.decision res = SafeSend.block <-> 60 <= SafeSend.score res) /\
  (List.length (SafeSend.factors res) <= 8)%nat /\
  (SafeSend.score res < 95 ->
   SafeSend.score res = 10 + SafeSend.total_weight (SafeSend.factors res)).
Proof.
  intros H. apply safesend_fetch_returns, runRiskEval_returns in H
    as (code & nonce & outTxs & inTxs & ->).
  pose proof (assess_score_formula nowMs (trim (or_else (SafeSend.param_address request) ""))
                (SafeSend.parseCsvList (SafeSend.BADLIST env))
                (SafeSend.parseCsvList (SafeSend.DUST_WATCHLIST env))
                code nonce outTxs inTxs) as Hscore.
  cbv zeta in Hscore.
  pose proof (total_weight_bounds
                (SafeSend.factors
                   (SafeSend.assess nowMs (trim (or_else (SafeSend.param_address request) ""))
                      (SafeSend.parseCsvList (SafeSend.BADLIST env))
                      (SafeSend.parseCsvList (SafeSend.DUST_WATCHLIST env))
                      code nonce outTxs inTxs))) as Hw.
  rewrite assess_decision.
  set (res := SafeSend.assess _ _ _ _ _ _ _ _) in *.
  repeat split.
  - destruct (SafeSend.Set_has _ _) in Hscore; lia.
  - destruct (SafeSend.Set_has _ _) in Hscore; lia.
  - destruct (Z.leb_spec 60 (SafeSend.score res)); [trivial | discriminate].
  - intros Hge. apply Z.leb_le in Hge. now rewrite Hge.
  - subst res. rewrite factors_assess. apply heuristics_length.
  - intros Hlt. destruct (SafeSend.Set_has _ _) in Hscore; lia.
Qed.

(** X2: [runRiskEval] blocks only on evidence: the decision is [block] only
    if the address is on the blocklist or at least two factors are
    reported. *)
Theorem blocking_needs_evidence up random nowMs address env res :
  SafeSend.runRiskEval up random nowMs address env = Return res ->
  SafeSend.decision res = SafeSend.block ->
  SafeSend.Set_has (SafeSend.parseCsvList (SafeSend.BADLIST env)) (toLowerCase address)
    = true \/
  (2 <= List.length (SafeSend.factors res))%nat.
Proof.
  intros H Hblock. apply runRiskEval_returns in H as (code & nonce & outTxs & inTxs & ->).
  rewrite assess_decision in Hblock.
  pose proof (assess_score_formula nowMs address
                (SafeSend.parseCsvList (SafeSend.BADLIST env))
                (SafeSend.parseCsvList (SafeSend.DUST_WATCHLIST env))
                code nonce outTxs inTxs) as Hscore.
  cbv zeta in Hscore.
  set (res := SafeSend.assess _ _ _ _ _ _ _ _) in *.
  pose proof (total_weight_bounds (SafeSend.factors res)) as Hw.
  destruct (SafeSend.Set_has _ _); [now left | right].
  destruct (Z.leb_spec 60 (SafeSend.score res)); [|discriminate]. lia.
Qed.

(** X3: the factor "On blocklist" is reported exactly for the addresses on
    the blocklist, and it is then the first factor of the list. *)
Theorem blocklist_factor_leads up random nowMs address env res :
  SafeSend.runRiskEval up random nowMs address env = Return res ->
  let on_blocklist :=
    SafeSend.factor SafeSend.high "On blocklist"
      "Recipient is present in a locally configured blocklist." in
  (In on_blocklist (SafeSend.factors res) <->
   SafeSend.Set_has (SafeSend.parseCsvList (SafeSend.BADLIST env)) (toLowerCase address)
     = true) /\
  (SafeSend.Set_has (SafeSend.parseCsvList (SafeSend.BADLIST env)) (toLowerCase address)
     = true ->
   hd_error (SafeSend.factors res) = Some on_blocklist).
Proof.
  intros H. cbv zeta.
  apply runRiskEval_returns in H as (code & nonce & outTxs & inTxs & ->).
  rewrite factors_assess, heuristics_detectors. split; [split|].
  - rewrite !in_app_iff. intros [Hin | Hin].
    + unfold SafeSend.known_bad in Hin. destruct (SafeSend.Set_has _ _); [reflexivity|].
      destruct Hin.
    + exfalso. repeat destruct Hin as [Hin | Hin];
        revert Hin; detector_cases; cbn [In]; intros Hin;
        repeat destruct Hin as [Hin | Hin]; try discriminate Hin; try destruct Hin.
  - intros Hbl. apply in_or_app. left. unfold SafeSend.known_bad. rewrite Hbl. now left.
  - intros Hbl. unfold SafeSend.known_bad. rewrite Hbl. reflexivity.
Qed.

(** X4: what [runRiskEval] reports about the transaction count.  With the
    nonce read by [hexToInt], the factor "New address" is reported exactly
    when the count is 0, "Very low activity" exactly when it is not 0 and
    below 3 (a negative number included), and never both. *)
Theorem nonce_factor_by_count up random nowMs address env res nonce :
  SafeSend.runRiskEval up random nowMs address env = Return res ->
  SafeSend.rpc (random 1%nat) "eth_getTransactionCount" (eth_getTransactionCount up)
    = Return nonce ->
  filter (SafeSend.label_in ["New address"; "Very low activity"]) (SafeSend.factors res) =
  if SafeSend.hexToInt nonce =? 0
  then [SafeSend.factor SafeSend.medium "New address"
          "Recipient has no prior transactions (nonce 0)."]
  else if SafeSend.hexToInt nonce <? 3
  then [SafeSend.factor SafeSend.low "Very low activity"
          "Recipient has very limited on-chain activity."]
  else [].
Proof.
  intros H Hnonce.
  apply runRiskEval_value in H as (code & nonce' & outTxs & inTxs & _ & _ & Hn & _ & _ & ->).
  rewrite Hnonce in Hn. injection Hn as <-.
  rewrite factors_assess, heuristics_detectors, !filter_app.
  set (L := ["New address"; "Very low activity"]).
  assert (H1 : filter (SafeSend.label_in L)
                 (SafeSend.known_bad (SafeSend.parseCsvList (SafeSend.BADLIST env)) address)
               = []) by (detector_cases; reflexivity).
  assert (H2 : filter (SafeSend.label_in L) (SafeSend.contract_address code) = [])
    by (detector_cases; reflexivity).
  assert (H4 : filter (SafeSend.label_in L)
                 (SafeSend.bursty_outbounds nowMs (SafeSend.normalized outTxs)) = [])
    by (detector_cases; reflexivity).
  assert (H5 : filter (SafeSend.label_in L)
                 (SafeSend.dust_pattern (SafeSend.normalized inTxs)) = [])
    by (detector_cases; reflexivity).
  assert (H6 : filter (SafeSend.label_in L)
                 (SafeSend.repeated_equal_amounts (SafeSend.normalized outTxs)) = [])
    by (detector_cases; reflexivity).
  assert (H7 : filter (SafeSend.label_in L)
                 (SafeSend.fresh_funds_fast_out (SafeSend.normalized inTxs)
                    (SafeSend.normalized outTxs)) = [])
    by (detector_cases; reflexivity).
  assert (H8 : filter (SafeSend.label_in L)
                 (SafeSend.watchlist_touch (SafeSend.parseCsvList (SafeSend.DUST_WATCHLIST env))
                    (SafeSend.normalized inTxs) (SafeSend.normalized outTxs)) = [])
    by (detector_cases; reflexivity).
  rewrite H1, H2, H4, H5, H6, H7, H8. cbn [app]. rewrite app_nil_r.
  unfold SafeSend.new_or_inactive.
  destruct (SafeSend.hexToInt nonce =? 0); [reflexivity|].
  destruct (SafeSend.hexToInt nonce <? 3); reflexivity.
Qed.

(** X5: the counting factors of [runRiskEval] need that many transfers.
    "High-frequency outbounds" is reported only with at least 10 outbound
    transfers, "Frequent outbounds" with at least 5, "Repeated equal
    amounts" with at least 8; "Dusting pattern" only with at least 6 inbound
    transfers and "Possible dusting" with at least 3. *)
Theorem counting_factors_need_transfers up random nowMs address env res outTxs inTxs f :
  SafeSend.runRiskEval up random nowMs address env = Return res ->
  catch (SafeSend.rpc (random 2%nat) "alchemy_getAssetTransfers" (transfers_from up))
    (Some []) = Return outTxs ->
  catch (SafeSend.rpc (random 3%nat) "alchemy_getAssetTransfers" (transfers_to up))
    (Some []) = Return inTxs ->
  In f (SafeSend.factors res) ->
  let outs := List.length (match outTxs with Some l => l | None => [] end) in
  let ins := List.length (match inTxs with Some l => l | None => [] end) in
  (SafeSend.label f = "High-frequency outbounds" -> (10 <= outs)%nat) /\
  (SafeSend.label f = "Frequent outbounds" -> (5 <= outs)%nat) /\
  (SafeSend.label f = "Repeated equal amounts" -> (8 <= outs)%nat) /\
  (SafeSend.label f = "Dusting pattern" -> (6 <= ins)%nat) /\
  (SafeSend.label f = "Possible dusting" -> (3 <= ins)%nat).
Proof.
  intros H Hout Hin Hf. cbv zeta.
  apply runRiskEval_value in H as (code & nonce & o & i & _ & _ & _ & Ho & Hi & ->).
  rewrite Hout in Ho. injection Ho as <-. rewrite Hin in Hi. injection Hi as <-.
  rewrite factors_assess, heuristics_detectors, !in_app_iff in Hf.
  rewrite <- !normalized_length.
  pose proof (countWithin_bounds nowMs (SafeSend.normalized outTxs) (24 * 60 * 60 * 1000))
    as Hburst.
  pose proof (repeatedAmounts_bound (SafeSend.normalized outTxs)) as Hrep.
  pose proof (filter_length_le SafeSend.is_tiny (SafeSend.normalized inTxs)) as Htiny.
  destruct Hf as [Hf | [Hf | [Hf | [Hf | [Hf | [Hf | [Hf | Hf]]]]]]].
  - unfold SafeSend.known_bad in Hf. destruct (SafeSend.Set_has _ _); singleton Hf.
    cbn [SafeSend.label SafeSend.factor]. repeat split; discriminate.
  - unfold SafeSend.contract_address in Hf. destruct (_ && _); singleton Hf.
    cbn [SafeSend.label SafeSend.factor]. repeat split; discriminate.
  - unfold SafeSend.new_or_inactive in Hf.
    destruct (_ =? 0); [|destruct (_ <? 3)]; singleton Hf;
      cbn [SafeSend.label SafeSend.factor]; repeat split; discriminate.
  - unfold SafeSend.bursty_outbounds in Hf. cbv zeta in Hf.
    destruct (Z.leb_spec 10 (SafeSend.countWithin nowMs (SafeSend.normalized outTxs)
                               (24 * 60 * 60 * 1000)));
      [|destruct (Z.leb_spec 5 (SafeSend.countWithin nowMs (SafeSend.normalized outTxs)
                                  (24 * 60 * 60 * 1000)))];
      singleton Hf; cbn [SafeSend.label SafeSend.factor];
      repeat split; intros Hl; try discriminate Hl; lia.
  - unfold SafeSend.dust_pattern in Hf. cbv zeta in Hf.
    destruct (Z.leb_spec 6 (Z.of_nat (List.length
                (filter SafeSend.is_tiny (SafeSend.normalized inTxs)))));
      [|destruct (Z.leb_spec 3 (Z.of_nat (List.length
                (filter SafeSend.is_tiny (SafeSend.normalized inTxs)))))];
      singleton Hf; cbn [SafeSend.label SafeSend.factor];
      repeat split; intros Hl; try discriminate Hl; lia.
  - unfold SafeSend.repeated_equal_amounts in Hf.
    destruct (Z.leb_spec 8 (SafeSend.maxRepeats
                              (SafeSend.repeatedAmounts (SafeSend.normalized outTxs))));
      singleton Hf; cbn [SafeSend.label SafeSend.factor];
      repeat split; intros Hl; try discriminate Hl; lia.
  - unfold SafeSend.fresh_funds_fast_out in Hf. destruct (SafeSend.freshInThenOut _ _ _);
      singleton Hf. cbn [SafeSend.label SafeSend.factor]. repeat split; discriminate.
  - unfold SafeSend.watchlist_touch in Hf. destruct (_ || _); singleton Hf.
    cbn [SafeSend.label SafeSend.factor]. repeat split; discriminate.
Qed.

(** X6: a history without timestamps in [runRiskEval].  When every transfer
    of both sides has the normalized timestamp 0 and both sides are not
    empty, the timestamps are compared as if they were equal and the high
    factor "Fresh funds -> fast outflow" is reported; once the clock is past
    24 hours after the epoch, none of these transfers counts as an outbound
    transfer of the last 24 hours. *)
Theorem undated_history_looks_like_fast_outflow
  up random nowMs address env res outTxs inTxs :
  SafeSend.runRiskEval up random nowMs address env = Return res ->
  catch (SafeSend.rpc (random 2%nat) "alchemy_getAssetTransfers" (transfers_from up))
    (Some []) = Return outTxs ->
  catch (SafeSend.rpc (random 3%nat) "alchemy_getAssetTransfers" (transfers_to up))
    (Some []) = Return inTxs ->
  SafeSend.normalized outTxs <> [] ->
  SafeSend.normalized inTxs <> [] ->
  (forall t, In t (SafeSend.normalized outTxs ++ SafeSend.normalized inTxs)%list ->
             SafeSend.timestamp t = 0) ->
  In (SafeSend.factor SafeSend.high "Fresh funds → fast outflow"
        "Outbound occurred shortly after inbound (≤10m).") (SafeSend.factors res) /\
  (24 * 60 * 60 * 1000 < nowMs ->
   SafeSend.countWithin nowMs (SafeSend.normalized outTxs) (24 * 60 * 60 * 1000) = 0 /\
   forall f, In f (SafeSend.factors res) ->
             SafeSend.label f <> "High-frequency outbounds" /\
             SafeSend.label f <> "Frequent outbounds").
Proof.
  intros H Hout Hin Hone Hine Hundated.
  apply runRiskEval_value in H as (code & nonce & o & i & _ & _ & _ & Ho & Hi & ->).
  rewrite Hout in Ho. injection Ho as <-. rewrite Hin in Hi. injection Hi as <-.
  rewrite factors_assess, heuristics_detectors. split.
  - rewrite !in_app_iff. do 6 right. left.
    unfold SafeSend.fresh_funds_fast_out, SafeSend.freshInThenOut.
    destruct (SafeSend.normalized inTxs) as [|latestIn inbound]; [contradiction|].
    destruct (SafeSend.normalized outTxs) as [|newest rest]; [contradiction|].
    assert (Hi0 : SafeSend.timestamp latestIn = 0)
      by (apply Hundated, in_or_app; right; now left).
    assert (Ho0 : SafeSend.timestamp newest = 0)
      by (apply Hundated, in_or_app; left; now left).
    cbn [find]. rewrite Hi0, Ho0. cbn. rewrite Ho0. cbn. now left.
  - intros Hclock.
    assert (Hzero : SafeSend.countWithin nowMs (SafeSend.normalized outTxs)
                      (24 * 60 * 60 * 1000) = 0).
    { apply countWithin_undated; [exact Hclock|].
      intros t Ht. apply Hundated, in_or_app. now left. }
    split; [exact Hzero|]. intros f Hf. rewrite !in_app_iff in Hf.
    destruct Hf as [Hf | [Hf | [Hf | [Hf | Hf]]]].
    + unfold SafeSend.known_bad in Hf. destruct (SafeSend.Set_has _ _); singleton Hf.
      split; discriminate.
    + unfold SafeSend.contract_address in Hf. destruct (_ && _); singleton Hf.
      split; discriminate.
    + unfold SafeSend.new_or_inactive in Hf.
      destruct (_ =? 0); [|destruct (_ <? 3)]; singleton Hf; split; discriminate.
    + unfold SafeSend.bursty_outbounds in Hf. cbv zeta in Hf. rewrite Hzero in Hf.
      destruct Hf.
    + repeat destruct Hf as [Hf | Hf]; revert Hf; detector_cases; intros Hf;
        singleton Hf; split; discriminate.
Qed.

(** X7: [repeatedAmounts] finds the most repeated rounded amount.  Over the
    keys of the transfers that have a value, no key occurs more often than
    [maxRepeats]; when there is at least one key, [amountStr] is one of them
    and occurs exactly [maxRepeats] times; without any key the answer is 0
    and the empty string. *)
Theorem repeatedAmounts_counts (transfers : list SafeSend.Transfer) :
  let r := SafeSend.repeatedAmounts transfers in
  let keys := SafeSend.amount_keys transfers in
  (forall k, SafeSend.occurrences k keys <= SafeSend.maxRepeats r) /\
  (keys = [] -> r = {| SafeSend.maxRepeats := 0; SafeSend.amountStr := "" |}) /\
  (keys <> [] ->
   In (SafeSend.amountStr r) keys /\
   SafeSend.occurrences (SafeSend.amountStr r) keys = SafeSend.maxRepeats r).
Proof.
  cbv zeta. rewrite repeatedAmounts_folds.
  destruct (counting_loop (SafeSend.amount_keys transfers) [] (NoDup_nil _))
    as (Hnd & Hpos & Hcount).
  { intros k v []. }
  cbv zeta in *.
  destruct (picking_loop (fold_left SafeSend.count_key (SafeSend.amount_keys transfers) [])
              {| SafeSend.maxRepeats := 0; SafeSend.amountStr := "" |})
    as (Hge & Hmax & Hr).
  cbv zeta in *. cbn [SafeSend.maxRepeats] in Hge.
  set (counts := fold_left SafeSend.count_key (SafeSend.amount_keys transfers) []) in *.
  set (r := fold_left SafeSend.pick_max counts _) in *.
  assert (Hocc : forall k, 0 < SafeSend.occurrences k (SafeSend.amount_keys transfers) ->
                           In (k, SafeSend.occurrences k (SafeSend.amount_keys transfers))
                              counts).
  { intros k Hk. apply (Map_get_In _ _ _ Hnd). specialize (Hcount k).
    unfold SafeSend.Map_count in Hcount. cbn [SafeSend.Map_get] in Hcount.
    destruct (SafeSend.Map_get k counts) as [n|]; [now rewrite Hcount | lia]. }
  split; [|split].
  - intros k.
    destruct (Z.leb_spec (SafeSend.occurrences k (SafeSend.amount_keys transfers)) 0);
      [lia|]. apply (Hmax k). now apply Hocc.
  - intros Hkeys. subst r counts. now rewrite Hkeys.
  - intros Hkeys.
    destruct (SafeSend.amount_keys transfers) as [|key keys] eqn:Ek; [contradiction|].
    assert (Hkey : 0 < SafeSend.occurrences key (key :: keys)).
    { unfold SafeSend.occurrences. cbn [count_occ].
      destruct (string_dec key key); [lia | contradiction]. }
    pose proof (Hmax _ _ (Hocc key Hkey)) as Hbig.
    destruct Hr as [Hr | Hin]; [rewrite Hr in Hbig; cbn [SafeSend.maxRepeats] in Hbig; lia|].
    apply (Map_get_In _ _ _ Hnd) in Hin. specialize (Hcount (SafeSend.amountStr r)).
    unfold SafeSend.Map_count in Hcount. rewrite Hin in Hcount.
    cbn [SafeSend.Map_get] in Hcount. split; [|lia].
    apply (count_occ_In string_dec). unfold SafeSend.occurrences in *. lia.
Qed.

(** X8: when no outbound transfer is more recent than the first one of the
    list (as in a list that is most recent first), [freshInThenOut] looks at
    that first transfer only: it answers [true] exactly when that transfer
    is at or after the most recent inbound one and at most the window
    later. *)
Theorem freshInThenOut_newest_only
  (latestIn newest : SafeSend.Transfer) (inbound rest : list SafeSend.Transfer)
  (windowMs : Z) :
  Forall (fun o => SafeSend.timestamp o <= SafeSend.timestamp newest) rest ->
  SafeSend.freshInThenOut (latestIn :: inbound) (newest :: rest) windowMs =
  (SafeSend.timestamp latestIn <=? SafeSend.timestamp newest) &&
  (SafeSend.timestamp newest - SafeSend.timestamp latestIn <=? windowMs).
Proof.
  intros Holder. unfold SafeSend.freshInThenOut.
  destruct (Z.leb_spec (SafeSend.timestamp latestIn) (SafeSend.timestamp newest)) as [Hle|Hlt].
  - cbn [find]. apply Z.leb_le in Hle. now rewrite Hle.
  - now rewrite (find_none_older latestIn newest rest Holder Hlt).
Qed.

(** X9: [freshInThenOut] never answers [true] without an outbound transfer
    that is at or after the most recent inbound one and at most the window
    later; and it answers [false] when either list is empty. *)
Theorem freshInThenOut_sound (inbound outbound : list SafeSend.Transfer) (windowMs : Z) :
  SafeSend.freshInThenOut inbound outbound windowMs = true ->
  exists latestIn older o,
    inbound = latestIn :: older /\ In o outbound /\
    SafeSend.timestamp latestIn <= SafeSend.timestamp o
      <= SafeSend.timestamp latestIn + windowMs.
Proof.
  unfold SafeSend.freshInThenOut. destruct inbound as [|latestIn older]; [discriminate|].
  destruct outbound as [|o0 rest]; [discriminate|].
  destruct (find _ (o0 :: rest)) as [o|] eqn:Hfind; [|discriminate].
  apply find_some in Hfind as [Hin Hge]. intros Hw.
  exists latestIn, older, o. split; [reflexivity|]. split; [exact Hin|].
  apply Z.leb_le in Hge, Hw. lia.
Qed.

(** X10: [parseCsvList] keeps well-formed entries only.  Every member of the
    set is a lowercase address ("0x" and 40 lowercase hexadecimal digits,
    unchanged by lowercasing), no member occurs twice, and a missing or
    empty configuration gives the empty set. *)
Theorem parseCsvList_wellformed (str : option string) :
  NoDup (SafeSend.parseCsvList str) /\
  (forall x, SafeSend.Set_has (SafeSend.parseCsvList str) x = true ->
             is_lower_address x = true /\ toLowerCase x = x /\ String.length x = 42%nat) /\
  (truthy str = false -> SafeSend.parseCsvList str = []).
Proof.
  split; [apply parseCsvList_NoDup|]. split.
  - intros x Hx. apply Set_has_In, parseCsvList_In in Hx as (_ & p & _ & _ & Hv).
    split; [exact Hv|]. split; [now apply is_lower_address_fixed|].
    apply is_lower_address_inv in Hv as (h & -> & Hlen & _). cbn. now rewrite Hlen.
  - unfold SafeSend.parseCsvList. now intros ->.
Qed.

(** X11: the blocklist matches up to case and surrounding white space.  A
    valid address is on the blocklist exactly when some comma-separated
    entry of the configured string, trimmed and lowercased, equals the
    lowercased address. *)
Theorem blocklist_match (config address : string) :
  is_address address = true ->
  (SafeSend.Set_has (SafeSend.parseCsvList (Some config)) (toLowerCase address) = true <->
   exists entry, In entry (split_comma config) /\
                 toLowerCase (trim entry) = toLowerCase address).
Proof.
  intros Haddr. pose proof (is_address_lower address Haddr) as Hlower.
  rewrite Set_has_In, parseCsvList_In. cbn [or_else truthy]. split.
  - intros (Htruthy & entry & Hin & Heq & _).
    exists entry. split; [|exact Heq].
    destruct (config =? "")%string; [discriminate | exact Hin].
  - intros (entry & Hin & Heq).
    destruct (config =? "")%string eqn:Hc.
    + apply String.eqb_eq in Hc. subst config. cbn [split_comma In] in Hin.
      destruct Hin as [<- | []]. rewrite <- Heq in Hlower. discriminate Hlower.
    + cbn [negb]. split; [reflexivity|]. exists entry. auto.
Qed.

End MoreOfRunRiskEval.

(* ------------------------------------------------------------------------- *)
(** * Further properties of [Worker.js] and of the wallet page *)

Section MoreOfWorker.
Import JS Alchemy.
Context {host : Host}.

(** X12: in every answer of [Worker.js] the score is explained by the
    findings: it is the clamped sum of the weights of their labels, and each
    finding carries the level of its label. *)
Theorem score_explained_by_findings up Date_now request env s fs :
  Worker.fetch up Date_now request env = Worker.Json s fs ->
  s = Worker.clamp (Worker.total_weight fs) /\
  forallb (fun f => Worker.Level_eqb (Worker.level f)
                      (Worker.level_of_label (Worker.label f))) fs = true.
Proof.
  intros H. apply worker_report in H as (link & st & _ & -> & -> & [Hs Hl] & _).
  now rewrite Hs.
Qed.

(** X13: the finding of [Worker.js] on the type of the account.  In a
    scored answer, when the bytecode lookup fails the only such finding is
    "Unknown type"; when it answers a string, the only such finding is "EOA"
    for the empty string and for "0x", and "Contract" for any other string;
    and "Proxy pattern" or "Tiny bytecode" are reported only together with
    "Contract". *)
Theorem account_type_finding up Date_now request env s fs :
  Worker.fetch up Date_now request env = Worker.Json s fs ->
  let types := filter (Worker.label_in ["EOA"; "Contract"; "Unknown type"]) fs in
  (forall es, Worker.rpc (eth_getCode up) = Throw es ->
              types = [ {| Worker.label := "Unknown type";
                           Worker.detail := "Could not verify contract/EOA.";
                           Worker.level := Worker.low |} ]) /\
  (forall bytecode : string,
      Worker.rpc (eth_getCode up) = Return bytecode ->
      types = [ if (bytecode =? "")%string || (bytecode =? "0x")%string
                then {| Worker.label := "EOA";
                        Worker.detail := "Recipient is an externally owned address.";
                        Worker.level := Worker.low |}
                else {| Worker.label := "Contract";
                        Worker.detail := "Recipient is a contract address.";
                        Worker.level := Worker.medium |} ]) /\
  (Worker.reports "Proxy pattern" fs \/ Worker.reports "Tiny bytecode" fs ->
   Worker.reports "Contract" fs).
Proof.
  intros H. apply worker_report in H as (link & st & _ & _ & _ & _ & ->).
  set (labels := ["EOA"; "Contract"; "Unknown type"]).
  assert (Hbl : filter (Worker.label_in labels)
                  (Worker.blocklists_report (Worker.csv (Worker.BADLIST_ADDRESSES env)) link
                     (trim (or_else (Worker.param_address request) ""))) = []).
  { apply filter_none. intros f Hf. apply blocklists_report_labels in Hf.
    unfold Worker.label_in. destruct Hf as [-> | ->]; reflexivity. }
  assert (Hact : filter (Worker.label_in labels)
                   (Worker.activity_report Date_now
                      (Worker.transfers_seen (transfers_from up))
                      (Worker.transfers_seen (transfers_to up))
                      (Number_str (or_else (Worker.DUST_THRESHOLD_ETH env) "0.00002"))) = []).
  { apply filter_none. intros f Hf. apply activity_report_labels in Hf.
    unfold Worker.label_in. cbn [Worker.activity_labels In] in Hf.
    repeat destruct Hf as [<- | Hf]; try reflexivity. destruct Hf. }
  assert (Hens : filter (Worker.label_in labels)
                   (Worker.ens_report (Worker.param_ens request)
                      (Worker.csv (Worker.BAD_ENS_NAMES env))) = []).
  { apply filter_none. intros f Hf. apply ens_report_labels in Hf.
    unfold Worker.label_in. now rewrite Hf. }
  cbv zeta. rewrite !filter_app, Hbl, Hact, Hens. cbn [app]. rewrite app_nil_r.
  split; [|split].
  - intros es ->. reflexivity.
  - intros bytecode ->. unfold Worker.contract_report.
    destruct (bytecode =? "")%string; [reflexivity|].
    destruct (bytecode =? "0x")%string; [reflexivity|]. cbn [negb andb orb].
    destruct (includes _ _), (String.length bytecode <? 200)%nat; reflexivity.
  - intros Hrep.
    assert (Hin : exists f, In f (Worker.contract_report (Worker.rpc (eth_getCode up))) /\
                            (Worker.label f = "Proxy pattern" \/
                             Worker.label f = "Tiny bytecode")).
    { destruct Hrep as [(f & Hf & Hl) | (f & Hf & Hl)]; exists f;
        (split; [|auto]); rewrite !in_app_iff in Hf;
        destruct Hf as [Hf | [Hf | [Hf | Hf]]]; try exact Hf; exfalso.
      all: first [ apply blocklists_report_labels in Hf; destruct Hf as [Hf | Hf]
                 | apply ens_report_labels in Hf
                 | apply activity_report_labels in Hf;
                   cbn [Worker.activity_labels In] in Hf; rewrite Hl in Hf;
                   repeat destruct Hf as [Hf | Hf]; try discriminate Hf; destruct Hf ];
        rewrite Hl in Hf; discriminate Hf. }
    destruct Hin as (f & Hf & Hl).
    apply contract_report_cases in Hf as [[Hu _] | [[He _] | [_ (b & Hb & H1 & H2)]]].
    + rewrite Hu in Hl. destruct Hl; discriminate.
    + rewrite He in Hl. destruct Hl; discriminate.
    + exists {| Worker.label := "Contract";
                Worker.detail := "Recipient is a contract address.";
                Worker.level := Worker.medium |}.
      split; [|reflexivity]. rewrite !in_app_iff. right. left.
      unfold Worker.contract_report. rewrite Hb.
      apply String.eqb_neq in H1, H2. rewrite H1, H2. cbn. now left.
Qed.

(** X14: how the activity findings of [Worker.js] go together.  "Inbound
    burst" is reported only with "Inbound only", never with "Low activity",
    and needs at least 5 inbound transfers and no outbound one; "Fan-out"
    needs at least 10 outbound transfers and is never reported with "Inbound
    only" or "Low activity"; "Dusting" needs at least 3 inbound transfers. *)
Theorem activity_findings_go_together up Date_now request env s fs :
  Worker.fetch up Date_now request env = Worker.Json s fs ->
  let outs := Worker.transfers_seen (transfers_from up) in
  let ins := Worker.transfers_seen (transfers_to up) in
  (Worker.reports "Inbound burst" fs ->
   Worker.reports "Inbound only" fs /\ ~ Worker.reports "Low activity" fs /\
   (5 <= List.length ins)%nat /\ outs = []) /\
  (Worker.reports "Fan-out" fs ->
   ~ Worker.reports "Inbound only" fs /\ ~ Worker.reports "Low activity" fs /\
   (10 <= List.length outs)%nat) /\
  (Worker.reports "Dusting" fs -> (3 <= List.length ins)%nat).
Proof.
  intros H. cbv zeta.
  apply worker_report in H as (link & st & _ & _ & _ & _ & ->).
  assert (Hfacts : forall l,
            In l Worker.activity_labels ->
            Worker.reports l
              (Worker.blocklists_report (Worker.csv (Worker.BADLIST_ADDRESSES env)) link
                 (trim (or_else (Worker.param_address request) "")) ++
               Worker.contract_report (Worker.rpc (eth_getCode up)) ++
               Worker.activity_report Date_now (Worker.transfers_seen (transfers_from up))
                 (Worker.transfers_seen (transfers_to up))
                 (Number_str (or_else (Worker.DUST_THRESHOLD_ETH env) "0.00002")) ++
               Worker.ens_report (Worker.param_ens request)
                 (Worker.csv (Worker.BAD_ENS_NAMES env)))%list ->
            exists f,
              Worker.label f = l /\
              (Worker.label f = "Inbound burst" ->
               (5 <= List.length (Worker.transfers_seen (transfers_to up)))%nat /\
               Worker.transfers_seen (transfers_from up) = []) /\
              (Worker.label f = "Fan-out" ->
               (10 <= List.length (Worker.transfers_seen (transfers_from up)))%nat) /\
              (Worker.label f = "Dusting" ->
               (3 <= List.length (Worker.transfers_seen (transfers_to up)))%nat) /\
              (Worker.label f = "Low activity" ->
               (List.length (Worker.transfers_seen (transfers_from up) ++
                             Worker.transfers_seen (transfers_to up)) < 5)%nat) /\
              (Worker.label f = "Inbound only" ->
               Worker.transfers_seen (transfers_from up) = [])).
  { intros l Hl Hrep.
    destruct (reports_activity up Date_now request env link l Hl Hrep) as (f & Hf & Hlab).
    exists f. split; [exact Hlab|]. exact (activity_label_facts _ _ _ _ _ Hf). }
  assert (Hburst : In "Inbound burst" Worker.activity_labels) by (cbn; auto 15).
  assert (Hfan : In "Fan-out" Worker.activity_labels) by (cbn; auto 15).
  assert (Hdust : In "Dusting" Worker.activity_labels) by (cbn; auto 15).
  assert (Hlow : In "Low activity" Worker.activity_labels) by (cbn; auto 15).
  assert (Honly : In "Inbound only" Worker.activity_labels) by (cbn; auto 15).
  split; [|split].
  - intros Hrep.
    destruct (Hfacts _ Hburst Hrep) as (f & Hlab & Hb & _).
    destruct (Hb Hlab) as [Hins Houts]. repeat split; [| |exact Hins|exact Houts].
    + exists {| Worker.label := "Inbound only"; Worker.detail := "No outbound history.";
                Worker.level := Worker.low |}.
      split; [|reflexivity]. rewrite !in_app_iff. right. right. left.
      rewrite Houts. apply activity_report_inbound_only.
      intros E. rewrite E in Hins. cbn in Hins. lia.
    + intros Hrep'. destruct (Hfacts _ Hlow Hrep') as (g & Hlab' & _ & _ & _ & Hl & _).
      specialize (Hl Hlab'). rewrite length_app in Hl. lia.
  - intros Hrep.
    destruct (Hfacts _ Hfan Hrep) as (f & Hlab & _ & Hf & _).
    specialize (Hf Hlab). repeat split; [| |exact Hf].
    + intros Hrep'. destruct (Hfacts _ Honly Hrep') as (g & Hlab' & _ & _ & _ & _ & Ho).
      rewrite (Ho Hlab') in Hf. cbn in Hf. lia.
    + intros Hrep'. destruct (Hfacts _ Hlow Hrep') as (g & Hlab' & _ & _ & _ & Hl & _).
      specialize (Hl Hlab'). rewrite length_app in Hl. lia.
  - intros Hrep.
    destruct (Hfacts _ Hdust Hrep) as (f & Hlab & _ & _ & Hd & _).
    exact (Hd Hlab).
Qed.

(** X15: the table [BAD_ENS_ADDRS] of the configuration of [Worker.js].
    If it parses to [null], every accepted request is answered with status
    500 [worker_error], whatever the provider replies; if it does not parse
    at all, the worker answers as it does without the table (on a host that
    parses "{}" as the empty object). *)
Theorem ens_table_null_or_unparsable up Date_now request env :
  Worker.accepts request env = true ->
  (JSON_parse (or_else (Worker.BAD_ENS_ADDRS env) "{}") = JsonNull ->
   Worker.fetch up Date_now request env = Worker.JsonError 500 "worker_error") /\
  (JSON_parse (or_else (Worker.BAD_ENS_ADDRS env) "{}") = JsonSyntaxError ->
   JSON_parse "{}" = JsonObject [] ->
   Worker.fetch up Date_now request env =
   Worker.fetch up Date_now request (Worker.without_ens_table env)).
Proof.
  intros Hacc. split.
  - intros Hnull. rewrite (worker_fetch_accepted _ _ _ _ Hacc). cbv zeta.
    unfold Worker.blocklists, Worker.Object_get, Worker.parse_ens_addrs.
    now rewrite Hnull.
  - intros Hsyntax Hempty.
    assert (Hacc' : Worker.accepts request (Worker.without_ens_table env) = true)
      by exact Hacc.
    rewrite (worker_fetch_accepted _ _ _ _ Hacc), (worker_fetch_accepted _ _ _ _ Hacc').
    unfold Worker.parse_ens_addrs, Worker.without_ens_table.
    cbn [Worker.BAD_ENS_ADDRS Worker.BADLIST_ADDRESSES Worker.BAD_ENS_NAMES
         Worker.DUST_THRESHOLD_ETH or_else].
    now rewrite Hsyntax, Hempty.
Qed.

(** X16: a request that is not accepted (wrong path, malformed address,
    unsupported chain, provider URL not configured) is answered without
    looking at the provider, the clock or the random ids: the answer is the
    same whatever they are.  This holds for both workers. *)
Theorem rejected_requests_ignore_provider :
  (forall up up' random random' nowMs nowMs' request env,
      SafeSend.accepts request env = false ->
      SafeSend.fetch up random nowMs request env =
      SafeSend.fetch up' random' nowMs' request env) /\
  (forall up up' Date_now Date_now' request env,
      Worker.accepts request env = false ->
      Worker.fetch up Date_now request env = Worker.fetch up' Date_now' request env).
Proof.
  split.
  - intros up up' random random' nowMs nowMs' request env.
    unfold SafeSend.accepts, SafeSend.fetch, SafeSend.runRiskEval.
    destruct (SafeSend.method request =? "OPTIONS")%string; [reflexivity|].
    destruct (SafeSend.pathname request =? "/health")%string; [reflexivity|].
    destruct (SafeSend.pathname request =? "/check")%string; [|reflexivity].
    destruct (is_address _); [|reflexivity].
    destruct (toLowerCase _ =? "sepolia")%string; [|reflexivity].
    destruct (truthy _); [discriminate|reflexivity].
  - intros up up' Date_now Date_now' request env.
    unfold Worker.accepts, Worker.fetch.
    destruct (Worker.pathname request =? "/check")%string; [|reflexivity].
    destruct (is_address _); [|reflexivity].
    destruct (toLowerCase _ =? "sepolia")%string; [|reflexivity].
    destruct (truthy _); [discriminate|reflexivity].
Qed.

(** X17: the two workers read a blocklist string alike.  For a valid address
    and the same configured string (or none), the address is on the
    blocklist of [Worker.js] exactly when it is in the set that [parseCsvList]
    builds for [runRiskEval]. *)
Theorem workers_agree_on_blocklist (config : option string) (address : string) :
  is_address address = true ->
  Worker.includes_str (Worker.csv config) (toLowerCase address) =
  SafeSend.Set_has (SafeSend.parseCsvList config) (toLowerCase address).
Proof.
  intros Haddr. pose proof (is_address_lower address Haddr) as Hlower.
  apply eq_true_iff_eq. rewrite includes_str_In, csv_In, Set_has_In, parseCsvList_In.
  split.
  - intros (Hne & p & Hp & Hx). split.
    + destruct config as [s|]; cbn [truthy or_else] in *.
      * destruct (s =? "")%string; [|reflexivity].
        cbn [split_comma In] in Hp. destruct Hp as [<- | []]. now symmetry in Hx.
      * cbn [split_comma In] in Hp. destruct Hp as [<- | []]. now symmetry in Hx.
    + exists p. auto.
  - intros (_ & p & Hp & Hx & _). split.
    + intros Heq. rewrite Heq in Hlower. discriminate Hlower.
    + exists p. auto.
Qed.

(** X18: in [Worker.js], "Dormant" (last activity more than 180 days ago) is
    reported together with a finding on the age of the account only when the
    earliest timestamp of the history is 0, as for a transfer without
    timestamp, and that finding is then "New address".  The two readings of
    the clock are taken at most 150 days apart. *)
Theorem dormant_with_age_tier up Date_now request env s fs (tier : string) :
  Worker.fetch up Date_now request env = Worker.Json s fs ->
  Date_now 1%nat - Date_now 0%nat <= 150 * 86400000 ->
  Worker.reports "Dormant" fs ->
  In tier Worker.age_tiers ->
  Worker.reports tier fs ->
  tier = "New address" /\
  Worker.min_or_0
    (map Worker.recentMs
       (Worker.transfers_seen (transfers_from up) ++
        Worker.transfers_seen (transfers_to up))%list) = Num 0.
Proof.
  intros Hfetch Hclock Hdormant Htier Hreported.
  destruct (worker_report _ _ _ _ _ _ Hfetch) as (link & st & _ & _ & _ & _ & Hfs).
  rewrite Hfs in Hdormant, Hreported.
  apply reports_activity in Hdormant as (d & Hd & Hdl); [|cbn; auto 12].
  apply reports_activity in Hreported as (g & Hg & Hgl);
    [|cbn [Worker.age_tiers Worker.activity_labels In] in *; intuition auto 12].
  apply activity_report_recency in Hd, Hg. cbv zeta in Hd, Hg.
  destruct Hd as (Hdorm & _). specialize (Hdorm Hdl).
  destruct Hg as (_ & Hnew & Hnewish & Hrecent).
  set (all := (Worker.transfers_seen (transfers_from up) ++
               Worker.transfers_seen (transfers_to up))%list) in *.
  pose proof (first_before_latest (map Worker.recentMs all)) as Hord.
  assert (Hcases :
            Worker.min_or_0 (map Worker.recentMs all) = Num 0 \/
            Worker.days_lt (Worker.daysSince (Date_now 0%nat)
                              (Worker.min_or_0 (map Worker.recentMs all))) 30 = false).
  { apply (dormant_not_recent (Date_now 0%nat) (Date_now 1%nat) _ _ Hord Hclock).
    destruct (Worker.daysSince (Date_now 0%nat) _); exact Hdorm. }
  cbn [Worker.age_tiers In] in Htier.
  destruct Hcases as [Hzero | Hold].
  - split; [|exact Hzero]. rewrite Hzero in Hnewish, Hrecent.
    destruct Htier as [<- | [<- | [<- | []]]]; [reflexivity | |].
    + destruct (Hnewish Hgl) as [H1 _]. discriminate H1.
    + destruct (Hrecent Hgl) as [H7 _]. discriminate H7.
  - exfalso.
    destruct (Worker.daysSince (Date_now 0%nat) _) as [q|] eqn:Hq; [|discriminate Hold].
    unfold Worker.days_lt, Worker.ToNumber in *.
    apply negb_false_iff, Qle_bool_iff in Hold.
    assert (Hno : forall k : Q, (k <= 30)%Q -> negb (Qle_bool k q) = false).
    { intros k Hk. apply negb_false_iff, Qle_bool_iff. now apply Qle_trans with (y := 30%Q). }
    destruct Htier as [<- | [<- | [<- | []]]].
    + rewrite (Hno 1%Q) in Hnew by (unfold Qle; cbn; lia). discriminate (Hnew Hgl).
    + destruct (Hnewish Hgl) as [_ H7]. rewrite (Hno 7%Q) in H7 by (unfold Qle; cbn; lia).
      discriminate H7.
    + destruct (Hrecent Hgl) as [_ H30]. rewrite (Hno 30%Q) in H30 by (unfold Qle; cbn; lia).
      discriminate H30.
Qed.

(** X19: the wallet page with [Worker.js] behind it.  Whatever the worker
    and the provider do, [fetchSafeSend] gives a scored result and the modal
    opens; the Proceed button starts disabled exactly when the score is at
    least 60, and ticking the agreement enables it.  When the worker cannot
    be reached or answers an error, the result is the fixed score 40 and
    Proceed is enabled; when it answers a score for an address on its
    blocklist, Proceed starts disabled. *)
Theorem risk_modal_gate (online : bool) up Date_now env (address : string) :
  let service := Wallet.worker_service online up Date_now env in
  let check := Wallet.fetchSafeSend service address in
  exists s fs modal,
    check = Wallet.Scored s fs /\
    Wallet.showRiskModal check = Return modal /\
    Wallet.active modal = true /\
    Wallet.warning modal = (60 <=? s) /\
    Wallet.proceed_disabled modal = (60 <=? s) /\
    (forall checked,
        Wallet.proceed_disabled (Wallet.agree_change check checked modal) =
        (60 <=? s) && negb checked) /\
    (online = false \/
     (exists status error,
         Worker.fetch up Date_now (Wallet.check_url address) env =
         Worker.JsonError status error) ->
     check = Wallet.unavailable /\ Wallet.proceed_disabled modal = false) /\
    (forall s' fs',
        online = true ->
        Worker.fetch up Date_now (Wallet.check_url address) env = Worker.Json s' fs' ->
        s = s' /\ fs = fs' /\
        (Worker.includes_str (Worker.csv (Worker.BADLIST_ADDRESSES env))
           (toLowerCase (trim address)) = true ->
         Wallet.proceed_disabled modal = true)).
Proof.
  cbv zeta. unfold Wallet.fetchSafeSend, Wallet.worker_service.
  destruct online.
  - destruct (Worker.fetch up Date_now (Wallet.check_url address) env)
      as [s' fs' | status error] eqn:Hw.
    + cbn [Wallet.status_of Wallet.body_of ok]. change (negb (ok 200)) with false.
      cbn iota. eexists s', fs', _. split; [reflexivity|].
      split; [reflexivity|]. cbn [Wallet.active Wallet.warning Wallet.proceed_disabled
                                  Wallet.agree_change].
      repeat (split; [reflexivity|]). split.
      * intros [Hoff | (st & e & He)]; discriminate.
      * intros s'' fs'' _ Heq. injection Heq as <- <-.
        split; [reflexivity|]. split; [reflexivity|]. intros Hbl.
        pose proof (worker_blocklisted_score up Date_now (Wallet.check_url address) env
                      s' fs') as Hs.
        cbn [Wallet.check_url Worker.param_address] in Hs. rewrite or_else_empty in Hs.
        specialize (Hs Hbl Hw). apply Z.leb_le. lia.
    + cbn [Wallet.status_of]. rewrite (worker_error_status _ _ _ _ _ _ Hw).
      cbn [negb]. eexists 40, _, _. split; [reflexivity|].
      split; [reflexivity|]. cbn [Wallet.active Wallet.warning Wallet.proceed_disabled
                                  Wallet.agree_change Wallet.unavailable].
      repeat (split; [reflexivity|]). split.
      * intros _. split; reflexivity.
      * intros s'' fs'' _ Heq. discriminate.
  - eexists 40, _, _. split; [reflexivity|].
    split; [reflexivity|]. cbn [Wallet.active Wallet.warning Wallet.proceed_disabled
                                Wallet.agree_change Wallet.unavailable].
    repeat (split; [reflexivity|]). split.
    + intros _. split; reflexivity.
    + intros s'' fs'' Hon. discriminate.
Qed.

End MoreOfWorker.

(* ------------------------------------------------------------------------- *)
(** * The further properties on the fixtures *)

Section MoreOnFixtures.
Import JS Alchemy Fixtures.

Lemma assessment_shape_witness :
  10 <= SafeSend.score fresh_assessment <= 100 /\
  (SafeSend.decision fresh_assessment = SafeSend.block <->
   60 <= SafeSend.score fresh_assessment) /\
  (List.length (SafeSend.factors fresh_assessment) <= 8)%nat /\
  (SafeSend.score fresh_assessment < 95 ->
   SafeSend.score fresh_assessment =
   10 + SafeSend.total_weight (SafeSend.factors fresh_assessment)).
Proof.
  apply (@assessment_shape table_host fresh_account ids new_year_2025
           (safesend_check recipient) (safesend_env None) fresh_assessment).
  vm_compute; reflexivity.
Defined.

Lemma blocking_needs_evidence_witness :
  SafeSend.Set_has (SafeSend.parseCsvList (Some blocklist_entry)) (toLowerCase recipient)
    = true \/
  (2 <= List.length (SafeSend.factors blocked_assessment))%nat.
Proof.
  apply (@blocking_needs_evidence table_host fresh_account ids new_year_2025 recipient
           (safesend_env (Some blocklist_entry)) blocked_assessment);
    vm_compute; reflexivity.
Defined.

Lemma blocklist_factor_leads_witness :
  hd_error (SafeSend.factors blocked_assessment) =
  Some (SafeSend.factor SafeSend.high "On blocklist"
          "Recipient is present in a locally configured blocklist.").
Proof.
  apply (@blocklist_factor_leads table_host fresh_account ids new_year_2025 recipient
           (safesend_env (Some blocklist_entry)) blocked_assessment);
    vm_compute; reflexivity.
Defined.

Lemma nonce_factor_by_count_witness :
  filter (SafeSend.label_in ["New address"; "Very low activity"])
    (SafeSend.factors fresh_assessment) =
  if SafeSend.hexToInt "0x0" =? 0
  then [SafeSend.factor SafeSend.medium "New address"
          "Recipient has no prior transactions (nonce 0)."]
  else if SafeSend.hexToInt "0x0" <? 3
  then [SafeSend.factor SafeSend.low "Very low activity"
          "Recipient has very limited on-chain activity."]
  else [].
Proof.
  apply (@nonce_factor_by_count table_host fresh_account ids new_year_2025 recipient
           (safesend_env None) fresh_assessment "0x0");
    vm_compute; reflexivity.
Defined.

Lemma counting_factors_need_transfers_witness :
  (5 <= List.length (repeat (transfer_at (Some "2024-12-31T23:01:00.000Z")) 5))%nat.
Proof.
  apply (@counting_factors_need_transfers table_host busy_account ids new_year_2025
           recipient (safesend_env None) busy_assessment
           (Some (repeat (transfer_at (Some "2024-12-31T23:01:00.000Z")) 5)) (Some [])
           frequent_outbounds_factor).
  - vm_compute; reflexivity.
  - vm_compute; reflexivity.
  - vm_compute; reflexivity.
  - left; reflexivity.
  - reflexivity.
Defined.

Lemma undated_history_looks_like_fast_outflow_witness :
  In (SafeSend.factor SafeSend.high "Fresh funds → fast outflow"
        "Outbound occurred shortly after inbound (≤10m).")
     (SafeSend.factors undated_relay_assessment) /\
  (24 * 60 * 60 * 1000 < new_year_2025 ->
   SafeSend.countWithin new_year_2025
     (SafeSend.normalized (host := table_host) (Some [transfer_at None]))
     (24 * 60 * 60 * 1000) = 0 /\
   forall f, In f (SafeSend.factors undated_relay_assessment) ->
             SafeSend.label f <> "High-frequency outbounds" /\
             SafeSend.label f <> "Frequent outbounds").
Proof.
  apply (@undated_history_looks_like_fast_outflow table_host undated_relay ids
           new_year_2025 recipient (safesend_env None) undated_relay_assessment
           (Some [transfer_at None]) (Some [transfer_at None])).
  - vm_compute; reflexivity.
  - vm_compute; reflexivity.
  - vm_compute; reflexivity.
  - vm_compute; discriminate.
  - vm_compute; discriminate.
  - intros t Ht. vm_compute in Ht. destruct Ht as [<- | [<- | []]]; vm_compute; reflexivity.
Defined.

Lemma freshInThenOut_newest_only_witness :
  SafeSend.freshInThenOut
    [SafeSend.normalizeTransfer (host := table_host)
       (transfer_at (Some "2024-12-31T23:00:00.000Z"))]
    [SafeSend.normalizeTransfer (host := table_host)
       (transfer_at (Some "2025-01-01T00:00:00.000Z"));
     SafeSend.normalizeTransfer (host := table_host)
       (transfer_at (Some "2024-12-31T23:01:00.000Z"))]
    (10 * 60 * 1000) =
  (1735686000000 <=? 1735689600000) && (1735689600000 - 1735686000000 <=? 10 * 60 * 1000).
Proof.
  apply (freshInThenOut_newest_only
           (SafeSend.normalizeTransfer (host := table_host)
              (transfer_at (Some "2024-12-31T23:00:00.000Z")))
           (SafeSend.normalizeTransfer (host := table_host)
              (transfer_at (Some "2025-01-01T00:00:00.000Z")))).
  repeat constructor. vm_compute; discriminate.
Defined.

Lemma freshInThenOut_sound_witness :
  exists latestIn older o,
    [SafeSend.normalizeTransfer (host := table_host)
       (transfer_at (Some "2024-12-31T23:00:00.000Z"))] = latestIn :: older /\
    In o [SafeSend.normalizeTransfer (host := table_host)
            (transfer_at (Some "2024-12-31T23:01:00.000Z"))] /\
    SafeSend.timestamp latestIn <= SafeSend.timestamp o
      <= SafeSend.timestamp latestIn + 10 * 60 * 1000.
Proof.
  apply freshInThenOut_sound. vm_compute; reflexivity.
Defined.

Lemma blocklist_match_witness :
  (SafeSend.Set_has (SafeSend.parseCsvList (Some blocklist_entry)) (toLowerCase recipient)
     = true <->
   exists entry, In entry (split_comma blocklist_entry) /\
                 toLowerCase (trim entry) = toLowerCase recipient) /\
  (SafeSend.Set_has (SafeSend.parseCsvList (Some padded_entry)) (toLowerCase recipient)
     = true <->
   exists entry, In entry (split_comma padded_entry) /\
                 toLowerCase (trim entry) = toLowerCase recipient).
Proof.
  split.
  - apply (blocklist_match blocklist_entry recipient). vm_compute; reflexivity.
  - apply (blocklist_match padded_entry recipient). vm_compute; reflexivity.
Defined.

(** White space that is not ASCII is trimmed too: an address padded with
    U+00A0 is accepted by both workers, and a blocklist entry padded with it
    is kept. *)
Example padded_with_no_break_spaces :
  trim padded_recipient = recipient /\
  Worker.accepts (worker_check padded_recipient) (worker_env None) = true /\
  SafeSend.accepts (safesend_check padded_recipient) (safesend_env None) = true /\
  SafeSend.Set_has (SafeSend.parseCsvList (Some padded_entry)) (toLowerCase recipient)
    = true /\
  Worker.includes_str (Worker.csv (Some padded_entry)) (toLowerCase recipient) = true.
Proof. repeat split; vm_compute; reflexivity. Qed.

Lemma score_explained_by_findings_witness :
  85 = Worker.clamp (Worker.total_weight blocked_findings) /\
  forallb (fun f => Worker.Level_eqb (Worker.level f)
                      (Worker.level_of_label (Worker.label f))) blocked_findings = true.
Proof.
  apply (@score_explained_by_findings table_host old_account at_new_year
           (worker_check recipient) (worker_env (Some blocklist_entry))).
  vm_compute; reflexivity.
Defined.

Lemma account_type_finding_witness :
  filter (Worker.label_in ["EOA"; "Contract"; "Unknown type"]) unknown_findings =
  [unknown_type_finding] /\
  filter (Worker.label_in ["EOA"; "Contract"; "Unknown type"])
    [eoa_finding; no_history_finding] = [eoa_finding] /\
  filter (Worker.label_in ["EOA"; "Contract"; "Unknown type"])
    (findings_of (Worker.fetch (host := table_host) contract_account at_new_year
                    (worker_check recipient) (worker_env None))) =
  [finding "Contract" "Recipient is a contract address." Worker.medium].
Proof.
  split; [|split].
  - assert (H : Worker.fetch (host := table_host) no_bytecode at_new_year
                  (worker_check recipient) (worker_env None) =
                Worker.Json 22 unknown_findings) by (vm_compute; reflexivity).
    eapply (proj1 (@account_type_finding table_host no_bytecode at_new_year
                     (worker_check recipient) (worker_env None) 22 unknown_findings H)).
    vm_compute; reflexivity.
  - apply (proj1 (proj2 (@account_type_finding table_host fresh_account at_new_year
                           (worker_check recipient) (worker_env None) 22
                           [eoa_finding; no_history_finding] eq_refl)) "0x").
    vm_compute; reflexivity.
  - apply (proj1 (proj2 (@account_type_finding table_host contract_account at_new_year
                           (worker_check recipient) (worker_env None) _ _ eq_refl)) "0x6080").
    vm_compute; reflexivity.
Defined.

Lemma activity_findings_go_together_witness :
  (Worker.reports "Inbound burst" airdrop_findings ->
   Worker.reports "Inbound only" airdrop_findings /\
   ~ Worker.reports "Low activity" airdrop_findings /\
   (5 <= List.length (Worker.transfers_seen (transfers_to airdrop_account)))%nat /\
   Worker.transfers_seen (transfers_from airdrop_account) = []) /\
  (Worker.reports "Fan-out" airdrop_findings ->
   ~ Worker.reports "Inbound only" airdrop_findings /\
   ~ Worker.reports "Low activity" airdrop_findings /\
   (10 <= List.length (Worker.transfers_seen (transfers_from airdrop_account)))%nat) /\
  (Worker.reports "Dusting" airdrop_findings ->
   (3 <= List.length (Worker.transfers_seen (transfers_to airdrop_account)))%nat).
Proof.
  apply (@activity_findings_go_together table_host airdrop_account at_new_year
           (worker_check recipient) (worker_env None) 44 airdrop_findings).
  vm_compute; reflexivity.
Defined.

Lemma ens_table_null_or_unparsable_witness :
  Worker.fetch (host := table_host) fresh_account at_new_year (worker_check recipient)
    (worker_env_with_table "null") = Worker.JsonError 500 "worker_error" /\
  Worker.fetch (host := table_host) fresh_account at_new_year (worker_check recipient)
    (worker_env_with_table "{0x") =
  Worker.fetch (host := table_host) fresh_account at_new_year (worker_check recipient)
    (Worker.without_ens_table (worker_env_with_table "{0x")).
Proof.
  split.
  - apply (@ens_table_null_or_unparsable table_host fresh_account at_new_year
             (worker_check recipient) (worker_env_with_table "null"));
      vm_compute; reflexivity.
  - apply (@ens_table_null_or_unparsable table_host fresh_account at_new_year
             (worker_check recipient) (worker_env_with_table "{0x"));
      vm_compute; reflexivity.
Defined.

Lemma workers_agree_on_blocklist_witness :
  Worker.includes_str (Worker.csv (Some blocklist_entry)) (toLowerCase recipient) =
  SafeSend.Set_has (SafeSend.parseCsvList (Some blocklist_entry)) (toLowerCase recipient).
Proof.
  apply (workers_agree_on_blocklist (Some blocklist_entry) recipient).
  vm_compute; reflexivity.
Defined.

Lemma dormant_with_age_tier_witness :
  "New address" = "New address" /\
  Worker.min_or_0
    (map (Worker.recentMs (host := table_host))
       (Worker.transfers_seen (transfers_from mixed_account) ++
        Worker.transfers_seen (transfers_to mixed_account))%list) = Num 0.
Proof.
  apply (@dormant_with_age_tier table_host mixed_account at_new_year
           (worker_check recipient) (worker_env None) 39 mixed_findings).
  - vm_compute; reflexivity.
  - vm_compute; discriminate.
  - exists (finding "Dormant" "Last activity > 180 days ago. Slightly safer." Worker.low).
    split; [vm_compute; auto 6 | reflexivity].
  - left; reflexivity.
  - exists (finding "New address" "First seen < 24h." Worker.high).
    split; [vm_compute; auto 6 | reflexivity].
Defined.

End MoreOnFixtures.
